(** * DoubleExpiry: the rule engine and the market-data client

    A shallow embedding of the decision engine of the Mechanical Options
    Trade Recommender ([src/utils/helpers.py], [src/utils/validation.py],
    [src/models/options_model.py]) and of the pure parts of its market-data
    client ([src/utils/ibkr_client.py]), followed by the properties the
    specification states about them.

    Python floats are IEEE 754 binary64 numbers and are modelled by Rocq's
    primitive floats; Python integers are modelled by [Z]; Python strings by
    [string]; an insertion-ordered [dict] by an association list whose keys
    are kept distinct by [setitem]; a raised exception by the [Raise] branch
    of [result].  A method that updates its object returns the object
    afterwards next to its result. *)

From Stdlib Require Import ZArith List String Ascii Bool Lia.
From Stdlib Require Import Floats.
From Stdlib Require Import DecimalString.
From Stdlib Require Import Permutation.
Import ListNotations.

Set Warnings "-inexact-float".

Local Open Scope string_scope.
Local Open Scope Z_scope.

(* ===================================================================== *)
(** * Part I: definitions                                                 *)
(* ===================================================================== *)

(** ** The fragment of the Python runtime the program relies on *)

Module Py.

(** Exceptions the modelled code raises. *)
Inductive exn : Type :=
| ValidationError (msg : string)
| KeyError (key : string)
| ZeroDivisionError
| OverflowError (msg : string)
| RuntimeError (msg : string)
| ConnectionRefusedError.

Inductive result (A : Type) : Type :=
| Return (a : A)
| Raise (e : exn).
Arguments Return {A} a.
Arguments Raise {A} e.

Definition bind {A B} (c : result A) (k : A -> result B) : result B :=
  match c with
  | Return a => k a
  | Raise e => Raise e
  end.

(** [try: c except Exception: h] *)
Definition try_except {A} (c : result A) (h : exn -> result A) : result A :=
  match c with
  | Return a => Return a
  | Raise e => h e
  end.

(** An insertion-ordered dictionary with string keys. *)
Definition dict (V : Type) : Type := list (string * V).

Definition keys {V} (d : dict V) : list string := map fst d.
Definition values {V} (d : dict V) : list V := map snd d.
Definition len {V} (d : dict V) : Z := Z.of_nat (List.length d).

(** [d.get(k)] *)
Fixpoint get {V} (d : dict V) (k : string) : option V :=
  match d with
  | [] => None
  | (k', v) :: d' => if String.eqb k' k then Some v else get d' k
  end.

(** [d[k]] *)
Definition getitem {V} (d : dict V) (k : string) : result V :=
  match get d k with
  | Some v => Return v
  | None => Raise (KeyError k)
  end.

(** [d[k] = v]: an existing key keeps its position, a new key is appended. *)
Fixpoint setitem {V} (d : dict V) (k : string) (v : V) : dict V :=
  match d with
  | [] => [(k, v)]
  | (k', v') :: d' =>
      if String.eqb k' k then (k', v) :: d' else (k', v') :: setitem d' k v
  end.

(** [sum(f(x) for x in xs)] for an [f] that may raise: the generator is
    consumed from the left and the first exception ends the sum. *)
Fixpoint sum_gen {A} (f : A -> result Z) (xs : list A) (acc : Z) : result Z :=
  match xs with
  | [] => Return acc
  | x :: xs' => bind (f x) (fun y => sum_gen f xs' (acc + y))
  end.

(** [sum(1 for x in xs if p(x))] *)
Definition count_if {A} (p : A -> bool) (xs : list A) : Z :=
  fold_left (fun acc x => if p x then acc + 1 else acc) xs 0.

(** [sub in s] for two strings. *)
Fixpoint contains (sub s : string) : bool :=
  match s with
  | EmptyString => String.prefix sub s
  | String _ s' => String.prefix sub s || contains sub s'
  end.

End Py.

Import Py.

Declare Scope py_scope.
Delimit Scope py_scope with py.
Notation "x <- c ;; k" := (Py.bind c (fun x => k))
  (at level 61, c at next level, right associativity) : py_scope.
Notation "c ;;; k" := (Py.bind c (fun _ => k))
  (at level 61, right associativity) : py_scope.
Local Open Scope py_scope.

(** ** [src/utils/helpers.py] *)

Module helpers.

(** [traffic(value, green_fn, yellow_fn)] *)
Definition traffic {A} (value : A) (green_fn yellow_fn : A -> bool) : string :=
  if green_fn value then "GREEN"
  else if yellow_fn value then "YELLOW"
  else "RED".

Definition score_map : dict Z := [("GREEN", 2); ("YELLOW", 1); ("RED", 0)].

Definition ENTER_ALL_GREEN : string := "ENTER (All green) ✅".
Definition ENTER_CAUTION : string := "ENTER — CAUTION ⚠️".
Definition WAIT : string := "WAIT ❌".

(** [final_decision(statuses)] *)
Definition final_decision (statuses : dict string) : result string :=
  score <- sum_gen (getitem score_map) (values statuses) 0 ;;
  let reds := count_if (fun s => String.eqb s "RED") (values statuses) in
  let n := len statuses in
  if (score =? 2 * n) && (reds =? 0) then Return ENTER_ALL_GREEN
  else if (score >=? 2 * (n - 1)) && (reds =? 0) then Return ENTER_CAUTION
  else Return WAIT.

Definition colors : dict string :=
  [("GREEN", "#C6EFCE"); ("YELLOW", "#FFF2CC"); ("RED", "#F8CBAD")].

(** [status_color(label)] *)
Definition status_color (label : string) : string :=
  "background-color:"
  ++ match get colors label with Some c => c | None => "#FFFFFF" end
  ++ "; padding:6px; border-radius:6px;".

End helpers.

(** ** Python's numbers *)

Module PyNum.

Local Open Scope float_scope.

(** [bool(x)] of a float: every float but the two zeros is true (a NaN is). *)
Definition truthy (x : float) : bool := negb (x =? 0).

(** The builtins [max(a, b)] and [min(a, b)]: the first argument is kept
    unless the second compares strictly greater (smaller). *)
Definition max2 (a b : float) : float := if a <? b then b else a.
Definition min2 (a b : float) : float := if b <? a then b else a.

(** [max(xs)] and [min(xs)] of a non-empty list, scanned from the left. *)
Definition max_list (x : float) (xs : list float) : float := fold_left max2 xs x.
Definition min_list (x : float) (xs : list float) : float := fold_left min2 xs x.

(** [a / b] *)
Definition div (a b : float) : result float :=
  if b =? 0 then Raise ZeroDivisionError else Return (a / b).

(** An int of at most 53 bits as the float of the same value. *)
Definition float_of_int (n : Z) : float :=
  if (n <? 0)%Z then - of_uint63 (Uint63.of_Z (- n)) else of_uint63 (Uint63.of_Z n).

(** The exact value of a float against an int, [None] for a NaN. *)
Definition cmp_exact (x : float) (n : Z) : option comparison :=
  match Prim2SF x with
  | S754_nan => None
  | S754_infinity s => Some (if s then Lt else Gt)
  | S754_zero _ => Some (0 ?= n)%Z
  | S754_finite s m e =>
      let v := if s then Z.neg m else Z.pos m in
      Some (if (0 <=? e)%Z then (v * 2 ^ e ?= n)%Z else (v ?= n * 2 ^ (- e))%Z)
  end.

(** Python compares a float with an int by their exact values.  An int of at
    most 53 bits is a float, so the float comparison decides; a larger int is
    compared with the exact value of the float. *)
Definition float_cmp_int (x : float) (n : Z) : option comparison :=
  if (Z.abs n <=? 2 ^ 53)%Z then
    match x ?= float_of_int n with
    | FEq => Some Eq
    | FLt => Some Lt
    | FGt => Some Gt
    | FNotComparable => None
    end
  else cmp_exact x n.

(** The numbers the validators are called with (floats from the numeric
    fields of the form, an int for the day count), against an int bound. *)
Class Number (A : Type) : Type := { cmp_int : A -> Z -> option comparison }.

#[export] Instance Number_float : Number float := {| cmp_int := float_cmp_int |}.
#[export] Instance Number_int : Number Z := {| cmp_int := fun x n => Some (x ?= n)%Z |}.

(** [x < n], [x <= n], [x > n] *)
Definition lt_int {A} `{Number A} (x : A) (n : Z) : bool :=
  match cmp_int x n with Some Lt => true | _ => false end.
Definition le_int {A} `{Number A} (x : A) (n : Z) : bool :=
  match cmp_int x n with Some Lt | Some Eq => true | _ => false end.
Definition gt_int {A} `{Number A} (x : A) (n : Z) : bool :=
  match cmp_int x n with Some Gt => true | _ => false end.

(** [f"{n}"] of an int *)
Definition str_of_int (n : Z) : string := NilZero.string_of_int (Z.to_int n).

End PyNum.

Import PyNum.

(** ** [src/utils/validation.py] *)

Module validation.

(** [validate_positive(value, name)] *)
Definition validate_positive {A} `{Number A} (value : A) (name : string) : result A :=
  if le_int value 0 then Raise (ValidationError (name ++ " must be greater than zero"))
  else Return value.

(** [validate_range(value, name, min_val=None, max_val=None)] *)
Definition validate_range {A} `{Number A} (value : A) (name : string)
    (min_val max_val : option Z) : result A :=
  match min_val with
  | Some lo =>
      if lt_int value lo
      then Raise (ValidationError (name ++ " must be at least " ++ str_of_int lo))
      else Return tt
  | None => Return tt
  end ;;;
  match max_val with
  | Some hi =>
      if gt_int value hi
      then Raise (ValidationError (name ++ " must be at most " ++ str_of_int hi))
      else Return tt
  | None => Return tt
  end ;;;
  Return value.

Definition STRIKES_MESSAGE : string :=
  "Put strike should be less than call strike for typical strategies".

(** [validate_strikes(put_strike, call_strike)] *)
Definition validate_strikes (put_strike call_strike : float) : result bool :=
  if (call_strike <=? put_strike)%float
  then Raise (ValidationError STRIKES_MESSAGE)
  else Return true.

(** The input record the user interface builds ([get_user_inputs]): every
    numeric field is a float, except the day count, which is an int. *)
Record Inputs : Type := {
  symbol : string;
  price : float;
  put_strike : float;
  call_strike : float;
  front_put_iv : float;
  front_call_iv : float;
  back_put_iv : float;
  back_call_iv : float;
  iv_rank_pct : float;
  days_to_event : Z;
  vix_value : float;
  atr_points : float;
  use_atr : bool
}.

(** [validate_inputs(inputs)] *)
Definition validate_inputs (inputs : Inputs) : result Inputs :=
  validate_positive (price inputs) "Price" ;;;
  validate_positive (put_strike inputs) "Put strike" ;;;
  validate_positive (call_strike inputs) "Call strike" ;;;
  validate_strikes (put_strike inputs) (call_strike inputs) ;;;
  validate_range (front_put_iv inputs) "Front-week PUT IV" (Some 0) None ;;;
  validate_range (front_call_iv inputs) "Front-week CALL IV" (Some 0) None ;;;
  validate_range (back_put_iv inputs) "Back-week PUT IV" (Some 0) None ;;;
  validate_range (back_call_iv inputs) "Back-week CALL IV" (Some 0) None ;;;
  validate_range (iv_rank_pct inputs) "IV Rank" (Some 0) (Some 100) ;;;
  validate_range (days_to_event inputs) "Days to event" (Some 0) None ;;;
  validate_positive (vix_value inputs) "VIX value" ;;;
  (if use_atr inputs
   then validate_positive (atr_points inputs) "ATR points" ;;; Return tt
   else Return tt) ;;;
  Return inputs.

End validation.

Import validation.

(** ** [src/models/options_model.py] *)

Module OptionsModel.

Local Open Scope float_scope.

(** The dictionary [compute_metrics] stores in [self.metrics]; it is assigned
    as a whole, so it is either empty or holds these ten entries. *)
Record Metrics : Type := {
  midpoint : float;
  dist_from_mid : float;
  strike_width : float;
  front_avg_iv : float;
  back_avg_iv : float;
  term_gap_pts : float;
  iv_rank : float;
  atr_ok : bool;
  m_use_atr : bool;
  m_atr_points : float
}.

(** The attributes of an [OptionsModel] object.  [metrics = None] is the
    empty dictionary [{}]. *)
Record model : Type := {
  inputs : Inputs;
  metrics : option Metrics;
  statuses : dict string
}.

(** [OptionsModel(inputs)]: [__init__] followed by [_validate_inputs], which
    logs and re-raises. *)
Definition init (inp : Inputs) : result model :=
  let self := {| inputs := inp; metrics := None; statuses := [] |} in
  validate_inputs (inputs self) ;;;
  Return self.

(** The body of [compute_metrics], as a function of [self.inputs]. *)
Definition metrics_of (inp : Inputs) : Metrics :=
  let put_strike := put_strike inp in
  let call_strike := call_strike inp in
  let price := price inp in
  let front_put_iv := front_put_iv inp in
  let front_call_iv := front_call_iv inp in
  let back_put_iv := back_put_iv inp in
  let back_call_iv := back_call_iv inp in
  let atr_points := atr_points inp in
  let use_atr := use_atr inp in
  let midpoint := (put_strike + call_strike) / 2 in
  let dist_from_mid :=
    if truthy midpoint then abs (price - midpoint) / midpoint else 1 in
  let strike_width := abs (call_strike - put_strike) in
  let front_avg_iv := (front_put_iv + front_call_iv) / 2 in
  let back_avg_iv := (back_put_iv + back_call_iv) / 2 in
  let term_gap_pts := front_avg_iv - back_avg_iv in
  let iv_rank := iv_rank_pct inp / 100 in
  let atr_ok := atr_points <=? max2 1e-9 (strike_width / 2) in
  {| midpoint := midpoint;
     dist_from_mid := dist_from_mid;
     strike_width := strike_width;
     front_avg_iv := front_avg_iv;
     back_avg_iv := back_avg_iv;
     term_gap_pts := term_gap_pts;
     iv_rank := iv_rank;
     atr_ok := atr_ok;
     m_use_atr := use_atr;
     m_atr_points := atr_points |}.

(** [self.compute_metrics()]: the result and the object afterwards. *)
Definition compute_metrics (self : model) : Metrics * model :=
  let m := metrics_of (inputs self) in
  (m, {| inputs := inputs self; metrics := Some m; statuses := statuses self |}).

(** [if not self.metrics: self.compute_metrics()] *)
Definition ensure_metrics (self : model) : Metrics * model :=
  match metrics self with
  | Some m => (m, self)
  | None => compute_metrics self
  end.

(** [self.evaluate_status_lights()] *)
Definition evaluate_status_lights (self : model) : dict string * model :=
  let '(m, self) := ensure_metrics self in
  let st : dict string := [] in
  let st := setitem st "Price Location"
    (helpers.traffic (dist_from_mid m)
       (fun x => x <=? 0.01)
       (fun x => x <=? 0.02)) in
  let st := setitem st "Term Structure"
    (helpers.traffic (term_gap_pts m)
       (fun x => 2.0 <=? x)
       (fun x => 1.0 <=? x)) in
  let st := setitem st "IV Rank"
    (helpers.traffic (iv_rank m)
       (fun x => (0.30 <=? x) && (x <=? 0.50))
       (fun x => ((0.20 <=? x) && (x <? 0.30)) || ((0.50 <? x) && (x <=? 0.60)))) in
  let st := setitem st "Event Proximity"
    (helpers.traffic (days_to_event (inputs self))
       (fun x => (3 <=? x)%Z && (x <=? 7)%Z)
       (fun x => (1 <=? x)%Z && (x <=? 2)%Z)) in
  let st := setitem st "VIX"
    (helpers.traffic (vix_value (inputs self))
       (fun x => (14 <=? x) && (x <=? 20))
       (fun x => (20 <? x) && (x <=? 25))) in
  let st :=
    if use_atr (inputs self)
    then setitem st "ATR Guardrail"
           (helpers.traffic (atr_ok m) (fun ok => ok) (fun ok => false))
    else st in
  (st, {| inputs := inputs self; metrics := metrics self; statuses := st |}).

(** [not self.statuses] *)
Definition no_statuses (self : model) : bool :=
  match statuses self with [] => true | _ => false end.

(** [self.get_final_decision()] *)
Definition get_final_decision (self : model) : result string * model :=
  let self := if no_statuses self then snd (evaluate_status_lights self) else self in
  (helpers.final_decision (statuses self), self).

Definition CALENDAR : string := "Double Calendar (front week vs back week)".
Definition VERTICAL : string := "Cheaper OTM Vertical (directional)".
Definition CONDOR : string := "Short-duration Iron Condor (range)".
Definition NO_TRADE : string :=
  "No trade â€” wait for better IV/term structure or re-center strikes".

(** [x == s] and [x != s] for the result [x] of a [dict.get]. *)
Definition is_label (x : option string) (s : string) : bool :=
  match x with Some v => String.eqb v s | None => false end.

(** [self.get_strategy_suggestions()] *)
Definition get_strategy_suggestions (self : model) : list string * model :=
  let '(m, self) := ensure_metrics self in
  let self := if no_statuses self then snd (evaluate_status_lights self) else self in
  let suggestions : list string := [] in
  let iv_rank := iv_rank m in
  let vix_value := vix_value (inputs self) in
  let st := statuses self in
  let suggestions :=
    if is_label (get st "IV Rank") "GREEN"
       && (is_label (get st "Term Structure") "GREEN"
           || is_label (get st "Term Structure") "YELLOW")
       && negb (is_label (get st "Price Location") "RED")
    then (suggestions ++ [CALENDAR])%list else suggestions in
  let suggestions :=
    if (iv_rank <? 0.25) && is_label (get st "Price Location") "GREEN"
    then (suggestions ++ [VERTICAL])%list else suggestions in
  let suggestions :=
    if (0.45 <? iv_rank) && (iv_rank <=? 0.60)
       && (18 <=? vix_value)
       && is_label (get st "Price Location") "GREEN"
    then (suggestions ++ [CONDOR])%list else suggestions in
  let suggestions :=
    match suggestions with
    | [] => (suggestions ++ [NO_TRADE])%list
    | _ => suggestions
    end in
  (suggestions, self).

End OptionsModel.

(** ** The fragment of Python's [datetime] module the client relies on *)

Module datetime.

(** A [date] is a day of the proleptic Gregorian calendar, from 0001-01-01
    (ordinal 1) to 9999-12-31 (ordinal [MAXORDINAL]). *)
Record date : Type := { toordinal : Z }.

Definition MAXORDINAL : Z := 3652059.

Definition in_range (d : date) : Prop := 1 <= toordinal d <= MAXORDINAL.

(** [d.weekday()]: Monday is 0, Friday is 4. *)
Definition weekday (d : date) : Z := (toordinal d + 6) mod 7.

(** [d + timedelta(days=k)] *)
Definition add_days (d : date) (k : Z) : result date :=
  let o := toordinal d + k in
  if (0 <? o) && (o <=? MAXORDINAL) then Return {| toordinal := o |}
  else Raise (OverflowError "date value out of range").

Definition is_leap (y : Z) : bool :=
  (y mod 4 =? 0) && (negb (y mod 100 =? 0) || (y mod 400 =? 0)).

Definition days_before_year (y : Z) : Z :=
  let y := y - 1 in y * 365 + y / 4 - y / 100 + y / 400.

Definition days_before_month (y m : Z) : Z :=
  nth (Z.to_nat (m - 1)) [0; 31; 59; 90; 120; 151; 181; 212; 243; 273; 304; 334] 0
  + (if (2 <? m) && is_leap y then 1 else 0).

(** [date(y, m, d)] for a day that exists. *)
Definition ymd (y m d : Z) : date :=
  {| toordinal := days_before_year y + days_before_month y m + d |}.

End datetime.

(** ** [src/utils/ibkr_client.py] *)

Module IBKRClient.

Import datetime.
Local Open Scope float_scope.

(** What the client finds outside the program. *)
Record environment : Type := {
  ib_insync_importable : bool;          (* [IB] is set, at load time or by the lazy import *)
  connect : result unit;                (* [self.ib.connect(...)]: it returns, or what it raises *)
  reqMarketDataType : Z -> result unit  (* [self.ib.reqMarketDataType(t)] on the new connection *)
}.

(** An [ib_insync.IB] object as the client looks at it.  [IB()] is born
    disconnected; a [connect] that returns leaves it connected and one that
    raises leaves it disconnected; [reqMarketDataType] does not change the
    connection. *)
Record IB : Type := {
  isConnected : bool;
  market_data_type : option Z    (* the last [reqMarketDataType] request that returned *)
}.

(** The attributes of an [IBKRClient] the modelled methods read or write. *)
Record client : Type := {
  delayed : bool;
  ib : option IB                 (* [self.ib]: [None] until the first attempt to connect *)
}.

(** [self.ib and self.ib.isConnected()] *)
Definition connected (self : client) : bool :=
  match ib self with Some h => isConnected h | None => false end.

(** [self.ensure_connected()].  [self.ib = IB()] comes before the [try], so
    the attempt replaces the object the client holds whatever its outcome;
    the [except] covers [connect] and [reqMarketDataType] alike. *)
Definition ensure_connected (env : environment) (self : client) : bool * client :=
  if negb (ib_insync_importable env) then (false, self)
  else if connected self then (true, self)
  else
    let self := {| delayed := delayed self;
                   ib := Some {| isConnected := false; market_data_type := None |} |} in
    match connect env with
    | Raise _ => (false, self)
    | Return _ =>
        let self := {| delayed := delayed self;
                       ib := Some {| isConnected := true; market_data_type := None |} |} in
        let t := (if delayed self then 3 else 1)%Z in
        match reqMarketDataType env t with
        | Raise _ => (false, self)
        | Return _ =>
            (true, {| delayed := delayed self;
                      ib := Some {| isConnected := true; market_data_type := Some t |} |})
        end
    end.

(** [self.get_underlying_price(symbol)]: the body is the guard alone, so a
    connected client leaves the function at its end. *)
Definition get_underlying_price (env : environment) (self : client) (symbol : string)
  : option float * client :=
  let '(ok, self) := ensure_connected env self in
  if negb ok then (None, self)
  else (None, self).

(** A quote as [reqMktData] delivers it. *)
Record Ticker : Type := {
  last : option float;
  bid : option float;
  ask : option float;
  close : option float
}.

(** What the quote sources would answer for one symbol. *)
Record quotes : Type := {
  live : Ticker;                          (* first [reqMktData] *)
  after_delayed : result Ticker;          (* [reqMarketDataType(3)], second [reqMktData] *)
  daily_bars : result (list float);       (* closes of [reqHistoricalData(.. "1 D" ..)] *)
  yf_present : bool;                      (* [yf is not None] *)
  yf_close : result (list float)          (* [yf.Ticker(symbol).history("1d")["Close"]] *)
}.

(** Truth value of an [Optional[float]]. *)
Definition truthy_opt (x : option float) : bool :=
  match x with Some v => truthy v | None => false end.

(** [a or b] *)
Definition or_else (a b : option float) : option float :=
  if truthy_opt a then a else b.

(** [_is_valid(x)] *)
Definition _is_valid (x : option float) : bool :=
  match x with Some v => is_finite v | None => false end.

(** [xs[-1]] of a list known to be non-empty. *)
Definition last_item (xs : list float) : option float :=
  match xs with [] => None | x :: xs' => Some (List.last xs' x) end.

(** The statements of lines 200-253, which follow the final [return None] of
    [get_iv_rank] and are reached by no call: the price cascade. *)
Definition unreachable_price_cascade (q : quotes) : option float :=
  let ticker := live q in
  let last_ := last ticker in
  let mid :=
    match bid ticker, ask ticker with
    | Some b, Some a => if 0 <? a then Some ((b + a) / 2) else None
    | _, _ => None
    end in
  let close_ := close ticker in
  let price := or_else (or_else last_ mid) close_ in
  let price :=
    if negb (_is_valid price) then
      match after_delayed q with
      | Return t2 =>
          let mid2 :=
            if truthy_opt (bid t2) && truthy_opt (ask t2)
               && match ask t2 with Some a => 0 <? a | None => false end
            then match bid t2, ask t2 with
                 | Some b, Some a => Some ((b + a) / 2)
                 | _, _ => None
                 end
            else None in
          let price2 := or_else (or_else (last t2) mid2) (close t2) in
          if _is_valid price2 then price2 else price
      | Raise _ => price
      end
    else price in
  let price :=
    if negb (_is_valid price) then
      match daily_bars q with
      | Return bars =>
          match last_item bars with Some c => Some c | None => price end
      | Raise _ => price
      end
    else price in
  let price :=
    if negb (_is_valid price) && yf_present q then
      match yf_close q with
      | Return closes =>
          match last_item closes with Some c => Some c | None => price end
      | Raise _ => price
      end
    else price in
  if _is_valid price then price else None.

(** [nearest_two_fridays(from_date)]; [today] is [dt.date.today()]. *)
Definition nearest_two_fridays (today : date) (from_date : option date)
  : result (date * date) :=
  let d := match from_date with Some d => d | None => today end in
  let days_ahead := ((4 - weekday d) mod 7)%Z in
  first <- (if (days_ahead =? 0)%Z then Return d else add_days d days_ahead) ;;
  second <- add_days first 7 ;;
  Return (first, second).

(** What the two volatility histories would answer. *)
Record iv_feed : Type := {
  option_bars : result (list (option float));
    (* lines 109-166: the closes of the daily implied-volatility bars of the
       contract found, or the exception raised on the way to them *)
  vix_yf_present : bool;                 (* [yf is not None] *)
  vix_close : result (list float)        (* [yf.Ticker("^VIX").history(..)["Close"]] *)
}.

(** [[b.close for b in bars if b.close is not None and math.isfinite(b.close)]] *)
Definition finite_closes (bars : list (option float)) : list float :=
  flat_map (fun c => match c with
                     | Some v => if is_finite v then [v] else []
                     | None => []
                     end) bars.

(** [s.dropna()] *)
Definition dropna (s : list float) : list float :=
  filter (fun v => negb (is_nan v)) s.

(** Lines 106-179 of [get_iv_rank]: [Some rank] when the [try] block returns
    [rank], [None] when control leaves the block otherwise.  [ok] is the
    guard [self.ensure_connected() and Option is not None]: [Option] is set
    together with [IB], so it is set whenever [ensure_connected] succeeds. *)
Definition iv_rank_primary (ok : bool) (feed : iv_feed) : option float :=
  let block : result (option float) :=
    if ok then
      bars <- option_bars feed ;;
      let series := finite_closes bars in
      if (5 <=? Z.of_nat (List.length series))%Z then
        match series with
        | [] => Return None
        | x :: xs =>
            let cur := List.last xs x in
            let lo := min_list x xs in
            let hi := max_list x xs in
            if lo <? hi then
              q <- PyNum.div (cur - lo) (hi - lo) ;;
              let rank := q * 100 in
              let rank := max2 0 (min2 100 rank) in
              Return (Some rank)
            else Return None
        end
      else Return None
    else Return None in
  match try_except block (fun _ => Return None) with
  | Return r => r
  | Raise _ => None
  end.

(** Lines 181-199 of [get_iv_rank]: the volatility-index proxy. *)
Definition iv_rank_fallback (feed : iv_feed) : option float :=
  let block : result (option float) :=
    if negb (vix_yf_present feed) then Return None
    else
      data <- vix_close feed ;;
      match dropna data with
      | [] => Return None
      | x :: xs =>
          let cur := List.last xs x in
          let lo := min_list x xs in
          let hi := max_list x xs in
          if lo <? hi then
            q <- PyNum.div (cur - lo) (hi - lo) ;;
            let rank := q * 100 in
            let rank := max2 0 (min2 100 rank) in
            Return (Some rank)
          else Return None
      end in
  match try_except block (fun _ => Return None) with
  | Return r => r
  | Raise _ => None
  end.

(** [self.get_iv_rank(symbol)] *)
Definition get_iv_rank (env : environment) (self : client) (feed : iv_feed)
  : option float * client :=
  let '(ok, self) := ensure_connected env self in
  match iv_rank_primary ok feed with
  | Some rank => (Some rank, self)
  | None => (iv_rank_fallback feed, self)
  end.

(** What the four option quotes would answer: the [impliedVol] of the
    ticker's model greeks ([None] when there are no model greeks or no
    implied volatility), or the exception raised by [qualifyContracts] or
    [reqMktData]. *)
Record iv_quotes : Type := {
  q_front_put : result (option float);
  q_front_call : result (option float);
  q_back_put : result (option float);
  q_back_call : result (option float)
}.

(** The local function [_iv] of [get_option_ivs], from the answer on. *)
Definition _iv (answer : result (option float)) : result (option float) :=
  iv <- answer ;;
  let iv :=
    match iv with
    | Some v => if v <? 1.0 then Some (v * 100.0) else Some v
    | None => None
    end in
  Return iv.

(** [self.get_option_ivs(symbol, expiry_front, expiry_back, put_strike,
    call_strike)] *)
Definition get_option_ivs (env : environment) (self : client) (q : iv_quotes)
  : result (dict (option float)) * client :=
  let '(ok, self) := ensure_connected env self in
  if negb ok then
    (Return (map (fun k => (k, @None float))
               ["front_put_iv"; "front_call_iv"; "back_put_iv"; "back_call_iv"]),
     self)
  else
    (front_put <- _iv (q_front_put q) ;;
     front_call <- _iv (q_front_call q) ;;
     back_put <- _iv (q_back_put q) ;;
     back_call <- _iv (q_back_call q) ;;
     Return [("front_put_iv", front_put); ("front_call_iv", front_call);
             ("back_put_iv", back_put); ("back_call_iv", back_call)],
     self).

(** What the two sources of the volatility index would answer. *)
Record vix_sources : Type := {
  vix_ticker : result Ticker;            (* [qualifyContracts], [reqMktData] *)
  vix_yf : bool;                         (* [yf is not None] *)
  vix_daily : result (list float)        (* [yf.Ticker("^VIX").history("1d")["Close"]] *)
}.

(** [self.get_vix()] *)
Definition get_vix (env : environment) (self : client) (src : vix_sources)
  : option float * client :=
  let '(ok, self) := ensure_connected env self in
  let primary : option float :=
    if ok then
      match vix_ticker src with
      | Return t =>
          let price := or_else (last t) (close t) in
          if truthy_opt price then price else None
      | Raise _ => None
      end
    else None in
  match primary with
  | Some price => (Some price, self)
  | None =>
      let fallback : option float :=
        if negb (vix_yf src) then None
        else match vix_daily src with
             | Return closes => last_item closes
             | Raise _ => None
             end in
      (fallback, self)
  end.

End IBKRClient.

(** ** [src/components/ui.py]: what the rendering functions choose *)

Module ui.

(** The style [render_decision] gives the decision box. *)
Definition decision_style (decision : string) : string :=
  if contains "ENTER (All green)" decision
  then "background-color: #DCFCE7; color: #166534;"
  else if contains "ENTER — CAUTION" decision
  then "background-color: #FEF9C3; color: #854D0E;"
  else "background-color: #FEE2E2; color: #991B1B;".

(** The emoji [render_status_lights] shows for a label. *)
Definition emoji (label : string) : string :=
  if String.eqb label "GREEN" then "🟢"
  else if String.eqb label "YELLOW" then "🟡"
  else "🔴".

(** What [render_suggestions] shows. *)
Inductive panel : Type :=
| CalendarPanel (title : string)
| VerticalPanel (title : string)
| CondorPanel (title : string)
| GenericPanel (title : string)
| NoSuggestionInfo.

(** The expander [render_suggestions] opens for one suggestion. *)
Definition suggestion_panel (suggestion : string) : panel :=
  if contains "Double Calendar" suggestion then CalendarPanel suggestion
  else if contains "OTM Vertical" suggestion then VerticalPanel suggestion
  else if contains "Iron Condor" suggestion then CondorPanel suggestion
  else GenericPanel suggestion.

(** [render_suggestions(suggestions)] *)
Definition render_suggestions (suggestions : list string) : list panel :=
  match suggestions with
  | [] => [NoSuggestionInfo]
  | _ => map suggestion_panel suggestions
  end.

End ui.

(** ** [src/app.py] *)

Module app.

Import OptionsModel.

(** What [main] leaves on the page. *)
Inductive page : Type :=
| Results (metrics : Metrics) (statuses : dict string) (decision : string)
    (suggestions : list string)
| ValidationMessage (msg : string)     (* "Input validation error: ..." *)
| UnexpectedError (e : exn).           (* "An unexpected error occurred" *)

(** [main()], as a function of what [render_sidebar()] returns; the rendering
    calls themselves are taken not to raise. *)
Definition main (inputs : Inputs) : page :=
  match init inputs with
  | Raise e => UnexpectedError e
  | Return model =>
      let inner : result page :=
        let '(metrics, model) := compute_metrics model in
        let '(statuses, model) := evaluate_status_lights model in
        let '(decision, model) := get_final_decision model in
        decision <- decision ;;
        let '(suggestions, model) := get_strategy_suggestions model in
        Return (Results metrics statuses decision suggestions) in
      match inner with
      | Return shown => shown
      | Raise (ValidationError msg) => ValidationMessage msg
      | Raise e => UnexpectedError e
      end
  end.

End app.

(** ** [mechanical_options_app.py]: the single-file version of the engine *)

Module mechanical_options_app.

Local Open Scope float_scope.

Definition traffic {A} (value : A) (green_fn yellow_fn : A -> bool) : string :=
  if green_fn value then "GREEN"
  else if yellow_fn value then "YELLOW"
  else "RED".

Definition final_decision (statuses : dict string) : result string :=
  let score_map : dict Z := [("GREEN", 2); ("YELLOW", 1); ("RED", 0)]%Z in
  score <- sum_gen (getitem score_map) (values statuses) 0 ;;
  let reds := count_if (fun s => String.eqb s "RED") (values statuses) in
  let n := len statuses in
  if ((score =? 2 * n) && (reds =? 0))%Z then Return "ENTER (All green) ✅"
  else if ((score >=? 2 * (n - 1)) && (reds =? 0))%Z then Return "ENTER — CAUTION ⚠️"
  else Return "WAIT ❌".

(** What the script computes from the values of its sidebar widgets. *)
Record outcome : Type := {
  o_statuses : dict string;
  o_decision : result string;
  o_suggestions : list string
}.

Definition NO_TRADE : string :=
  "No trade — wait for better IV/term structure or re-center strikes".

Definition script (inp : Inputs) : outcome :=
  let price := price inp in
  let put_strike := put_strike inp in
  let call_strike := call_strike inp in
  let front_put_iv := front_put_iv inp in
  let front_call_iv := front_call_iv inp in
  let back_put_iv := back_put_iv inp in
  let back_call_iv := back_call_iv inp in
  let iv_rank_pct := iv_rank_pct inp in
  let days_to_event := days_to_event inp in
  let vix_value := vix_value inp in
  let atr_points := atr_points inp in
  let use_atr := use_atr inp in
  let midpoint := (put_strike + call_strike) / 2 in
  let dist_from_mid :=
    if truthy midpoint then abs (price - midpoint) / midpoint else 1 in
  let strike_width := abs (call_strike - put_strike) in
  let front_avg_iv := (front_put_iv + front_call_iv) / 2 in
  let back_avg_iv := (back_put_iv + back_call_iv) / 2 in
  let term_gap_pts := front_avg_iv - back_avg_iv in
  let iv_rank := iv_rank_pct / 100 in
  let atr_ok := atr_points <=? max2 1e-9 (strike_width / 2) in
  let statuses : dict string := [] in
  let statuses := setitem statuses "Price Location"
    (traffic dist_from_mid (fun x => x <=? 0.01) (fun x => x <=? 0.02)) in
  let statuses := setitem statuses "Term Structure"
    (traffic term_gap_pts (fun x => 2.0 <=? x) (fun x => 1.0 <=? x)) in
  let statuses := setitem statuses "IV Rank"
    (traffic iv_rank
       (fun x => (0.30 <=? x) && (x <=? 0.50))
       (fun x => ((0.20 <=? x) && (x <? 0.30)) || ((0.50 <? x) && (x <=? 0.60)))) in
  let statuses := setitem statuses "Event Proximity"
    (traffic days_to_event
       (fun x => (3 <=? x)%Z && (x <=? 7)%Z)
       (fun x => (1 <=? x)%Z && (x <=? 2)%Z)) in
  let statuses := setitem statuses "VIX"
    (traffic vix_value
       (fun x => (14 <=? x) && (x <=? 20))
       (fun x => (20 <? x) && (x <=? 25))) in
  let statuses :=
    if use_atr
    then setitem statuses "ATR Guardrail"
           (traffic atr_ok (fun ok => ok) (fun ok => false))
    else statuses in
  let decision := final_decision statuses in
  let suggestions : list string := [] in
  let suggestions :=
    if OptionsModel.is_label (get statuses "IV Rank") "GREEN"
       && (OptionsModel.is_label (get statuses "Term Structure") "GREEN"
           || OptionsModel.is_label (get statuses "Term Structure") "YELLOW")
       && negb (OptionsModel.is_label (get statuses "Price Location") "RED")
    then (suggestions ++ ["Double Calendar (front week vs back week)"])%list
    else suggestions in
  let suggestions :=
    if (iv_rank <? 0.25) && OptionsModel.is_label (get statuses "Price Location") "GREEN"
    then (suggestions ++ ["Cheaper OTM Vertical (directional)"])%list
    else suggestions in
  let suggestions :=
    if (0.45 <? iv_rank) && (iv_rank <=? 0.60) && (18 <=? vix_value)
       && OptionsModel.is_label (get statuses "Price Location") "GREEN"
    then (suggestions ++ ["Short-duration Iron Condor (range)"])%list
    else suggestions in
  let suggestions :=
    match suggestions with
    | [] => (suggestions ++ [NO_TRADE])%list
    | _ => suggestions
    end in
  {| o_statuses := statuses; o_decision := decision; o_suggestions := suggestions |}.

End mechanical_options_app.

(** ** Vocabulary of the specification *)

Module Spec.

(** A status label. *)
Definition is_status (s : string) : Prop :=
  s = "GREEN" \/ s = "YELLOW" \/ s = "RED".

(** A status mapping: every rule carries a status label. *)
Definition status_map (statuses : dict string) : Prop :=
  Forall is_status (values statuses).

(** Number of rules carrying the given label. *)
Definition count (label : string) (statuses : dict string) : Z :=
  count_if (String.eqb label) (values statuses).

(** The aggregate score: GREEN = 2, YELLOW = 1, RED = 0. *)
Definition points (s : string) : Z :=
  if String.eqb s "GREEN" then 2 else if String.eqb s "YELLOW" then 1 else 0.

Definition score (statuses : dict string) : Z :=
  fold_right (fun s acc => points s + acc) 0 (values statuses).

(** How permissive a decision label is: wait < cautious entry < full entry. *)
Definition permissiveness (decision : string) : Z :=
  if String.eqb decision helpers.ENTER_ALL_GREEN then 2
  else if String.eqb decision helpers.ENTER_CAUTION then 1
  else 0.

(** Every constraint of the input record but the one on the two strikes:
    price, strikes and volatility index positive, the four implied
    volatilities non-negative, the rank within 0..100, the day count
    non-negative, and a positive ATR when the guardrail is enabled. *)
Definition otherwise_valid (inp : Inputs) : bool :=
  ((0 <? price inp) && (0 <? put_strike inp) && (0 <? call_strike inp)
   && (0 <=? front_put_iv inp) && (0 <=? front_call_iv inp)
   && (0 <=? back_put_iv inp) && (0 <=? back_call_iv inp)
   && (0 <=? iv_rank_pct inp) && (iv_rank_pct inp <=? 100)
   && (0 <? vix_value inp))%float
  && (0 <=? days_to_event inp)
  && (if use_atr inp then (0 <? atr_points inp)%float else true).

(** The rank formula: (current - min) / (max - min) * 100, clamped to
    [0, 100]. *)
Definition clipped_rank (cur lo hi : float) : float :=
  (max2 0 (min2 100 ((cur - lo) / (hi - lo) * 100)))%float.

Definition in_0_100 (r : float) : Prop :=
  (0 <=? r)%float = true /\ (r <=? 100)%float = true.

(** The five base rules, in the order of the rule table. *)
Definition base_rules : list string :=
  ["Price Location"; "Term Structure"; "IV Rank"; "Event Proximity"; "VIX"].

(** The conditions of the three strategy rules, on the status mapping, the
    normalized rank and the volatility index. *)
Definition calendar_condition (st : dict string) : Prop :=
  get st "IV Rank" = Some "GREEN"
  /\ (get st "Term Structure" = Some "GREEN" \/ get st "Term Structure" = Some "YELLOW")
  /\ get st "Price Location" <> Some "RED".

Definition vertical_condition (st : dict string) (rank : float) : Prop :=
  (rank <? 0.25)%float = true /\ get st "Price Location" = Some "GREEN".

Definition condor_condition (st : dict string) (rank vix : float) : Prop :=
  ((0.45 <? rank)%float = true /\ (rank <=? 0.60)%float = true)
  /\ (18 <=? vix)%float = true
  /\ get st "Price Location" = Some "GREEN".

End Spec.

(** ** Records and mappings used as concrete inputs *)

Module Samples.

Import OptionsModel.

(** Price 1.57% off the midpoint and a 1.5-point term gap; the other three
    base rules are in their ideal bands. *)
Definition two_yellow_inputs : Inputs :=
  {| symbol := "SPY"; price := 645; put_strike := 625; call_strike := 645;
     front_put_iv := 21; front_call_iv := 20; back_put_iv := 19; back_call_iv := 19;
     iv_rank_pct := 40; days_to_event := 5; vix_value := 17; atr_points := 6;
     use_atr := false |}.

(** Scenario A of the specification: everything in its ideal band. *)
Definition scenario_A : Inputs :=
  {| symbol := "SPY"; price := 635; put_strike := 625; call_strike := 645;
     front_put_iv := 23; front_call_iv := 21; back_put_iv := 19; back_call_iv := 19;
     iv_rank_pct := 40; days_to_event := 5; vix_value := 17; atr_points := 6;
     use_atr := false |}.

Definition with_strikes (put call : float) (inp : Inputs) : Inputs :=
  {| symbol := symbol inp; price := price inp;
     put_strike := put; call_strike := call;
     front_put_iv := front_put_iv inp; front_call_iv := front_call_iv inp;
     back_put_iv := back_put_iv inp; back_call_iv := back_call_iv inp;
     iv_rank_pct := iv_rank_pct inp; days_to_event := days_to_event inp;
     vix_value := vix_value inp; atr_points := atr_points inp;
     use_atr := use_atr inp |}.

Definition with_price (p : float) (inp : Inputs) : Inputs :=
  {| symbol := symbol inp; price := p;
     put_strike := put_strike inp; call_strike := call_strike inp;
     front_put_iv := front_put_iv inp; front_call_iv := front_call_iv inp;
     back_put_iv := back_put_iv inp; back_call_iv := back_call_iv inp;
     iv_rank_pct := iv_rank_pct inp; days_to_event := days_to_event inp;
     vix_value := vix_value inp; atr_points := atr_points inp;
     use_atr := use_atr inp |}.

Definition with_atr (atr : float) (inp : Inputs) : Inputs :=
  {| symbol := symbol inp; price := price inp;
     put_strike := put_strike inp; call_strike := call_strike inp;
     front_put_iv := front_put_iv inp; front_call_iv := front_call_iv inp;
     back_put_iv := back_put_iv inp; back_call_iv := back_call_iv inp;
     iv_rank_pct := iv_rank_pct inp; days_to_event := days_to_event inp;
     vix_value := vix_value inp; atr_points := atr;
     use_atr := true |}.

(** Scenario B: as A with the volatility index at 30. *)
Definition scenario_B : Inputs :=
  {| symbol := "SPY"; price := 635; put_strike := 625; call_strike := 645;
     front_put_iv := 23; front_call_iv := 21; back_put_iv := 19; back_call_iv := 19;
     iv_rank_pct := 40; days_to_event := 5; vix_value := 30; atr_points := 6;
     use_atr := false |}.

(** Scenario C: as A with the event two days away. *)
Definition scenario_C : Inputs :=
  {| symbol := "SPY"; price := 635; put_strike := 625; call_strike := 645;
     front_put_iv := 23; front_call_iv := 21; back_put_iv := 19; back_call_iv := 19;
     iv_rank_pct := 40; days_to_event := 2; vix_value := 17; atr_points := 6;
     use_atr := false |}.

(** Scenario D: put strike 650 above call strike 640. *)
Definition scenario_D : Inputs := with_strikes 650 640 scenario_A.

Definition equal_strikes : Inputs := with_strikes 640 640 scenario_A.

(** Scenario E: strike width 20, ATR 12, guardrail enabled. *)
Definition scenario_E : Inputs := with_atr 12 scenario_A.

(** Records whose distance fraction is exactly 0.01, 0.010001, 0.02 and
    0.020001. *)
Definition dist_1pct : Inputs := with_price 101 (with_strikes 99 101 scenario_A).
Definition dist_above_1pct : Inputs :=
  with_price 1010001 (with_strikes 999990 1000010 scenario_A).
Definition dist_2pct : Inputs := with_price 51 (with_strikes 49 51 scenario_A).
Definition dist_above_2pct : Inputs :=
  with_price 1020001 (with_strikes 999990 1000010 scenario_A).

(** A client whose gateway is up, and quotes whose live last tick is valid. *)
Definition gateway_up : IBKRClient.environment :=
  {| IBKRClient.ib_insync_importable := true;
     IBKRClient.connect := Return tt;
     IBKRClient.reqMarketDataType := fun _ => Return tt |}.

Definition new_client : IBKRClient.client :=
  {| IBKRClient.delayed := true; IBKRClient.ib := None |}.

Definition live_quotes : IBKRClient.quotes :=
  {| IBKRClient.live :=
       {| IBKRClient.last := Some 635%float; IBKRClient.bid := Some 634.9%float;
          IBKRClient.ask := Some 635.1%float; IBKRClient.close := Some 633%float |};
     IBKRClient.after_delayed := Raise (RuntimeError "not requested");
     IBKRClient.daily_bars := Return [633%float];
     IBKRClient.yf_present := true;
     IBKRClient.yf_close := Return [633%float] |}.

(** Implied-volatility histories: one ending at its maximum, one at its
    minimum, one in between; and a volatility-index history. *)
Definition no_vix : result (list float) := Raise (RuntimeError "no data").

Definition feed_at_max : IBKRClient.iv_feed :=
  {| IBKRClient.option_bars :=
       Return [Some 0.2; Some 0.3; None; Some 0.25; Some nan; Some 0.1; Some 0.4]%float;
     IBKRClient.vix_yf_present := false;
     IBKRClient.vix_close := no_vix |}.

Definition feed_at_min : IBKRClient.iv_feed :=
  {| IBKRClient.option_bars :=
       Return [Some 0.2; Some 0.3; Some 0.25; Some 0.4; Some 0.1]%float;
     IBKRClient.vix_yf_present := false;
     IBKRClient.vix_close := no_vix |}.

Definition feed_between : IBKRClient.iv_feed :=
  {| IBKRClient.option_bars :=
       Return [Some 0.2; Some 0.3; Some 0.25; Some 0.4; Some 0.1; Some 0.175]%float;
     IBKRClient.vix_yf_present := false;
     IBKRClient.vix_close := no_vix |}.

Definition feed_vix_only : IBKRClient.iv_feed :=
  {| IBKRClient.option_bars := Raise (RuntimeError "No option parameters returned");
     IBKRClient.vix_yf_present := true;
     IBKRClient.vix_close := Return [15; nan; 22; 18; 12; 17.5]%float |}.

(** A freshly constructed model object. *)
Definition fresh (inp : Inputs) : model :=
  {| inputs := inp; metrics := None; statuses := [] |}.

Definition two_yellow_statuses : dict string :=
  [("Price Location", "YELLOW"); ("Term Structure", "YELLOW");
   ("IV Rank", "GREEN"); ("Event Proximity", "GREEN"); ("VIX", "GREEN")].

Definition one_red_statuses : dict string :=
  [("Price Location", "GREEN"); ("Term Structure", "GREEN");
   ("IV Rank", "GREEN"); ("Event Proximity", "GREEN"); ("VIX", "RED")].

Definition one_yellow_statuses : dict string :=
  [("Price Location", "GREEN"); ("Term Structure", "GREEN");
   ("IV Rank", "GREEN"); ("Event Proximity", "YELLOW"); ("VIX", "GREEN")].

End Samples.

(** ** Vocabulary of the further properties *)

Module Extra.

(** The comparison of [x] with [z] that follows from [x] against [y] and [y]
    against [z], neither being [Gt]. *)
Definition seq_cmp (c1 c2 : comparison) : comparison :=
  match c1, c2 with Eq, Eq => Eq | _, _ => Lt end.

(** Lexicographic comparison on (exponent, mantissa). *)
Definition lex (e1 : Z) (m1 : positive) (e2 : Z) (m2 : positive) : comparison :=
  match e1 ?= e2 with Lt => Lt | Gt => Gt | Eq => Pos.compare m1 m2 end.

(** The record with another ATR value, the flag as it is. *)
Definition set_atr_points (atr : float) (inp : Inputs) : Inputs :=
  {| symbol := symbol inp; price := price inp;
     put_strike := put_strike inp; call_strike := call_strike inp;
     front_put_iv := front_put_iv inp; front_call_iv := front_call_iv inp;
     back_put_iv := back_put_iv inp; back_call_iv := back_call_iv inp;
     iv_rank_pct := iv_rank_pct inp; days_to_event := days_to_event inp;
     vix_value := vix_value inp; atr_points := atr;
     use_atr := use_atr inp |}.

(** The three decision labels. *)
Definition decision_labels : list string :=
  [helpers.ENTER_ALL_GREEN; helpers.ENTER_CAUTION; helpers.WAIT].

(** A mapping with three YELLOW rules. *)
Definition three_yellow_statuses : dict string :=
  [("Price Location", "YELLOW"); ("Term Structure", "YELLOW");
   ("IV Rank", "YELLOW"); ("Event Proximity", "GREEN"); ("VIX", "GREEN")].

(** A mapping with a value that is no status label. *)
Definition blue_statuses : dict string :=
  [("Price Location", "GREEN"); ("Term Structure", "BLUE"); ("IV Rank", "PINK")].

(** The checks of the validator as a table, in the order they are made:
    whether the check fails, and the message it fails with. *)
Definition checks (inp : Inputs) : list (bool * string) :=
  [((price inp <=? 0)%float, "Price must be greater than zero");
   ((put_strike inp <=? 0)%float, "Put strike must be greater than zero");
   ((call_strike inp <=? 0)%float, "Call strike must be greater than zero");
   ((call_strike inp <=? put_strike inp)%float,
    "Put strike should be less than call strike for typical strategies");
   ((front_put_iv inp <? 0)%float, "Front-week PUT IV must be at least 0");
   ((front_call_iv inp <? 0)%float, "Front-week CALL IV must be at least 0");
   ((back_put_iv inp <? 0)%float, "Back-week PUT IV must be at least 0");
   ((back_call_iv inp <? 0)%float, "Back-week CALL IV must be at least 0");
   ((iv_rank_pct inp <? 0)%float, "IV Rank must be at least 0");
   ((100 <? iv_rank_pct inp)%float, "IV Rank must be at most 100");
   ((days_to_event inp <? 0)%Z, "Days to event must be at least 0");
   ((vix_value inp <=? 0)%float, "VIX value must be greater than zero");
   (use_atr inp && (atr_points inp <=? 0)%float, "ATR points must be greater than zero")].

(** The first check that fails, if any. *)
Definition first_violation (inp : Inputs) : option string :=
  option_map snd (find fst (checks inp)).

(** No comparison of the validator holds. *)
Definition accepted (inp : Inputs) : bool :=
  forallb (fun c => negb (fst c)) (checks inp).

(** The list the three strategy tests select. *)
Definition pick (calendar vertical condor : bool) : list string :=
  if calendar || vertical || condor
  then ((if calendar then [OptionsModel.CALENDAR] else [])
        ++ (if vertical then [OptionsModel.VERTICAL] else [])
        ++ (if condor then [OptionsModel.CONDOR] else []))%list
  else [OptionsModel.NO_TRADE].

(** Scenario A with the price far above the strikes. *)
Definition price_far : Inputs := Samples.with_price 700 Samples.scenario_A.

(** Equal strikes (width zero), a negligible ATR and the guardrail enabled. *)
Definition tiny_atr : Inputs := Samples.with_atr 1e-10 Samples.equal_strikes.

(** The first exception among the answers, in their order. *)
Fixpoint first_raise {A} (answers : list (result A)) : option exn :=
  match answers with
  | [] => None
  | Raise e :: _ => Some e
  | Return _ :: rest => first_raise rest
  end.

(** Quotes with no implied volatility for the front put, a fraction for the
    front call and percentages for the back week. *)
Definition partial_quotes : IBKRClient.iv_quotes :=
  {| IBKRClient.q_front_put := Return None;
     IBKRClient.q_front_call := Return (Some 0.21%float);
     IBKRClient.q_back_put := Return (Some 19%float);
     IBKRClient.q_back_call := Return (Some 18.5%float) |}.

(** Quotes whose back put cannot be qualified. *)
Definition failing_quotes : IBKRClient.iv_quotes :=
  {| IBKRClient.q_front_put := Return (Some 0.22%float);
     IBKRClient.q_front_call := Return (Some 0.21%float);
     IBKRClient.q_back_put := Raise (RuntimeError "Unknown contract");
     IBKRClient.q_back_call := Return (Some 0.18%float) |}.

(** No gateway. *)
Definition gateway_down : IBKRClient.environment :=
  {| IBKRClient.ib_insync_importable := true;
     IBKRClient.connect := Raise ConnectionRefusedError;
     IBKRClient.reqMarketDataType := fun _ => Return tt |}.

(** A volatility-index quote that has not ticked: [last] is a NaN. *)
Definition vix_not_ticked : IBKRClient.vix_sources :=
  {| IBKRClient.vix_ticker :=
       Return {| IBKRClient.last := Some nan; IBKRClient.bid := None;
                 IBKRClient.ask := None; IBKRClient.close := Some 17.5%float |};
     IBKRClient.vix_yf := true;
     IBKRClient.vix_daily := Return [17.25%float] |}.

(** A volatility-index quote with neither a last tick nor a close. *)
Definition vix_silent : IBKRClient.vix_sources :=
  {| IBKRClient.vix_ticker :=
       Return {| IBKRClient.last := None; IBKRClient.bid := None;
                 IBKRClient.ask := None; IBKRClient.close := Some 0%float |};
     IBKRClient.vix_yf := true;
     IBKRClient.vix_daily := Return [16.5; 17.25]%float |}.

(** A history of four closes only. *)
(** A suggestion of the package in the wording of the single-file script:
    only the text of the no-trade sentinel differs. *)
Definition script_wording (s : string) : string :=
  if String.eqb s OptionsModel.NO_TRADE then mechanical_options_app.NO_TRADE else s.

Definition feed_short : IBKRClient.iv_feed :=
  {| IBKRClient.option_bars := Return [Some 0.2; Some 0.3; Some 0.25; Some 0.4]%float;
     IBKRClient.vix_yf_present := true;
     IBKRClient.vix_close := Return [15; 22; 18; 12; 17.5]%float |}.

End Extra.

(* ===================================================================== *)
(** * Part II: properties                                                 *)
(* ===================================================================== *)

(** ** Dictionaries *)

Module DictProps.

Lemma keys_setitem_In {V} (d : dict V) (k x : string) (v : V) :
  In x (keys (setitem d k v)) -> x = k \/ In x (keys d).
Proof.
  unfold keys.
  induction d as [| [k' v'] d IH]; cbn [setitem map fst In].
  - intros [<- | []]. left. reflexivity.
  - destruct (String.eqb k' k); cbn [map fst In]; intuition.
Qed.

(** Assignment keeps the keys of a dictionary distinct. *)
Lemma setitem_NoDup {V} (d : dict V) (k : string) (v : V) :
  NoDup (keys d) -> NoDup (keys (setitem d k v)).
Proof.
  induction d as [| [k' v'] d IH]; cbn [setitem]; intros Hnd.
  - cbn. constructor; [intros [] | constructor].
  - destruct (String.eqb_spec k' k) as [-> | Hne].
    + exact Hnd.
    + change (keys ((k', v') :: d)) with (k' :: keys d) in Hnd.
      change (keys ((k', v') :: setitem d k v)) with (k' :: keys (setitem d k v)).
      inversion Hnd as [| ? ? Hnotin Hnd']; subst.
      constructor; [| exact (IH Hnd')].
      intros Hin. apply keys_setitem_In in Hin. destruct Hin as [-> | Hin]; auto.
Qed.

(** Reading back what was assigned. *)
Lemma get_setitem {V} (d : dict V) (k : string) (v : V) :
  get (setitem d k v) k = Some v.
Proof.
  induction d as [| [k' v'] d IH]; cbn [setitem get].
  - now rewrite String.eqb_refl.
  - destruct (String.eqb k' k) eqn:He; cbn [get]; rewrite He; [reflexivity | exact IH].
Qed.

End DictProps.

(** ** The difference of two floats

    [x - y] is zero only when [x == y]: the subtraction of the
    specification aligns the two mantissas on the smaller exponent,
    subtracts them exactly and rounds; the exact difference of two distinct
    canonical floats is a non-zero integer, and rounding at an exponent that
    is not below the smallest one never flushes a non-zero integer to zero. *)

Module FloatSubProps.


Lemma digits2_pos_bounds (m : positive) :
  2 ^ (Z.pos (digits2_pos m) - 1) <= Z.pos m < 2 ^ Z.pos (digits2_pos m).
Proof.
  induction m as [m IH | m IH |]; cbn [digits2_pos].
  - rewrite Pos2Z.inj_succ.
    replace (Z.succ (Z.pos (digits2_pos m)) - 1) with (Z.succ (Z.pos (digits2_pos m) - 1)) by lia.
    rewrite !Z.pow_succ_r by lia. lia.
  - rewrite Pos2Z.inj_succ.
    replace (Z.succ (Z.pos (digits2_pos m)) - 1) with (Z.succ (Z.pos (digits2_pos m) - 1)) by lia.
    rewrite !Z.pow_succ_r by lia. lia.
  - cbn. lia.
Qed.

Lemma shr_1_m (mrs : shr_record) :
  0 <= shr_m mrs -> shr_m (shr_1 mrs) = shr_m mrs / 2.
Proof.
  destruct mrs as [m r s]. cbn [shr_m shr_1]. intros Hm.
  destruct m as [| [p | p |] | p]; cbn [shr_m]; try lia.
  - reflexivity.
  - rewrite Pos2Z.inj_xI. apply Z.div_unique with (r := 1); lia.
  - rewrite Pos2Z.inj_xO. apply Z.div_unique with (r := 0); lia.
  - reflexivity.
Qed.

Lemma iter_shr_1_m (p : positive) (mrs : shr_record) :
  0 <= shr_m mrs ->
  shr_m (iter_pos shr_1 p mrs) = shr_m mrs / 2 ^ Z.pos p.
Proof.
  revert mrs.
  induction p as [p IH | p IH |]; intros mrs Hm; cbn [iter_pos].
  - assert (H1 : 0 <= shr_m (shr_1 mrs)).
    { rewrite shr_1_m by assumption. apply Z.div_pos; lia. }
    assert (H2 : 0 <= shr_m (iter_pos shr_1 p (shr_1 mrs))).
    { rewrite IH by assumption. apply Z.div_pos; [assumption |]. apply Z.pow_pos_nonneg; lia. }
    rewrite IH, IH, shr_1_m by assumption.
    rewrite !Z.div_div by (try apply Z.pow_pos_nonneg; lia).
    f_equal.
    replace (Z.pos p~1) with (Z.succ (Z.pos p + Z.pos p)) by lia.
    rewrite Z.pow_succ_r by lia. rewrite Z.pow_add_r by lia. reflexivity.
  - assert (H2 : 0 <= shr_m (iter_pos shr_1 p mrs)).
    { rewrite IH by assumption. apply Z.div_pos; [assumption |]. apply Z.pow_pos_nonneg; lia. }
    rewrite IH, IH by assumption.
    rewrite !Z.div_div by (try apply Z.pow_pos_nonneg; lia).
    f_equal.
    replace (Z.pos p~0) with (Z.pos p + Z.pos p) by lia.
    rewrite Z.pow_add_r by lia. reflexivity.
  - rewrite shr_1_m by assumption. reflexivity.
Qed.

Lemma shr_record_of_loc_m (m : Z) (l : location) :
  shr_m (shr_record_of_loc m l) = m.
Proof. destruct l as [| []]; reflexivity. Qed.

Lemma fexp_ge_emin (x : Z) : emin <= fexp prec emax x.
Proof. unfold fexp. lia. Qed.

(** Shifting a positive mantissa to its canonical exponent leaves a positive
    mantissa, when the exponent is not below the smallest one. *)
Lemma shr_fexp_pos (m : positive) (e : Z) (l : location) :
  emin <= e ->
  (exists m', shr_m (fst (shr_fexp prec emax (Z.pos m) e l)) = Z.pos m')
  /\ emin <= snd (shr_fexp prec emax (Z.pos m) e l).
Proof.
  intros He. unfold shr_fexp, shr. cbn [Zdigits2].
  destruct (fexp prec emax (Z.pos (digits2_pos m) + e) - e) as [| p | p] eqn:Hn;
    cbn [fst snd].
  - rewrite shr_record_of_loc_m. split; [eexists; reflexivity | exact He].
  - split; [| lia].
    rewrite iter_shr_1_m by (rewrite shr_record_of_loc_m; lia).
    rewrite shr_record_of_loc_m.
    assert (Hp : Z.pos p = Z.pos (digits2_pos m) - prec).
    { unfold fexp in Hn. change prec with 53 in *. lia. }
    pose proof (digits2_pos_bounds m) as [Hlo _].
    assert (Hpow : 2 ^ Z.pos p <= 2 ^ (Z.pos (digits2_pos m) - 1)).
    { apply Z.pow_le_mono_r; [lia |]. change prec with 53 in Hp. lia. }
    assert (Hdiv : 0 < Z.pos m / 2 ^ Z.pos p).
    { apply Z.div_str_pos. split; [apply Z.pow_pos_nonneg; lia | lia]. }
    destruct (Z.pos m / 2 ^ Z.pos p) as [| q | q]; try lia.
    eexists; reflexivity.
  - rewrite shr_record_of_loc_m. split; [eexists; reflexivity | exact He].
Qed.

Lemma round_nearest_even_pos (m : positive) (l : location) :
  exists m', round_nearest_even (Z.pos m) l = Z.pos m'.
Proof.
  destruct l as [| []]; cbn [round_nearest_even]; try (eexists; reflexivity).
  destruct (Z.even (Z.pos m)); eexists; reflexivity.
Qed.

Lemma binary_round_aux_nonzero (sx : bool) (m : positive) (e : Z) (l : location) (s : bool) :
  emin <= e -> binary_round_aux prec emax sx (Z.pos m) e l <> S754_zero s.
Proof.
  intros He. unfold binary_round_aux.
  destruct (shr_fexp_pos m e l He) as [[m1 Hm1] He1].
  destruct (shr_fexp prec emax (Z.pos m) e l) as [mrs1 e1]. cbn [fst snd] in *.
  rewrite Hm1.
  destruct (round_nearest_even_pos m1 (loc_of_shr_record mrs1)) as [m2 ->].
  destruct (shr_fexp_pos m2 e1 loc_Exact He1) as [[m3 Hm3] _].
  destruct (shr_fexp prec emax (Z.pos m2) e1 loc_Exact) as [mrs2 e2]. cbn [fst snd] in *.
  rewrite Hm3. destruct (e2 <=? emax - prec); discriminate.
Qed.

Lemma binary_round_nonzero (sx : bool) (m : positive) (e : Z) (s : bool) :
  emin <= e -> binary_round prec emax sx m e <> S754_zero s.
Proof.
  intros He. unfold binary_round, shl_align.
  pose proof (fexp_ge_emin (Z.pos (digits2_pos m) + e)) as Hf.
  destruct (fexp prec emax (Z.pos (digits2_pos m) + e) - e);
    apply binary_round_aux_nonzero; assumption.
Qed.

Lemma binary_normalize_nonzero (m e : Z) (szero s : bool) :
  m <> 0 -> emin <= e -> binary_normalize prec emax m e szero <> S754_zero s.
Proof.
  intros Hm He. destruct m as [| p | p]; [contradiction | |];
    cbn [binary_normalize]; apply binary_round_nonzero; exact He.
Qed.

Lemma iter_xO (m d : positive) : Z.pos (Pos.iter xO m d) = Z.pos m * 2 ^ Z.pos d.
Proof.
  induction d as [| d IH] using Pos.peano_ind.
  - cbn [Pos.iter]. rewrite Pos2Z.inj_xO. change (2 ^ 1) with 2. lia.
  - rewrite Pos.iter_succ, Pos2Z.inj_xO, IH, Pos2Z.inj_succ.
    rewrite Z.pow_succ_r by lia. lia.
Qed.

Lemma shl_align_value (mx : positive) (ex ez : Z) :
  ez <= ex -> Z.pos (fst (shl_align mx ex ez)) = Z.pos mx * 2 ^ (ex - ez).
Proof.
  intros Hle. unfold shl_align.
  destruct (ez - ex) as [| d | d] eqn:Hd; cbn [fst].
  - replace (ex - ez) with 0 by lia. change (2 ^ 0) with 1. lia.
  - lia.
  - rewrite iter_xO. f_equal. f_equal. lia.
Qed.

(** What validity says of a finite float. *)
Lemma bounded_facts (m : positive) (e : Z) :
  bounded prec emax m e = true ->
  emin <= e
  /\ Z.pos (digits2_pos m) <= prec
  /\ (emin < e -> Z.pos (digits2_pos m) = prec).
Proof.
  unfold bounded, canonical_mantissa, fexp. intros H.
  apply andb_true_iff in H. destruct H as [H _]. apply Z.eqb_eq in H.
  change prec with 53 in *. lia.
Qed.

(** A normal mantissa shifted left by at least one bit exceeds every
    mantissa. *)
Lemma shifted_mantissa_gt (a b : positive) (k : Z) :
  Z.pos (digits2_pos a) = prec -> Z.pos (digits2_pos b) <= prec -> 0 < k ->
  Z.pos b < Z.pos a * 2 ^ k.
Proof.
  intros Ha Hb Hk.
  pose proof (digits2_pos_bounds a) as [Halo _].
  pose proof (digits2_pos_bounds b) as [_ Hbhi].
  rewrite Ha in Halo.
  assert (Hbp : 2 ^ Z.pos (digits2_pos b) <= 2 ^ prec)
    by (apply Z.pow_le_mono_r; lia).
  assert (Hk2 : 2 ^ 1 <= 2 ^ k) by (apply Z.pow_le_mono_r; lia).
  change (2 ^ 1) with 2 in Hk2.
  assert (Hp : 2 ^ prec = 2 * 2 ^ (prec - 1)) by reflexivity.
  assert (Hpos : 0 < 2 ^ (prec - 1)) by reflexivity.
  nia.
Qed.

Lemma finite_difference_nonzero (sx sy : bool) (mx my : positive) (ex ey : Z) :
  bounded prec emax mx ex = true ->
  bounded prec emax my ey = true ->
  SFcompare (S754_finite sy my ey) (S754_finite sx mx ex) = Some Lt ->
  cond_Zopp sx (Z.pos (fst (shl_align mx ex (Z.min ex ey))))
  - cond_Zopp sy (Z.pos (fst (shl_align my ey (Z.min ex ey)))) <> 0.
Proof.
  intros Hx Hy Hlt.
  destruct (bounded_facts mx ex Hx) as [Hex [Hdx Hnx]].
  destruct (bounded_facts my ey Hy) as [Hey [Hdy Hny]].
  rewrite (shl_align_value mx ex (Z.min ex ey)) by lia.
  rewrite (shl_align_value my ey (Z.min ex ey)) by lia.
  assert (HA : 0 < Z.pos mx * 2 ^ (ex - Z.min ex ey))
    by (apply Z.mul_pos_pos; [lia | apply Z.pow_pos_nonneg; lia]).
  assert (HB : 0 < Z.pos my * 2 ^ (ey - Z.min ex ey))
    by (apply Z.mul_pos_pos; [lia | apply Z.pow_pos_nonneg; lia]).
  cbn [SFcompare] in Hlt.
  destruct sy, sx; cbn [cond_Zopp]; try discriminate Hlt; try lia.
  - (* both negative *)
    destruct (ey ?= ex) eqn:Hc; try discriminate Hlt.
    + apply Z.compare_eq in Hc. subst ey.
      replace (ex - Z.min ex ex) with 0 in * by lia. change (2 ^ 0) with 1.
      change (Pos.compare_cont Eq my mx) with (Pos.compare my mx) in Hlt.
      injection Hlt as Hlt. apply CompOpp_iff in Hlt. cbn [CompOpp] in Hlt.
      apply Pos.compare_gt_iff in Hlt. lia.
    + assert (Hc' : ex < ey) by (apply Z.compare_gt_iff; exact Hc).
      replace (Z.min ex ey) with ex by lia.
      replace (ex - ex) with 0 by lia. change (2 ^ 0) with 1.
      pose proof (shifted_mantissa_gt my mx (ey - ex) (Hny ltac:(lia)) Hdx ltac:(lia)).
      lia.
  - (* both positive *)
    destruct (ey ?= ex) eqn:Hc; try discriminate Hlt.
    + apply Z.compare_eq in Hc. subst ey.
      replace (ex - Z.min ex ex) with 0 in * by lia. change (2 ^ 0) with 1.
      change (Pos.compare_cont Eq my mx) with (Pos.compare my mx) in Hlt.
      injection Hlt as Hlt.
      assert (Hm : (my < mx)%positive) by exact Hlt. lia.
    + assert (Hc' : ey < ex) by (apply Z.compare_lt_iff; assumption).
      replace (Z.min ex ey) with ey by lia.
      replace (ey - ey) with 0 by lia. change (2 ^ 0) with 1.
      pose proof (shifted_mantissa_gt mx my (ex - ey) (Hnx ltac:(lia)) Hdy ltac:(lia)).
      lia.
Qed.

(** In binary64 arithmetic the difference of two floats, one strictly below
    the other, is never a zero. *)
Lemma SFsub_nonzero (x y : spec_float) (s : bool) :
  valid_binary x = true ->
  valid_binary y = true ->
  SFcompare y x = Some Lt ->
  SFsub prec emax x y <> S754_zero s.
Proof.
  intros Hx Hy Hlt.
  destruct x as [sx | sx | | sx mx ex], y as [sy | sy | | sy my ey];
    cbn [SFsub]; cbn [SFcompare] in Hlt;
    try discriminate Hlt;
    try (destruct sx, sy; discriminate);
    try (destruct sy; discriminate);
    try (destruct sx; discriminate).
  cbn [valid_binary] in Hx, Hy.
  apply binary_normalize_nonzero.
  - now apply finite_difference_nonzero.
  - destruct (bounded_facts mx ex Hx) as [Hex _].
    destruct (bounded_facts my ey Hy) as [Hey _].
    change (IntDef.Z.min ex ey) with (Z.min ex ey). lia.
Qed.

Lemma sub_nonzero (x y : float) : (y <? x)%float = true -> (x - y =? 0)%float = false.
Proof.
  rewrite ltb_spec, eqb_spec, sub_spec. unfold SFltb, SF64sub. intros Hlt.
  destruct (SFcompare (Prim2SF y) (Prim2SF x)) as [[| |] |] eqn:Hc; try discriminate.
  pose proof (fun s => SFsub_nonzero (Prim2SF x) (Prim2SF y) s
                         (Prim2SF_valid x) (Prim2SF_valid y) Hc) as Hnz.
  change (Prim2SF 0) with (S754_zero false).
  unfold SFeqb.
  destruct (SFsub prec emax (Prim2SF x) (Prim2SF y)) as [s | s | | s m e];
    cbn [SFcompare]; try reflexivity.
  - exfalso. exact (Hnz s eq_refl).
  - destruct s; reflexivity.
  - destruct s; reflexivity.
Qed.

End FloatSubProps.

(** ** Comparisons of floats *)

Module FloatProps.

Local Open Scope float_scope.

Lemma SFcompare_antisym (x y : spec_float) :
  SFcompare y x = option_map CompOpp (SFcompare x y).
Proof.
  destruct x as [sx | sx | | sx mx ex], y as [sy | sy | | sy my ey];
    cbn [SFcompare option_map CompOpp];
    try reflexivity;
    try (destruct sx; reflexivity);
    try (destruct sy; reflexivity);
    try (destruct sx, sy; reflexivity).
  destruct sx, sy; cbn [option_map CompOpp]; try reflexivity;
    rewrite (Z.compare_antisym ex ey);
    destruct (ex ?= ey)%Z eqn:He; cbn [CompOpp]; try reflexivity;
    change (Pos.compare_cont Eq my mx) with (Pos.compare my mx);
    change (Pos.compare_cont Eq mx my) with (Pos.compare mx my);
    rewrite (Pos.compare_antisym mx my); reflexivity.
Qed.

Lemma ltb_leb (x y : float) : (x <? y) = true -> (x <=? y) = true.
Proof.
  rewrite ltb_spec, leb_spec. unfold SFltb, SFleb.
  destruct (SFcompare (Prim2SF x) (Prim2SF y)) as [[| |] |]; congruence.
Qed.

Lemma ltb_not_leb (x y : float) : (x <? y) = true -> (y <=? x) = false.
Proof.
  rewrite ltb_spec, leb_spec. unfold SFltb, SFleb.
  rewrite (SFcompare_antisym (Prim2SF x) (Prim2SF y)).
  destruct (SFcompare (Prim2SF x) (Prim2SF y)) as [[| |] |];
    cbn [option_map CompOpp]; congruence.
Qed.

Lemma leb_not_ltb (x y : float) : (x <=? y) = true -> (y <? x) = false.
Proof.
  rewrite ltb_spec, leb_spec. unfold SFltb, SFleb.
  rewrite (SFcompare_antisym (Prim2SF x) (Prim2SF y)).
  destruct (SFcompare (Prim2SF x) (Prim2SF y)) as [[| |] |];
    cbn [option_map CompOpp]; congruence.
Qed.

Lemma eqb_leb (x y : float) : (x =? y) = true -> (y <=? x) = true.
Proof.
  rewrite eqb_spec, leb_spec. unfold SFeqb, SFleb.
  rewrite (SFcompare_antisym (Prim2SF x) (Prim2SF y)).
  destruct (SFcompare (Prim2SF x) (Prim2SF y)) as [[| |] |];
    cbn [option_map CompOpp]; congruence.
Qed.

(** Against an int of at most 53 bits the three comparisons of the
    validators are the float comparisons with the converted bound. *)
Section SmallBound.

Variable n : Z.
Hypothesis n_small : (Z.abs n <=? 2 ^ 53)%Z = true.

Lemma le_int_small (x : float) : le_int x n = (x <=? float_of_int n).
Proof.
  unfold le_int. cbn [cmp_int Number_float]. unfold float_cmp_int.
  rewrite n_small, compare_spec, leb_spec. unfold SFleb.
  destruct (SFcompare (Prim2SF x) (Prim2SF (float_of_int n))) as [[| |] |];
    reflexivity.
Qed.

Lemma lt_int_small (x : float) : lt_int x n = (x <? float_of_int n).
Proof.
  unfold lt_int. cbn [cmp_int Number_float]. unfold float_cmp_int.
  rewrite n_small, compare_spec, ltb_spec. unfold SFltb.
  destruct (SFcompare (Prim2SF x) (Prim2SF (float_of_int n))) as [[| |] |];
    reflexivity.
Qed.

Lemma gt_int_small (x : float) : gt_int x n = (float_of_int n <? x).
Proof.
  unfold gt_int. cbn [cmp_int Number_float]. unfold float_cmp_int.
  rewrite n_small, compare_spec, ltb_spec. unfold SFltb.
  rewrite (SFcompare_antisym (Prim2SF x) (Prim2SF (float_of_int n))).
  destruct (SFcompare (Prim2SF x) (Prim2SF (float_of_int n))) as [[| |] |];
    reflexivity.
Qed.

End SmallBound.

End FloatProps.

(** ** The validator *)

Module ValidationProps.

Import FloatProps Spec.
Local Open Scope float_scope.

Lemma validate_positive_float (x : float) (name : string) :
  validate_positive x name =
    if x <=? 0 then Raise (ValidationError (name ++ " must be greater than zero"))
    else Return x.
Proof.
  unfold validate_positive. now rewrite (le_int_small 0 eq_refl x).
Qed.

Lemma validate_positive_ok (x : float) (name : string) :
  (0 <? x) = true -> validate_positive x name = Return x.
Proof.
  intros H. rewrite validate_positive_float. now rewrite (ltb_not_leb 0 x H).
Qed.

Lemma validate_positive_raises {A} `{Number A} (x : A) (name : string) :
  (exists msg, validate_positive x name = Raise (ValidationError msg))
  \/ validate_positive x name = Return x.
Proof.
  unfold validate_positive. destruct (le_int x 0); eauto.
Qed.

Lemma validate_min_ok (x : float) (name : string) :
  (0 <=? x) = true -> validate_range x name (Some 0%Z) None = Return x.
Proof.
  intros H. unfold validate_range.
  rewrite (lt_int_small 0 eq_refl x).
  change (float_of_int 0) with 0. now rewrite (leb_not_ltb 0 x H).
Qed.

Lemma validate_rank_ok (x : float) (name : string) :
  (0 <=? x) = true -> (x <=? 100) = true ->
  validate_range x name (Some 0%Z) (Some 100%Z) = Return x.
Proof.
  intros H0 H100. unfold validate_range.
  rewrite (lt_int_small 0 eq_refl x), (gt_int_small 100 eq_refl x).
  change (float_of_int 0) with 0. change (float_of_int 100) with 100.
  now rewrite (leb_not_ltb 0 x H0), (leb_not_ltb x 100 H100).
Qed.

Lemma validate_days_ok (x : Z) (name : string) :
  (0 <=? x)%Z = true -> validate_range x name (Some 0%Z) None = Return x.
Proof.
  intros H. apply Z.leb_le in H. unfold validate_range, lt_int.
  cbn [cmp_int Number_int].
  destruct (x ?= 0)%Z eqn:Hc; try reflexivity.
  change (x < 0)%Z in Hc. lia.
Qed.

(** C7: a put strike equal to the call strike, or above it, makes
    [validate_strikes] raise [ValidationError], and with it [validate_inputs]
    (with the strike message when the three checks before it pass, so on
    every otherwise-valid record); a put strike strictly below the call
    strike passes [validate_strikes], and an otherwise-valid record with
    such strikes passes [validate_inputs]. *)
Theorem strike_invariant (inp : Inputs) :
  let put := put_strike inp in
  let call := call_strike inp in
  ((put =? call) = true \/ (call <? put) = true ->
     validate_strikes put call = Raise (ValidationError STRIKES_MESSAGE)
     /\ (exists msg, validate_inputs inp = Raise (ValidationError msg))
     /\ (otherwise_valid inp = true ->
         validate_inputs inp = Raise (ValidationError STRIKES_MESSAGE)))
  /\ ((put <? call) = true ->
      validate_strikes put call = Return true
      /\ (otherwise_valid inp = true -> validate_inputs inp = Return inp)).
Proof.
  intros put call. split.
  - intros Hge.
    assert (Hle : (call <=? put) = true).
    { destruct Hge as [He | Hgt]; [now apply eqb_leb | now apply ltb_leb]. }
    assert (Hs : validate_strikes put call = Raise (ValidationError STRIKES_MESSAGE)).
    { unfold validate_strikes. now rewrite Hle. }
    split; [exact Hs | split].
    + unfold validate_inputs.
      destruct (validate_positive_raises (price inp) "Price") as [[m ->] | ->];
        [eexists; reflexivity |].
      destruct (validate_positive_raises (put_strike inp) "Put strike") as [[m ->] | ->];
        [eexists; reflexivity |].
      destruct (validate_positive_raises (call_strike inp) "Call strike") as [[m ->] | ->];
        [eexists; reflexivity |].
      fold put call. rewrite Hs. eexists; reflexivity.
    + unfold otherwise_valid. rewrite !andb_true_iff.
      intros [[[[[[[[[[[Hp Hput] Hcall] _] _] _] _] _] _] _] _] _].
      unfold validate_inputs.
      rewrite (validate_positive_ok _ _ Hp), (validate_positive_ok _ _ Hput),
        (validate_positive_ok _ _ Hcall).
      fold put call. rewrite Hs. reflexivity.
  - intros Hlt.
    assert (Hs : validate_strikes put call = Return true).
    { unfold validate_strikes. now rewrite (ltb_not_leb put call Hlt). }
    split; [exact Hs |].
    unfold otherwise_valid. rewrite !andb_true_iff.
    intros [[[[[[[[[[[Hp Hput] Hcall] Hfp] Hfc] Hbp] Hbc] Hr0] Hr100] Hvix] Hdays] Hatr].
    unfold validate_inputs.
    rewrite (validate_positive_ok _ _ Hp), (validate_positive_ok _ _ Hput),
      (validate_positive_ok _ _ Hcall).
    fold put call. rewrite Hs.
    rewrite (validate_min_ok _ _ Hfp), (validate_min_ok _ _ Hfc),
      (validate_min_ok _ _ Hbp), (validate_min_ok _ _ Hbc),
      (validate_rank_ok _ _ Hr0 Hr100), (validate_days_ok _ _ Hdays),
      (validate_positive_ok _ _ Hvix).
    cbn [bind].
    destruct (use_atr inp); [| reflexivity].
    rewrite (validate_positive_ok _ _ Hatr). reflexivity.
Qed.

Lemma strike_invariant_witness :
  validate_inputs Samples.scenario_A = Return Samples.scenario_A
  /\ validate_inputs Samples.scenario_D = Raise (ValidationError STRIKES_MESSAGE)
  /\ validate_inputs Samples.equal_strikes = Raise (ValidationError STRIKES_MESSAGE).
Proof.
  split; [| split].
  - exact (proj2 (proj2 (strike_invariant Samples.scenario_A) eq_refl) eq_refl).
  - exact (proj2 (proj2 (proj1 (strike_invariant Samples.scenario_D)
                           (or_intror eq_refl))) eq_refl).
  - exact (proj2 (proj2 (proj1 (strike_invariant Samples.equal_strikes)
                           (or_introl eq_refl))) eq_refl).
Defined.

End ValidationProps.

(** ** The decision aggregator *)

Module DecisionProps.

Import helpers Spec.

Lemma is_status_cases (s : string) :
  is_status s ->
  (s = "GREEN" /\ points s = 2) \/ (s = "YELLOW" /\ points s = 1)
  \/ (s = "RED" /\ points s = 0).
Proof.
  intros [H | [H | H]]; subst s; [left | right; left | right; right];
    split; reflexivity.
Qed.

Lemma count_if_acc {A} (p : A -> bool) (xs : list A) (a : Z) :
  fold_left (fun acc x => if p x then acc + 1 else acc) xs a
  = a + count_if p xs.
Proof.
  unfold count_if. revert a.
  induction xs as [| x xs IH]; intros a; simpl.
  - lia.
  - destruct (p x).
    + rewrite (IH (a + 1)), (IH 1). lia.
    + apply IH.
Qed.

Lemma count_if_cons {A} (p : A -> bool) (x : A) (xs : list A) :
  count_if p (x :: xs) = (if p x then 1 else 0) + count_if p xs.
Proof.
  unfold count_if at 1. simpl. rewrite count_if_acc. destruct (p x); lia.
Qed.

Lemma count_if_nonneg {A} (p : A -> bool) (xs : list A) : 0 <= count_if p xs.
Proof.
  induction xs as [| x xs IH].
  - unfold count_if. simpl. lia.
  - rewrite count_if_cons. destruct (p x); lia.
Qed.

Lemma count_cons (label k s : string) (d : dict string) :
  count label ((k, s) :: d) = (if String.eqb label s then 1 else 0) + count label d.
Proof. unfold count. simpl. apply count_if_cons. Qed.

(** The code's [reds] is the number of RED rules. *)
Lemma reds_count (statuses : dict string) :
  count_if (fun s => String.eqb s "RED") (values statuses) = count "RED" statuses.
Proof.
  unfold count. induction (values statuses) as [| x xs IH].
  - reflexivity.
  - rewrite !count_if_cons, IH. now rewrite (String.eqb_sym x "RED").
Qed.

(** On a status mapping the lookup in [score_map] never fails and the sum is
    the aggregate score. *)
Lemma sum_gen_score (statuses : dict string) (acc : Z) :
  status_map statuses ->
  sum_gen (getitem score_map) (values statuses) acc = Return (acc + score statuses).
Proof.
  unfold status_map, score. revert acc.
  induction (values statuses) as [| x xs IH]; intros acc Hall;
    cbn [sum_gen fold_right].
  - f_equal. lia.
  - inversion Hall as [| ? ? Hx Hxs]; subst.
    destruct (is_status_cases x Hx) as [[-> Hp] | [[-> Hp] | [-> Hp]]];
      rewrite Hp.
    + change (getitem score_map "GREEN") with (@Return Z 2). cbn [bind].
      rewrite (IH _ Hxs). f_equal. lia.
    + change (getitem score_map "YELLOW") with (@Return Z 1). cbn [bind].
      rewrite (IH _ Hxs). f_equal. lia.
    + change (getitem score_map "RED") with (@Return Z 0). cbn [bind].
      rewrite (IH _ Hxs). f_equal. lia.
Qed.

(** The score in terms of the label counts. *)
Lemma score_counts (statuses : dict string) :
  status_map statuses ->
  score statuses = 2 * count "GREEN" statuses + count "YELLOW" statuses
  /\ len statuses
     = count "GREEN" statuses + count "YELLOW" statuses + count "RED" statuses.
Proof.
  unfold status_map.
  induction statuses as [| [k s] d IH]; intros Hall.
  - split; reflexivity.
  - simpl in Hall. inversion Hall as [| ? ? Hs Hd]; subst.
    destruct (IH Hd) as [IHs IHn].
    rewrite !count_cons. unfold len in *. simpl List.length. rewrite Nat2Z.inj_succ.
    unfold score, values in *. cbn [map snd fold_right] in *.
    destruct (is_status_cases s Hs) as [[-> Hp] | [[-> Hp] | [-> Hp]]];
      rewrite Hp;
      [ change (String.eqb "GREEN" "GREEN") with true;
        change (String.eqb "YELLOW" "GREEN") with false;
        change (String.eqb "RED" "GREEN") with false
      | change (String.eqb "GREEN" "YELLOW") with false;
        change (String.eqb "YELLOW" "YELLOW") with true;
        change (String.eqb "RED" "YELLOW") with false
      | change (String.eqb "GREEN" "RED") with false;
        change (String.eqb "YELLOW" "RED") with false;
        change (String.eqb "RED" "RED") with true ];
      cbv iota; lia.
Qed.

Lemma count_nonneg (label : string) (statuses : dict string) : 0 <= count label statuses.
Proof. apply count_if_nonneg. Qed.

(** [final_decision] on a status mapping, by cases on the counts. *)
Lemma final_decision_cases (statuses : dict string) :
  status_map statuses ->
  final_decision statuses =
    Return (if (score statuses =? 2 * len statuses) && (count "RED" statuses =? 0)
            then ENTER_ALL_GREEN
            else if (score statuses >=? 2 * (len statuses - 1))
                    && (count "RED" statuses =? 0)
            then ENTER_CAUTION else WAIT).
Proof.
  intros Hmap. unfold final_decision.
  rewrite (sum_gen_score statuses 0 Hmap). cbn [bind]. rewrite reds_count.
  rewrite Z.add_0_l.
  destruct ((score statuses =? 2 * len statuses) && (count "RED" statuses =? 0));
    [reflexivity |].
  destruct ((score statuses >=? 2 * (len statuses - 1)) && (count "RED" statuses =? 0));
    reflexivity.
Qed.

Lemma labels_distinct :
  ENTER_ALL_GREEN <> ENTER_CAUTION /\ ENTER_ALL_GREEN <> WAIT /\ ENTER_CAUTION <> WAIT.
Proof. repeat split; discriminate. Qed.

Lemma count_red_In (statuses : dict string) :
  In "RED" (values statuses) -> 0 < count "RED" statuses.
Proof.
  induction statuses as [| [k s] d IH]; cbn [values map snd In]; intros Hin.
  - contradiction.
  - rewrite count_cons. pose proof (count_nonneg "RED" d).
    destruct Hin as [-> | Hin].
    + change (String.eqb "RED" "RED") with true. cbv iota. lia.
    + specialize (IH Hin). destruct (String.eqb "RED" s); lia.
Qed.

Lemma status_map_setitem (statuses : dict string) (rule s : string) :
  is_status s -> status_map statuses -> status_map (setitem statuses rule s).
Proof.
  unfold status_map, values. intros Hs.
  induction statuses as [| [k v] d IH]; cbn [setitem map snd]; intros Hall.
  - constructor; [exact Hs | constructor].
  - inversion Hall as [| ? ? Hv Hd]; subst.
    destruct (String.eqb k rule); cbn [map snd]; constructor; auto.
Qed.

Lemma setitem_In (statuses : dict string) (rule s : string) :
  In s (values (setitem statuses rule s)).
Proof.
  unfold values.
  induction statuses as [| [k v] d IH]; cbn [setitem map snd].
  - left. reflexivity.
  - destruct (String.eqb k rule); cbn [map snd In]; auto.
Qed.

Lemma permissiveness_nonneg (decision : string) : 0 <= permissiveness decision.
Proof.
  unfold permissiveness.
  destruct (String.eqb decision ENTER_ALL_GREEN); [lia |].
  destruct (String.eqb decision ENTER_CAUTION); lia.
Qed.

Ltac status_map_tac :=
  unfold status_map, is_status; cbn [values map snd];
  repeat (constructor; [auto |]); constructor.

(** C1, as stated, fails: the mapping with two YELLOW rules and three GREEN
    ones has no RED rule and a score of 8 = 2(5-1), and [final_decision]
    returns the cautious-entry label for it, with two YELLOW rules, not one. *)
Lemma cautious_entry_with_two_yellows :
  status_map Samples.two_yellow_statuses
  /\ count "RED" Samples.two_yellow_statuses = 0
  /\ 2 * (len Samples.two_yellow_statuses - 1) <= score Samples.two_yellow_statuses
     < 2 * len Samples.two_yellow_statuses
  /\ final_decision Samples.two_yellow_statuses = Return ENTER_CAUTION
  /\ ~ (count "YELLOW" Samples.two_yellow_statuses = 1
        /\ count "GREEN" Samples.two_yellow_statuses
           = len Samples.two_yellow_statuses - 1).
Proof.
  split; [status_map_tac |].
  split; [reflexivity |].
  split; [vm_compute; split; [discriminate | reflexivity] |].
  split; [reflexivity |].
  intros [H _]. vm_compute in H. discriminate.
Qed.

(** C1 (amended): on a status mapping with no RED rule and a score with
    2(n-1) <= score < 2n, [final_decision] returns the cautious-entry label;
    that case holds exactly when there is no RED rule and one or two rules
    are YELLOW, all the others being GREEN; and the cautious-entry label is
    returned in that case only. *)
Theorem final_decision_cautious_entry (statuses : dict string) :
  status_map statuses ->
  let n := len statuses in
  ((count "RED" statuses = 0 /\ 2 * (n - 1) <= score statuses < 2 * n) ->
   final_decision statuses = Return ENTER_CAUTION)
  /\ ((count "RED" statuses = 0 /\ 2 * (n - 1) <= score statuses < 2 * n) <->
      (count "RED" statuses = 0
       /\ (count "YELLOW" statuses = 1 \/ count "YELLOW" statuses = 2)
       /\ count "GREEN" statuses = n - count "YELLOW" statuses))
  /\ (final_decision statuses = Return ENTER_CAUTION ->
      count "RED" statuses = 0 /\ 2 * (n - 1) <= score statuses < 2 * n).
Proof.
  intros Hmap n.
  destruct (score_counts statuses Hmap) as [Hscore Hlen]. fold n in Hlen.
  pose proof (count_nonneg "GREEN" statuses) as Hg.
  pose proof (count_nonneg "YELLOW" statuses) as Hy.
  pose proof (final_decision_cases statuses Hmap) as Hfd. fold n in Hfd.
  destruct labels_distinct as [Hgc [Hgw Hcw]].
  split; [| split].
  - intros [Hred [Hlo Hhi]]. rewrite Hfd.
    replace (score statuses =? 2 * n) with false by (symmetry; apply Z.eqb_neq; lia).
    replace (score statuses >=? 2 * (n - 1)) with true
      by (symmetry; apply Z.geb_le; lia).
    rewrite Hred. reflexivity.
  - split; intros H; lia.
  - rewrite Hfd. intros H.
    destruct (Z.eqb_spec (score statuses) (2 * n)) as [He | He];
      destruct (Z.eqb_spec (count "RED" statuses) 0) as [Hr | Hr];
      cbn [andb] in H;
      try (injection H as H; congruence).
    + rewrite andb_false_r in H. injection H as H. congruence.
    + destruct (score statuses >=? 2 * (n - 1)) eqn:Hge; cbn [andb] in H.
      * apply Z.geb_le in Hge.
        pose proof (count_nonneg "RED" statuses). lia.
      * injection H as H. congruence.
    + rewrite andb_false_r in H. injection H as H. congruence.
Qed.

Lemma final_decision_cautious_entry_witness :
  status_map Samples.one_yellow_statuses
  /\ final_decision Samples.one_yellow_statuses = Return ENTER_CAUTION.
Proof.
  assert (Hmap : status_map Samples.one_yellow_statuses) by status_map_tac.
  split; [exact Hmap |].
  apply (proj1 (final_decision_cautious_entry Samples.one_yellow_statuses Hmap)).
  vm_compute. repeat split; discriminate.
Defined.

(** C3: on a status mapping, a RED rule anywhere makes [final_decision]
    return the wait label whatever the score is; so setting any rule to RED,
    the others unchanged, yields the wait label, which is never more
    permissive than the decision before. *)
Theorem red_forces_wait (statuses : dict string) :
  status_map statuses ->
  (In "RED" (values statuses) -> final_decision statuses = Return WAIT)
  /\ (forall rule, final_decision (setitem statuses rule "RED") = Return WAIT)
  /\ (forall rule before after,
        final_decision statuses = Return before ->
        final_decision (setitem statuses rule "RED") = Return after ->
        permissiveness after <= permissiveness before).
Proof.
  intros Hmap.
  assert (Hred : forall d, status_map d -> In "RED" (values d) ->
                           final_decision d = Return WAIT).
  { intros d Hd Hin. rewrite (final_decision_cases d Hd).
    pose proof (count_red_In d Hin) as Hpos.
    replace (count "RED" d =? 0) with false by (symmetry; apply Z.eqb_neq; lia).
    rewrite !andb_false_r. reflexivity. }
  assert (Hset : forall rule, final_decision (setitem statuses rule "RED") = Return WAIT).
  { intros rule. apply Hred.
    - apply status_map_setitem; [right; right; reflexivity | exact Hmap].
    - apply setitem_In. }
  split; [apply Hred; exact Hmap | split; [exact Hset |]].
  intros rule before after _ Hafter. rewrite Hset in Hafter.
  injection Hafter as <-.
  change (permissiveness WAIT) with 0. apply permissiveness_nonneg.
Qed.

Lemma red_forces_wait_witness :
  status_map Samples.one_yellow_statuses
  /\ final_decision (setitem Samples.one_yellow_statuses "VIX" "RED") = Return WAIT.
Proof.
  assert (Hmap : status_map Samples.one_yellow_statuses) by status_map_tac.
  split; [exact Hmap |].
  apply (proj1 (proj2 (red_forces_wait Samples.one_yellow_statuses Hmap))).
Defined.

(** C10: applied to the empty mapping, [final_decision] returns the
    full-entry label: n = 0, score = 0 = 2n and there is no RED rule. *)
Theorem final_decision_empty :
  final_decision [] = Return ENTER_ALL_GREEN
  /\ len (@nil (string * string)) = 0
  /\ score [] = 2 * len (@nil (string * string))
  /\ count "RED" [] = 0
  /\ final_decision [] <> Return WAIT
  /\ (forall e, final_decision [] <> Raise e).
Proof.
  repeat split; try reflexivity; intros; discriminate.
Qed.

End DecisionProps.

(** ** The rule engine and the strategy advisor *)

Module ModelProps.

Import helpers Spec OptionsModel.
Local Open Scope float_scope.

Lemma traffic_is_status {A} (value : A) (green_fn yellow_fn : A -> bool) :
  is_status (traffic value green_fn yellow_fn).
Proof.
  unfold traffic, is_status.
  destruct (green_fn value); [auto |]. destruct (yellow_fn value); auto.
Qed.

Lemma ensure_metrics_inputs (self : model) :
  inputs (snd (ensure_metrics self)) = inputs self
  /\ statuses (snd (ensure_metrics self)) = statuses self
  /\ metrics (snd (ensure_metrics self)) = Some (fst (ensure_metrics self)).
Proof.
  unfold ensure_metrics. destruct (metrics self) eqn:Hm; cbn; auto.
Qed.

(** The mapping [evaluate_status_lights] builds, rule by rule. *)
Lemma evaluate_status_lights_eq (self : model) :
  let m := fst (ensure_metrics self) in
  fst (evaluate_status_lights self) =
    ([("Price Location",
       traffic (dist_from_mid m) (fun x => x <=? 0.01) (fun x => x <=? 0.02));
      ("Term Structure",
       traffic (term_gap_pts m) (fun x => 2.0 <=? x) (fun x => 1.0 <=? x));
      ("IV Rank",
       traffic (iv_rank m)
         (fun x => (0.30 <=? x) && (x <=? 0.50))
         (fun x => ((0.20 <=? x) && (x <? 0.30)) || ((0.50 <? x) && (x <=? 0.60))));
      ("Event Proximity",
       traffic (days_to_event (inputs self))
         (fun x => (3 <=? x)%Z && (x <=? 7)%Z)
         (fun x => (1 <=? x)%Z && (x <=? 2)%Z));
      ("VIX",
       traffic (vix_value (inputs self))
         (fun x => (14 <=? x) && (x <=? 20))
         (fun x => (20 <? x) && (x <=? 25)))]
     ++ (if use_atr (inputs self)
         then [("ATR Guardrail", traffic (atr_ok m) (fun ok => ok) (fun _ => false))]
         else []))%list
  /\ statuses (snd (evaluate_status_lights self)) = fst (evaluate_status_lights self)
  /\ inputs (snd (evaluate_status_lights self)) = inputs self
  /\ metrics (snd (evaluate_status_lights self)) = Some m.
Proof.
  intros m. subst m. unfold evaluate_status_lights.
  destruct (ensure_metrics_inputs self) as [Hi [_ Hm]].
  destruct (ensure_metrics self) as [m self'] eqn:He. cbn [fst snd] in *.
  rewrite Hi. destruct (use_atr (inputs self)); cbn [fst snd statuses inputs metrics];
    repeat split; try reflexivity; assumption.
Qed.

(** C5: the mapping [evaluate_status_lights] returns holds the five base
    rules in the order Price Location, Term Structure, IV Rank, Event
    Proximity, VIX, followed by ATR Guardrail exactly when the ATR flag is
    set: 5 entries without the flag, 6 with it; and every value is GREEN,
    YELLOW or RED. *)
Theorem evaluate_status_lights_rules (self : model) :
  let st := fst (evaluate_status_lights self) in
  keys st = (base_rules ++ (if use_atr (inputs self) then ["ATR Guardrail"] else []))%list
  /\ len st = (if use_atr (inputs self) then 6 else 5)%Z
  /\ NoDup (keys st)
  /\ (forall v, In v (values st) -> v = "GREEN" \/ v = "YELLOW" \/ v = "RED").
Proof.
  intros st. subst st.
  destruct (evaluate_status_lights_eq self) as [-> _].
  destruct (use_atr (inputs self)); cbn [app keys values map fst snd len List.length].
  - split; [reflexivity | split; [reflexivity | split]].
    + repeat (constructor; [cbn [In]; intuition discriminate |]). constructor.
    + cbn [In]. intros v Hv.
      repeat (destruct Hv as [<- | Hv]; [apply traffic_is_status |]).
      contradiction.
  - split; [reflexivity | split; [reflexivity | split]].
    + repeat (constructor; [cbn [In]; intuition discriminate |]). constructor.
    + cbn [In]. intros v Hv.
      repeat (destruct Hv as [<- | Hv]; [apply traffic_is_status |]).
      contradiction.
Qed.

(** C4: on a validated record the Price Location rule is GREEN when the
    computed distance fraction is exactly 0.01, YELLOW when it is 0.010001,
    YELLOW when it is 0.02 and RED when it is 0.020001. *)
Theorem price_location_boundaries (inp : Inputs) (self : model) :
  init inp = Return self ->
  let d := dist_from_mid (fst (compute_metrics self)) in
  let st := fst (evaluate_status_lights self) in
  (d = 0.01 -> get st "Price Location" = Some "GREEN")
  /\ (d = 0.010001 -> get st "Price Location" = Some "YELLOW")
  /\ (d = 0.02 -> get st "Price Location" = Some "YELLOW")
  /\ (d = 0.020001 -> get st "Price Location" = Some "RED").
Proof.
  unfold init. intros Hinit. cbn [inputs] in Hinit.
  destruct (validate_inputs inp) as [inp' | e]; [| discriminate].
  cbn [bind] in Hinit. injection Hinit as <-.
  destruct (evaluate_status_lights_eq
              {| inputs := inp; metrics := None; statuses := [] |}) as [-> _].
  cbn [ensure_metrics metrics compute_metrics fst inputs].
  repeat split; intros ->; reflexivity.
Qed.

Lemma price_location_boundaries_witness :
  get (fst (evaluate_status_lights (Samples.fresh Samples.dist_1pct)))
    "Price Location" = Some "GREEN"
  /\ get (fst (evaluate_status_lights (Samples.fresh Samples.dist_above_1pct)))
       "Price Location" = Some "YELLOW"
  /\ get (fst (evaluate_status_lights (Samples.fresh Samples.dist_2pct)))
       "Price Location" = Some "YELLOW"
  /\ get (fst (evaluate_status_lights (Samples.fresh Samples.dist_above_2pct)))
       "Price Location" = Some "RED".
Proof.
  split; [| split; [| split]].
  - exact (proj1 (price_location_boundaries Samples.dist_1pct
                    (Samples.fresh Samples.dist_1pct) eq_refl) eq_refl).
  - exact (proj1 (proj2 (price_location_boundaries Samples.dist_above_1pct
                           (Samples.fresh Samples.dist_above_1pct) eq_refl)) eq_refl).
  - exact (proj1 (proj2 (proj2 (price_location_boundaries Samples.dist_2pct
                                  (Samples.fresh Samples.dist_2pct) eq_refl))) eq_refl).
  - exact (proj2 (proj2 (proj2 (price_location_boundaries Samples.dist_above_2pct
                                  (Samples.fresh Samples.dist_above_2pct) eq_refl))) eq_refl).
Defined.

Lemma is_label_true (x : option string) (s : string) :
  is_label x s = true <-> x = Some s.
Proof.
  unfold is_label. destruct x as [v |].
  - rewrite String.eqb_eq. split; [intros -> | intros [= ->]]; reflexivity.
  - split; discriminate.
Qed.

Lemma is_label_false (x : option string) (s : string) :
  is_label x s = false <-> x <> Some s.
Proof.
  rewrite <- is_label_true. destruct (is_label x s); split; congruence.
Qed.

(** The three tests of [get_strategy_suggestions]. *)
Lemma calendar_test (st : dict string) :
  is_label (get st "IV Rank") "GREEN"
  && (is_label (get st "Term Structure") "GREEN"
      || is_label (get st "Term Structure") "YELLOW")
  && negb (is_label (get st "Price Location") "RED") = true
  <-> calendar_condition st.
Proof.
  unfold calendar_condition.
  rewrite !andb_true_iff, orb_true_iff, negb_true_iff, !is_label_true, is_label_false.
  tauto.
Qed.

Lemma vertical_test (st : dict string) (rank : float) :
  (rank <? 0.25) && is_label (get st "Price Location") "GREEN" = true
  <-> vertical_condition st rank.
Proof.
  unfold vertical_condition. rewrite andb_true_iff, is_label_true. tauto.
Qed.

Lemma condor_test (st : dict string) (rank vix : float) :
  (0.45 <? rank) && (rank <=? 0.60) && (18 <=? vix)
  && is_label (get st "Price Location") "GREEN" = true
  <-> condor_condition st rank vix.
Proof.
  unfold condor_condition. rewrite !andb_true_iff, is_label_true. tauto.
Qed.

Lemma suggestion_labels_distinct :
  NoDup [CALENDAR; VERTICAL; CONDOR; NO_TRADE].
Proof.
  repeat (constructor; [cbn [In]; intuition discriminate |]). constructor.
Qed.

(** The list of suggestions on any object, in terms of the statuses, the
    normalized rank and the volatility index the call works on. *)
Lemma suggestions_of_object (self : model) :
  let sug := fst (get_strategy_suggestions self) in
  let st := statuses (snd (get_strategy_suggestions self)) in
  let rank := iv_rank (fst (ensure_metrics self)) in
  let vix := vix_value (inputs self) in
  sug <> []
  /\ (exists b1 b2 b3 : bool,
        (b1 = true <-> calendar_condition st)
        /\ (b2 = true <-> vertical_condition st rank)
        /\ (b3 = true <-> condor_condition st rank vix)
        /\ sug = if b1 || b2 || b3
                 then ((if b1 then [CALENDAR] else [])
                       ++ (if b2 then [VERTICAL] else [])
                       ++ (if b3 then [CONDOR] else []))%list
                 else [NO_TRADE])
  /\ (sug = [NO_TRADE] <->
      ~ calendar_condition st /\ ~ vertical_condition st rank
      /\ ~ condor_condition st rank vix).
Proof.
  intros sug st rank vix. subst sug st rank vix.
  unfold get_strategy_suggestions.
  destruct (ensure_metrics_inputs self) as [Hi [_ _]].
  destruct (ensure_metrics self) as [m self1] eqn:He. cbn [fst snd] in *.
  set (self2 := if no_statuses self1 then snd (evaluate_status_lights self1) else self1).
  assert (Hi2 : inputs self2 = inputs self).
  { subst self2. destruct (no_statuses self1); [| exact Hi].
    destruct (evaluate_status_lights_eq self1) as [_ [_ [-> _]]]. exact Hi. }
  rewrite Hi2.
  set (st := statuses self2).
  pose proof (calendar_test st) as H1.
  pose proof (vertical_test st (iv_rank m)) as H2.
  pose proof (condor_test st (iv_rank m) (vix_value (inputs self))) as H3.
  set (b1 := is_label (get st "IV Rank") "GREEN"
             && (is_label (get st "Term Structure") "GREEN"
                 || is_label (get st "Term Structure") "YELLOW")
             && negb (is_label (get st "Price Location") "RED")) in *.
  set (b2 := (iv_rank m <? 0.25) && is_label (get st "Price Location") "GREEN") in *.
  set (b3 := (0.45 <? iv_rank m) && (iv_rank m <=? 0.60)
             && (18 <=? vix_value (inputs self))
             && is_label (get st "Price Location") "GREEN") in *.
  split; [| split].
  - destruct b1, b2, b3; cbn; discriminate.
  - exists b1, b2, b3.
    split; [exact H1 | split; [exact H2 | split; [exact H3 |]]].
    destruct b1, b2, b3; reflexivity.
  - split.
    + intros Hs.
      destruct b1, b2, b3; cbn in Hs; try discriminate Hs.
      repeat split; intros Hc;
        [apply H1 in Hc | apply H2 in Hc | apply H3 in Hc]; discriminate.
    + intros [N1 [N2 N3]].
      destruct b1; [exfalso; apply N1, H1; reflexivity |].
      destruct b2; [exfalso; apply N2, H2; reflexivity |].
      destruct b3; [exfalso; apply N3, H3; reflexivity |].
      reflexivity.
Qed.

(** The statuses a call on a freshly constructed object works on are the
    ones [evaluate_status_lights] computes from its inputs. *)
Lemma suggestions_on_evaluated (inp : Inputs) :
  statuses (snd (get_strategy_suggestions (Samples.fresh inp)))
  = fst (evaluate_status_lights (Samples.fresh inp)).
Proof.
  unfold get_strategy_suggestions.
  change (ensure_metrics (Samples.fresh inp))
    with (metrics_of inp, snd (compute_metrics (Samples.fresh inp))).
  cbv beta iota.
  change (no_statuses (snd (compute_metrics (Samples.fresh inp)))) with true.
  cbv beta iota zeta. cbn [snd].
  destruct (evaluate_status_lights_eq (snd (compute_metrics (Samples.fresh inp))))
    as [_ [Hst _]].
  rewrite Hst. reflexivity.
Qed.

(** C8: for every validated input record, the list of suggestions is never
    empty.  It is made of the calendar, vertical and iron-condor
    suggestions, in that order, each present exactly when its condition
    holds on the statuses the rules give for the record, its normalized rank
    and its volatility index; and it is the one-element list of the no-trade
    sentinel exactly when none of the three holds. *)
Theorem suggestions_never_empty (inp : Inputs) (self : model) :
  init inp = Return self ->
  let sug := fst (get_strategy_suggestions self) in
  let st := fst (evaluate_status_lights self) in
  let rank := iv_rank (metrics_of inp) in
  let vix := vix_value inp in
  sug <> []
  /\ (exists b1 b2 b3 : bool,
        (b1 = true <-> calendar_condition st)
        /\ (b2 = true <-> vertical_condition st rank)
        /\ (b3 = true <-> condor_condition st rank vix)
        /\ sug = if b1 || b2 || b3
                 then ((if b1 then [CALENDAR] else [])
                       ++ (if b2 then [VERTICAL] else [])
                       ++ (if b3 then [CONDOR] else []))%list
                 else [NO_TRADE])
  /\ (sug = [NO_TRADE] <->
      ~ calendar_condition st /\ ~ vertical_condition st rank
      /\ ~ condor_condition st rank vix).
Proof.
  intros Hinit. unfold init in Hinit.
  destruct (validate_inputs _) as [u | e]; cbn [bind] in Hinit; [| discriminate].
  injection Hinit as <-.
  change {| inputs := inp; metrics := None; statuses := [] |} with (Samples.fresh inp).
  pose proof (suggestions_of_object (Samples.fresh inp)) as H. cbv zeta in H.
  rewrite (suggestions_on_evaluated inp) in H.
  exact H.
Qed.

Lemma suggestions_never_empty_witness :
  init Samples.scenario_A = Return (Samples.fresh Samples.scenario_A)
  /\ fst (get_strategy_suggestions (Samples.fresh Samples.scenario_A)) <> [].
Proof.
  split; [reflexivity |].
  exact (proj1 (suggestions_never_empty Samples.scenario_A
                  (Samples.fresh Samples.scenario_A) eq_refl)).
Defined.

(** *** The scenarios of the specification *)

Example scenario_A_full_entry :
  init Samples.scenario_A = Return (Samples.fresh Samples.scenario_A)
  /\ fst (get_final_decision (Samples.fresh Samples.scenario_A))
     = Return ENTER_ALL_GREEN
  /\ fst (get_strategy_suggestions (Samples.fresh Samples.scenario_A)) = [CALENDAR].
Proof. repeat split. Qed.

Example scenario_B_wait :
  fst (evaluate_status_lights (Samples.fresh Samples.scenario_B))
  = [("Price Location", "GREEN"); ("Term Structure", "GREEN"); ("IV Rank", "GREEN");
     ("Event Proximity", "GREEN"); ("VIX", "RED")]
  /\ fst (get_final_decision (Samples.fresh Samples.scenario_B)) = Return WAIT.
Proof. repeat split. Qed.

Example scenario_C_cautious_entry :
  fst (evaluate_status_lights (Samples.fresh Samples.scenario_C))
  = Samples.one_yellow_statuses
  /\ fst (get_final_decision (Samples.fresh Samples.scenario_C))
     = Return ENTER_CAUTION.
Proof. repeat split. Qed.

Example scenario_D_rejected :
  init Samples.scenario_D = Raise (ValidationError STRIKES_MESSAGE).
Proof. reflexivity. Qed.

Example scenario_E_atr_guardrail :
  get (fst (evaluate_status_lights (Samples.fresh Samples.scenario_E))) "ATR Guardrail"
  = Some "RED"
  /\ fst (get_final_decision (Samples.fresh Samples.scenario_E)) = Return WAIT.
Proof. repeat split. Qed.

Example two_yellow_record :
  init Samples.two_yellow_inputs = Return (Samples.fresh Samples.two_yellow_inputs)
  /\ fst (evaluate_status_lights (Samples.fresh Samples.two_yellow_inputs))
     = Samples.two_yellow_statuses
  /\ fst (get_final_decision (Samples.fresh Samples.two_yellow_inputs))
     = Return ENTER_CAUTION.
Proof. repeat split. Qed.

End ModelProps.

(** ** The market-data client *)

Module ClientProps.

Import datetime IBKRClient FloatProps.

(** C2: the code returns the absence marker for every symbol and every
    client, connected or not: [get_underlying_price] never consults a quote. *)
Theorem get_underlying_price_absent (env : environment) (self : client) (symbol : string) :
  fst (get_underlying_price env self symbol) = None.
Proof.
  unfold get_underlying_price.
  destruct (ensure_connected env self) as [ok self'].
  destruct ok; reflexivity.
Qed.

(** With the gateway up and a valid live last tick of 635.0 the cascade
    that follows the last [return] of [get_iv_rank] would yield 635.0, and
    [get_underlying_price] yields nothing. *)
Lemma get_underlying_price_live_tick_lost :
  fst (ensure_connected Samples.gateway_up Samples.new_client) = true
  /\ unreachable_price_cascade Samples.live_quotes = Some 635%float
  /\ fst (get_underlying_price Samples.gateway_up Samples.new_client "SPY") = None.
Proof. repeat split. Qed.

(** *** The two Fridays *)

Lemma weekday_range (d : date) : 0 <= weekday d < 7.
Proof. unfold weekday. apply Z.mod_pos_bound. lia. Qed.

(** C9, as stated, fails: the last day a [date] can hold, 9999-12-31, is a
    Friday, and the Friday a week later does not exist. *)
Lemma nearest_two_fridays_last_day :
  in_range (ymd 9999 12 31)
  /\ weekday (ymd 9999 12 31) = 4
  /\ nearest_two_fridays (ymd 9999 12 31) (Some (ymd 9999 12 31))
     = Raise (OverflowError "date value out of range").
Proof.
  split; [| split]; [| reflexivity | reflexivity].
  unfold in_range. vm_compute. split; discriminate.
Qed.

(** C9 (amended): for every reference date up to 9999-12-24 the function
    returns a pair (first, second) where first is the first Friday on or
    after the reference date (the date itself when it is a Friday) and
    second is seven days after first; the reference date is [today] when
    none is given. *)
Theorem nearest_two_fridays_spec (today : date) (from_date : option date) :
  let d := match from_date with Some d => d | None => today end in
  in_range d ->
  toordinal d <= MAXORDINAL - 7 ->
  exists first second,
    nearest_two_fridays today from_date = Return (first, second)
    /\ weekday first = 4
    /\ toordinal d <= toordinal first
    /\ (forall e, toordinal d <= toordinal e < toordinal first -> weekday e <> 4)
    /\ (weekday d = 4 -> first = d)
    /\ toordinal second = toordinal first + 7
    /\ in_range first /\ in_range second.
Proof.
  intros d [Hlo Hhi] Hmax. unfold nearest_two_fridays. fold d.
  unfold MAXORDINAL in *.
  pose proof (weekday_range d) as Hw.
  set (days_ahead := (4 - weekday d) mod 7).
  assert (Hda : 0 <= days_ahead < 7) by (apply Z.mod_pos_bound; lia).
  assert (Hfri : (toordinal d + days_ahead + 6) mod 7 = 4).
  { subst days_ahead. unfold weekday in *. Z.div_mod_to_equations. lia. }
  assert (Hmin : forall o, toordinal d <= o < toordinal d + days_ahead ->
                           (o + 6) mod 7 <> 4).
  { intros o Ho. subst days_ahead. unfold weekday in *.
    Z.div_mod_to_equations. lia. }
  destruct (Z.eqb_spec days_ahead 0) as [Hz | Hnz].
  - exists d, {| toordinal := toordinal d + 7 |}.
    cbn [bind]. unfold add_days, MAXORDINAL.
    replace ((0 <? toordinal d + 7) && (toordinal d + 7 <=? 3652059)) with true
      by (symmetry; apply andb_true_iff; split; [apply Z.ltb_lt | apply Z.leb_le]; lia).
    cbn [bind toordinal]. unfold in_range, MAXORDINAL. cbn [toordinal].
    rewrite Hz in Hfri, Hmin.
    repeat split; try lia.
    unfold weekday. rewrite <- Hfri. f_equal. lia.
  - exists {| toordinal := toordinal d + days_ahead |},
           {| toordinal := toordinal d + days_ahead + 7 |}.
    unfold add_days, MAXORDINAL.
    replace ((0 <? toordinal d + days_ahead) && (toordinal d + days_ahead <=? 3652059))
      with true
      by (symmetry; apply andb_true_iff; split; [apply Z.ltb_lt | apply Z.leb_le]; lia).
    cbn [bind toordinal].
    assert (Hle : toordinal d + days_ahead <= 3652052).
    { assert (Hmax' : (3652052 + 6) mod 7 = 4) by reflexivity.
      subst days_ahead. unfold weekday in *. Z.div_mod_to_equations. lia. }
    replace ((0 <? toordinal d + days_ahead + 7)
             && (toordinal d + days_ahead + 7 <=? 3652059)) with true
      by (symmetry; apply andb_true_iff; split; [apply Z.ltb_lt | apply Z.leb_le]; lia).
    cbn [bind]. unfold in_range, MAXORDINAL. cbn [toordinal].
    repeat split; try lia.
    + exact Hfri.
    + intros e He. apply Hmin. lia.
    + intros Hd4. exfalso. apply Hnz. subst days_ahead. rewrite Hd4. reflexivity.
Qed.

(** Past 9999-12-24 the second Friday does not exist. *)
Lemma nearest_two_fridays_overflow (today : date) (d : date) :
  in_range d -> MAXORDINAL - 7 < toordinal d ->
  nearest_two_fridays today (Some d)
  = Raise (OverflowError "date value out of range").
Proof.
  destruct d as [o]. unfold in_range, MAXORDINAL. cbn [toordinal]. intros Hr Hlt.
  assert (Ho : o = 3652053 \/ o = 3652054 \/ o = 3652055 \/ o = 3652056
               \/ o = 3652057 \/ o = 3652058 \/ o = 3652059) by lia.
  destruct Ho as [-> | [-> | [-> | [-> | [-> | [-> | ->]]]]]]; reflexivity.
Qed.

Lemma nearest_two_fridays_spec_witness :
  in_range (ymd 2026 11 3)
  /\ toordinal (ymd 2026 11 3) <= MAXORDINAL - 7
  /\ exists first second,
       nearest_two_fridays (ymd 2026 11 3) None = Return (first, second)
       /\ weekday first = 4
       /\ toordinal second = toordinal first + 7.
Proof.
  assert (Hr : in_range (ymd 2026 11 3)) by (vm_compute; split; discriminate).
  assert (Hm : toordinal (ymd 2026 11 3) <= MAXORDINAL - 7) by (vm_compute; discriminate).
  split; [exact Hr | split; [exact Hm |]].
  destruct (nearest_two_fridays_spec (ymd 2026 11 3) None Hr Hm)
    as [first [second [Heq [Hfri [_ [_ [_ [Hsec _]]]]]]]].
  exists first, second. auto.
Defined.

Example nearest_two_fridays_tuesday :
  nearest_two_fridays (ymd 2026 11 3) None = Return (ymd 2026 11 6, ymd 2026 11 13).
Proof. reflexivity. Qed.

Example nearest_two_fridays_friday :
  nearest_two_fridays (ymd 2026 11 3) (Some (ymd 2026 11 6))
  = Return (ymd 2026 11 6, ymd 2026 11 13).
Proof. reflexivity. Qed.

(** *** The rank of the implied volatility *)

Local Open Scope float_scope.

(** [max(0.0, min(100.0, rank))] lies in [0, 100] for every float, a NaN
    included. *)
Lemma clip_in_range (rank : float) : Spec.in_0_100 (max2 0 (min2 100 rank)).
Proof.
  unfold Spec.in_0_100, max2, min2.
  destruct (rank <? 100) eqn:H100.
  - destruct (0 <? rank) eqn:H0.
    + split; now apply ltb_leb.
    + split; reflexivity.
  - split; reflexivity.
Qed.

(** The primary path on a series with at least five finite closes and
    max > min: the division is defined and the clipped rank is returned. *)
Lemma iv_rank_primary_value (feed : iv_feed) (bars : list (option float))
    (x : float) (xs : list float) :
  option_bars feed = Return bars ->
  finite_closes bars = x :: xs ->
  (5 <= Z.of_nat (List.length (x :: xs)))%Z ->
  (min_list x xs <? max_list x xs) = true ->
  iv_rank_primary true feed
  = Some (Spec.clipped_rank (List.last xs x) (min_list x xs) (max_list x xs)).
Proof.
  intros Hbars Hseries Hlen Hlt. unfold iv_rank_primary.
  rewrite Hbars. cbn [bind]. rewrite Hseries.
  replace (5 <=? Z.of_nat (List.length (x :: xs)))%Z with true
    by (symmetry; apply Z.leb_le; exact Hlen).
  rewrite Hlt. unfold PyNum.div.
  rewrite (FloatSubProps.sub_nonzero _ _ Hlt). reflexivity.
Qed.

(** The fallback path on a history with max > min. *)
Lemma iv_rank_fallback_value (feed : iv_feed) (data : list float)
    (x : float) (xs : list float) :
  vix_yf_present feed = true ->
  vix_close feed = Return data ->
  dropna data = x :: xs ->
  (min_list x xs <? max_list x xs) = true ->
  iv_rank_fallback feed
  = Some (Spec.clipped_rank (List.last xs x) (min_list x xs) (max_list x xs)).
Proof.
  intros Hyf Hdata Hs Hlt. unfold iv_rank_fallback.
  rewrite Hyf, Hdata. cbn [negb bind]. rewrite Hs, Hlt. unfold PyNum.div.
  rewrite (FloatSubProps.sub_nonzero _ _ Hlt). reflexivity.
Qed.

Lemma iv_rank_primary_clipped (ok : bool) (feed : iv_feed) (r : float) :
  iv_rank_primary ok feed = Some r -> exists rank, r = max2 0 (min2 100 rank).
Proof.
  unfold iv_rank_primary, try_except.
  destruct ok; [| discriminate].
  destruct (option_bars feed) as [bars | e]; cbn [bind]; [| discriminate].
  destruct (5 <=? Z.of_nat (List.length (finite_closes bars)))%Z; [| discriminate].
  destruct (finite_closes bars) as [| x xs]; [discriminate |].
  destruct (min_list x xs <? max_list x xs); [| discriminate].
  unfold PyNum.div.
  destruct (max_list x xs - min_list x xs =? 0); cbn [bind]; [discriminate |].
  intros [= <-]. eexists. reflexivity.
Qed.

Lemma iv_rank_fallback_clipped (feed : iv_feed) (r : float) :
  iv_rank_fallback feed = Some r -> exists rank, r = max2 0 (min2 100 rank).
Proof.
  unfold iv_rank_fallback, try_except.
  destruct (vix_yf_present feed); cbn [negb]; [| discriminate].
  destruct (vix_close feed) as [data | e]; cbn [bind]; [| discriminate].
  destruct (dropna data) as [| x xs]; [discriminate |].
  destruct (min_list x xs <? max_list x xs); [| discriminate].
  unfold PyNum.div.
  destruct (max_list x xs - min_list x xs =? 0); cbn [bind]; [discriminate |].
  intros [= <-]. eexists. reflexivity.
Qed.

(** C6: whatever rank [get_iv_rank] returns lies in [0, 100].  On a
    connected client whose implied-volatility history has at least five
    finite closes with max > min, it returns the rank (current - min) /
    (max - min) * 100 clamped to [0, 100]; when the primary path yields
    nothing and the volatility-index history has max > min, it returns the
    same clamped formula over that history. *)
Theorem get_iv_rank_in_range (env : environment) (self : client) (feed : iv_feed) :
  (forall r, fst (get_iv_rank env self feed) = Some r -> Spec.in_0_100 r)
  /\ (forall bars x xs,
        fst (ensure_connected env self) = true ->
        option_bars feed = Return bars ->
        finite_closes bars = x :: xs ->
        (5 <= Z.of_nat (List.length (x :: xs)))%Z ->
        (min_list x xs <? max_list x xs) = true ->
        let r := Spec.clipped_rank (List.last xs x) (min_list x xs) (max_list x xs) in
        fst (get_iv_rank env self feed) = Some r /\ Spec.in_0_100 r)
  /\ (forall data x xs,
        iv_rank_primary (fst (ensure_connected env self)) feed = None ->
        vix_yf_present feed = true ->
        vix_close feed = Return data ->
        dropna data = x :: xs ->
        (min_list x xs <? max_list x xs) = true ->
        let r := Spec.clipped_rank (List.last xs x) (min_list x xs) (max_list x xs) in
        fst (get_iv_rank env self feed) = Some r /\ Spec.in_0_100 r).
Proof.
  unfold get_iv_rank.
  destruct (ensure_connected env self) as [ok self']. cbn [fst].
  split; [| split].
  - intros r.
    destruct (iv_rank_primary ok feed) as [rank |] eqn:Hprim; cbn [fst].
    + intros [= ->]. destruct (iv_rank_primary_clipped ok feed r Hprim) as [rank ->].
      apply clip_in_range.
    + intros H. destruct (iv_rank_fallback_clipped feed r H) as [rank ->].
      apply clip_in_range.
  - intros bars x xs -> Hbars Hseries Hlen Hlt. cbv zeta.
    rewrite (iv_rank_primary_value feed bars x xs Hbars Hseries Hlen Hlt).
    split; [reflexivity | apply clip_in_range].
  - intros data x xs -> Hyf Hdata Hs Hlt. cbv zeta.
    rewrite (iv_rank_fallback_value feed data x xs Hyf Hdata Hs Hlt).
    split; [reflexivity | apply clip_in_range].
Qed.

Lemma get_iv_rank_in_range_witness :
  (fst (get_iv_rank Samples.gateway_up Samples.new_client Samples.feed_at_max)
   = Some 100 /\ Spec.in_0_100 100)
  /\ (fst (get_iv_rank Samples.gateway_up Samples.new_client Samples.feed_at_min)
      = Some 0 /\ Spec.in_0_100 0)
  /\ (fst (get_iv_rank Samples.gateway_up Samples.new_client Samples.feed_vix_only)
      = Some 55.000000000000007 /\ Spec.in_0_100 55.000000000000007).
Proof.
  split; [| split].
  - exact (proj1 (proj2 (get_iv_rank_in_range Samples.gateway_up Samples.new_client
                           Samples.feed_at_max))
             [Some 0.2; Some 0.3; None; Some 0.25; Some nan; Some 0.1; Some 0.4]
             0.2 [0.3; 0.25; 0.1; 0.4]
             eq_refl eq_refl eq_refl ltac:(cbn; lia) eq_refl).
  - split; [reflexivity |].
    exact (proj1 (get_iv_rank_in_range Samples.gateway_up Samples.new_client
                    Samples.feed_at_min) 0 eq_refl).
  - exact (proj2 (proj2 (get_iv_rank_in_range Samples.gateway_up Samples.new_client
                           Samples.feed_vix_only))
             [15; nan; 22; 18; 12; 17.5] 15 [22; 18; 12; 17.5]
             eq_refl eq_refl eq_refl eq_refl eq_refl).
Defined.

Example get_iv_rank_between :
  fst (get_iv_rank Samples.gateway_up Samples.new_client Samples.feed_between)
  = Some 24.999999999999993.
Proof. reflexivity. Qed.

End ClientProps.

(* ===================================================================== *)
(** * Part III: further properties of the code                            *)
(* ===================================================================== *)

(** ** The order of floats *)

Module FloatOrderProps.

Import Extra.

Lemma Zcompare_chain (a b c : Z) (c1 c2 : comparison) :
  (a ?= b) = c1 -> (b ?= c) = c2 -> c1 <> Gt -> c2 <> Gt -> (a ?= c) = seq_cmp c1 c2.
Proof.
  intros H1 H2 N1 N2.
  destruct (Z.compare_spec a b), (Z.compare_spec b c); subst; try congruence; cbn [seq_cmp].
  - apply Z.compare_refl.
  - apply Z.compare_lt_iff. lia.
  - apply Z.compare_lt_iff. lia.
  - apply Z.compare_lt_iff. lia.
Qed.

Lemma Poscompare_chain (a b c : positive) (c1 c2 : comparison) :
  (a ?= b)%positive = c1 -> (b ?= c)%positive = c2 -> c1 <> Gt -> c2 <> Gt ->
  (a ?= c)%positive = seq_cmp c1 c2.
Proof.
  intros H1 H2 N1 N2.
  destruct (Pos.compare_spec a b), (Pos.compare_spec b c); subst; try congruence; cbn [seq_cmp].
  - apply Pos.compare_refl.
  - apply Pos.compare_lt_iff. lia.
  - apply Pos.compare_lt_iff. lia.
  - apply Pos.compare_lt_iff. lia.
Qed.

Lemma lex_chain e1 m1 e2 m2 e3 m3 c1 c2 :
  lex e1 m1 e2 m2 = c1 -> lex e2 m2 e3 m3 = c2 -> c1 <> Gt -> c2 <> Gt ->
  lex e1 m1 e3 m3 = seq_cmp c1 c2.
Proof.
  unfold lex. intros H1 H2 N1 N2.
  destruct (Z.compare_spec e1 e2) as [E12 | L12 | G12];
    destruct (Z.compare_spec e2 e3) as [E23 | L23 | G23]; subst; try congruence.
  - rewrite Z.compare_refl. now apply Poscompare_chain with (b := m2).
  - replace (e2 ?= e3) with Lt by (symmetry; apply Z.compare_lt_iff; lia).
    destruct (m1 ?= m2)%positive; cbn; congruence.
  - replace (e1 ?= e3) with Lt by (symmetry; apply Z.compare_lt_iff; lia).
    destruct (m2 ?= m3)%positive; cbn; congruence.
  - replace (e1 ?= e3) with Lt by (symmetry; apply Z.compare_lt_iff; lia).
    reflexivity.
Qed.

Lemma lex_antisym e1 m1 e2 m2 : lex e2 m2 e1 m1 = CompOpp (lex e1 m1 e2 m2).
Proof.
  unfold lex. rewrite (Z.compare_antisym e1 e2).
  destruct (e1 ?= e2); cbn [CompOpp]; try reflexivity. apply Pos.compare_antisym.
Qed.

Lemma SFcompare_finite s1 m1 e1 s2 m2 e2 :
  SFcompare (S754_finite s1 m1 e1) (S754_finite s2 m2 e2) =
  Some (match s1, s2 with
        | true, false => Lt
        | false, true => Gt
        | false, false => lex e1 m1 e2 m2
        | true, true => lex e2 m2 e1 m1
        end).
Proof.
  cbn [SFcompare]. destruct s1, s2; try reflexivity; f_equal.
  rewrite lex_antisym. unfold lex.
  change (PosDef.Pos.compare_cont Eq m1 m2) with (Pos.compare m1 m2).
  destruct (e1 ?= e2); reflexivity.
Qed.

Lemma SFcompare_chain (x y z : spec_float) (c1 c2 : comparison) :
  SFcompare x y = Some c1 -> SFcompare y z = Some c2 -> c1 <> Gt -> c2 <> Gt ->
  SFcompare x z = Some (seq_cmp c1 c2).
Proof.
  intros H1 H2 N1 N2.
  destruct x as [sx | sx | | sx mx ex], y as [sy | sy | | sy my ey],
           z as [sz | sz | | sz mz ez];
    try discriminate H1; try discriminate H2;
    try rewrite SFcompare_finite in *;
    cbn [SFcompare] in *;
    try (destruct sx; try destruct sy; try destruct sz;
         injection H1 as <-; injection H2 as <-; cbn [seq_cmp]; congruence).
  all: repeat match goal with b : bool |- _ => destruct b end;
    injection H1 as H1; injection H2 as H2; f_equal;
    try (eapply lex_chain; eassumption);
    try (rewrite (lex_chain _ _ _ _ _ _ _ _ H2 H1 N2 N1); destruct c1, c2; reflexivity);
    destruct c1, c2; cbn [seq_cmp]; congruence.
Qed.

Lemma ltb_trans (a b c : float) :
  (a <? b)%float = true -> (b <? c)%float = true -> (a <? c)%float = true.
Proof.
  rewrite !ltb_spec. unfold SFltb. intros H1 H2.
  destruct (SFcompare (Prim2SF a) (Prim2SF b)) as [[] |] eqn:E1; try discriminate.
  destruct (SFcompare (Prim2SF b) (Prim2SF c)) as [[] |] eqn:E2; try discriminate.
  rewrite (SFcompare_chain _ _ _ _ _ E1 E2); [reflexivity | discriminate | discriminate].
Qed.

Lemma leb_ltb_trans (a b c : float) :
  (a <=? b)%float = true -> (b <? c)%float = true -> (a <? c)%float = true.
Proof.
  rewrite !ltb_spec, leb_spec. unfold SFltb, SFleb. intros H1 H2.
  destruct (SFcompare (Prim2SF a) (Prim2SF b)) as [[] |] eqn:E1; try discriminate;
  destruct (SFcompare (Prim2SF b) (Prim2SF c)) as [[] |] eqn:E2; try discriminate;
  rewrite (SFcompare_chain _ _ _ _ _ E1 E2); try reflexivity; discriminate.
Qed.

Lemma ltb_leb_trans (a b c : float) :
  (a <? b)%float = true -> (b <=? c)%float = true -> (a <? c)%float = true.
Proof.
  rewrite !ltb_spec, leb_spec. unfold SFltb, SFleb. intros H1 H2.
  destruct (SFcompare (Prim2SF a) (Prim2SF b)) as [[] |] eqn:E1; try discriminate;
  destruct (SFcompare (Prim2SF b) (Prim2SF c)) as [[] |] eqn:E2; try discriminate;
  rewrite (SFcompare_chain _ _ _ _ _ E1 E2); try reflexivity; discriminate.
Qed.

Lemma leb_trans (a b c : float) :
  (a <=? b)%float = true -> (b <=? c)%float = true -> (a <=? c)%float = true.
Proof.
  rewrite !leb_spec. unfold SFleb. intros H1 H2.
  destruct (SFcompare (Prim2SF a) (Prim2SF b)) as [[] |] eqn:E1; try discriminate;
  destruct (SFcompare (Prim2SF b) (Prim2SF c)) as [[] |] eqn:E2; try discriminate;
  rewrite (SFcompare_chain _ _ _ _ _ E1 E2); try reflexivity; discriminate.
Qed.

(** The absolute value is never below zero. *)
Lemma abs_not_negative (x : float) : (abs x <? 0)%float = false.
Proof.
  rewrite ltb_spec, abs_spec. change (Prim2SF 0) with (S754_zero false).
  unfold SFltb. destruct (Prim2SF x) as [s | s | | s m e]; reflexivity.
Qed.

Lemma Prim2SF_nan (x : float) : is_nan x = true -> Prim2SF x = S754_nan.
Proof. intros H. unfold Prim2SF. now rewrite H. Qed.

(** A NaN compares with no int. *)
Lemma nan_cmp_int (x : float) (n : Z) : is_nan x = true -> float_cmp_int x n = None.
Proof.
  intros H. unfold float_cmp_int, cmp_exact.
  rewrite compare_spec, (Prim2SF_nan x H). cbn [SFcompare].
  destruct (Z.abs n <=? 2 ^ 53); reflexivity.
Qed.

(** A finite float is a zero or has a mantissa. *)
Lemma finite_shape (x : float) :
  is_finite x = true ->
  (exists s, Prim2SF x = S754_zero s) \/ (exists s m e, Prim2SF x = S754_finite s m e).
Proof.
  unfold is_finite. intros H. apply negb_true_iff, orb_false_iff in H.
  destruct H as [Hnan Hinf]. unfold Prim2SF. rewrite Hnan, Hinf.
  destruct (is_zero x); [left; eauto |].
  destruct (Z.frexp x) as [r ex].
  destruct (shr_fexp prec emax (Uint63.to_Z (normfr_mantissa r)) (ex - prec) loc_Exact)
    as [mrs e'].
  destruct (shr_m mrs); [left | right | left]; eauto.
Qed.

(** Rounding a positive integer gives a finite float or an infinity. *)
Lemma binary_round_aux_shape (sx : bool) (m : positive) (e : Z) (l : location) :
  emin <= e ->
  (exists m' e', binary_round_aux prec emax sx (Z.pos m) e l = S754_finite sx m' e')
  \/ binary_round_aux prec emax sx (Z.pos m) e l = S754_infinity sx.
Proof.
  intros He. unfold binary_round_aux.
  destruct (FloatSubProps.shr_fexp_pos m e l He) as [[m1 Hm1] He1].
  destruct (shr_fexp prec emax (Z.pos m) e l) as [mrs1 e1]. cbn [fst snd] in *.
  rewrite Hm1.
  destruct (FloatSubProps.round_nearest_even_pos m1 (loc_of_shr_record mrs1)) as [m2 ->].
  destruct (FloatSubProps.shr_fexp_pos m2 e1 loc_Exact He1) as [[m3 Hm3] _].
  destruct (shr_fexp prec emax (Z.pos m2) e1 loc_Exact) as [mrs2 e2]. cbn [fst snd] in *.
  rewrite Hm3. destruct (e2 <=? emax - prec); eauto.
Qed.

Lemma binary_normalize_not_nan (m e : Z) (szero : bool) :
  emin <= e -> binary_normalize prec emax m e szero <> S754_nan.
Proof.
  intros He. destruct m as [| p | p]; cbn [binary_normalize]; [discriminate | |];
    unfold binary_round, shl_align;
    pose proof (FloatSubProps.fexp_ge_emin (Z.pos (digits2_pos p) + e)) as Hf;
    destruct (fexp prec emax (Z.pos (digits2_pos p) + e) - e);
    match goal with
    | |- binary_round_aux _ _ ?s (Z.pos ?q) ?e' ?l <> _ =>
        assert (He' : emin <= e') by assumption;
        destruct (binary_round_aux_shape s q e' l He') as [[m' [e'' ->]] | ->];
        discriminate
    end.
Qed.

(** The difference of two finite floats, the second strictly below the
    first, is a finite float or an infinity. *)
Lemma sub_shape (x y : float) :
  is_finite x = true -> is_finite y = true -> (y <? x)%float = true ->
  (exists s m e, Prim2SF (x - y) = S754_finite s m e)
  \/ (exists s, Prim2SF (x - y) = S754_infinity s).
Proof.
  intros Hx Hy Hlt.
  assert (Hnz : forall s, Prim2SF (x - y) <> S754_zero s).
  { intros s. rewrite sub_spec. rewrite ltb_spec in Hlt. unfold SFltb in Hlt.
    destruct (SFcompare (Prim2SF y) (Prim2SF x)) as [[| |] |] eqn:Hc; try discriminate.
    apply FloatSubProps.SFsub_nonzero; auto using Prim2SF_valid. }
  assert (Hnn : Prim2SF (x - y) <> S754_nan).
  { rewrite sub_spec. unfold SF64sub.
    pose proof (Prim2SF_valid x) as Vx. pose proof (Prim2SF_valid y) as Vy.
    destruct (finite_shape x Hx) as [[sx Ex] | [sx [mx [ex Ex]]]];
      destruct (finite_shape y Hy) as [[sy Ey] | [sy [my [ey Ey]]]];
      rewrite Ex, Ey in *; cbn [SFsub]; try discriminate.
    - destruct sx, sy; discriminate.
    - cbn [valid_binary] in Vx, Vy.
      destruct (FloatSubProps.bounded_facts mx ex Vx) as [Hex _].
      destruct (FloatSubProps.bounded_facts my ey Vy) as [Hey _].
      apply binary_normalize_not_nan.
      change (IntDef.Z.min ex ey) with (Z.min ex ey). lia. }
  destruct (Prim2SF (x - y)) as [s | s | | s m e]; eauto.
  - exfalso. exact (Hnz s eq_refl).
  - exfalso. exact (Hnn eq_refl).
Qed.

(** The difference of two equal finite floats is a zero. *)
Lemma sub_equal_zero (x y : float) :
  is_finite x = true -> is_finite y = true -> (x =? y)%float = true ->
  exists s, Prim2SF (x - y) = S754_zero s.
Proof.
  intros Hx Hy Heq. rewrite sub_spec. unfold SF64sub.
  rewrite eqb_spec in Heq. unfold SFeqb in Heq.
  destruct (finite_shape x Hx) as [[sx Ex] | [sx [mx [ex Ex]]]];
    destruct (finite_shape y Hy) as [[sy Ey] | [sy [my [ey Ey]]]];
    rewrite Ex, Ey in *; cbn [SFsub].
  - destruct sx, sy; eauto.
  - cbn [SFcompare] in Heq. destruct sy; discriminate.
  - cbn [SFcompare] in Heq. destruct sx; discriminate.
  - rewrite SFcompare_finite in Heq.
    assert (Hsame : sx = sy /\ ex = ey /\ mx = my).
    { unfold lex in Heq. destruct sx, sy; try discriminate.
      - destruct (Z.compare_spec ey ex); try discriminate.
        destruct (Pos.compare_spec my mx); try discriminate. subst. auto.
      - destruct (Z.compare_spec ex ey); try discriminate.
        destruct (Pos.compare_spec mx my); try discriminate. subst. auto. }
    destruct Hsame as [-> [-> ->]].
    rewrite Z.sub_diag. cbn [binary_normalize]. eauto.
Qed.

(** The clamped rank of a series whose current value is its minimum. *)
Lemma clipped_rank_at_min (cur lo hi : float) :
  is_finite cur = true -> is_finite lo = true -> is_finite hi = true ->
  (cur =? lo)%float = true -> (lo <? hi)%float = true ->
  max2 0 (min2 100 ((cur - lo) / (hi - lo) * 100))%float = 0%float.
Proof.
  intros Hc Hl Hh Heq Hlt.
  destruct (sub_equal_zero cur lo Hc Hl Heq) as [sn Hn].
  assert (Hq : exists s, Prim2SF ((cur - lo) / (hi - lo)) = S754_zero s).
  { rewrite div_spec, Hn. unfold SF64div.
    destruct (sub_shape hi lo Hh Hl Hlt) as [[s [m [e ->]]] | [s ->]];
      cbn [SFdiv]; eauto. }
  destruct Hq as [sq Hq].
  assert (Hr : Prim2SF ((cur - lo) / (hi - lo) * 100) = S754_zero sq).
  { rewrite mul_spec, Hq. unfold SF64mul.
    replace (Prim2SF 100) with (S754_finite false 7036874417766400 (-46))
      by (vm_compute; reflexivity).
    cbn [SFmul]. now rewrite xorb_false_r. }
  unfold max2, min2.
  assert (H100 : ((cur - lo) / (hi - lo) * 100 <? 100)%float = true).
  { rewrite ltb_spec, Hr.
    replace (Prim2SF 100) with (S754_finite false 7036874417766400 (-46))
      by (vm_compute; reflexivity).
    reflexivity. }
  rewrite H100.
  assert (H0 : (0 <? (cur - lo) / (hi - lo) * 100)%float = false).
  { rewrite ltb_spec, Hr. change (Prim2SF 0) with (S754_zero false). reflexivity. }
  rewrite H0. reflexivity.
Qed.

End FloatOrderProps.

(** ** More on the decision aggregator *)

Module DecisionExtra.

Import helpers Spec Extra DecisionProps.

Lemma count_zero_iff (label : string) (statuses : dict string) :
  count label statuses = 0 <-> ~ In label (values statuses).
Proof.
  induction statuses as [| [k s] d IH]; cbn [values map snd In].
  - split; [intros _ [] | reflexivity].
  - rewrite count_cons. pose proof (count_nonneg label d) as Hnn.
    destruct (String.eqb_spec label s) as [-> | Hne].
    + split; [lia | intros H; exfalso; apply H; left; reflexivity].
    + rewrite Z.add_0_l, IH. fold (values d).
      split; [intros H [Heq | Hin]; [congruence | exact (H Hin)] | tauto].
Qed.

Lemma all_green_iff (statuses : dict string) :
  status_map statuses ->
  ((forall v, In v (values statuses) -> v = "GREEN") <->
   count "YELLOW" statuses = 0 /\ count "RED" statuses = 0).
Proof.
  intros Hmap. rewrite !count_zero_iff. split.
  - intros Hall. split; intros Hin; apply Hall in Hin; discriminate.
  - intros [Hy Hr] v Hin.
    unfold status_map in Hmap. rewrite Forall_forall in Hmap.
    destruct (Hmap v Hin) as [-> | [-> | ->]]; [reflexivity | tauto | tauto].
Qed.

(** The three outcomes in terms of the counts of YELLOW and RED rules. *)
Lemma final_decision_by_counts (statuses : dict string) :
  status_map statuses ->
  final_decision statuses =
    Return (if (count "RED" statuses =? 0) && (count "YELLOW" statuses =? 0)
            then ENTER_ALL_GREEN
            else if (count "RED" statuses =? 0) && (count "YELLOW" statuses <=? 2)
            then ENTER_CAUTION else WAIT).
Proof.
  intros Hmap. rewrite (final_decision_cases statuses Hmap).
  destruct (score_counts statuses Hmap) as [Hs Hn].
  pose proof (count_nonneg "GREEN" statuses).
  pose proof (count_nonneg "YELLOW" statuses).
  pose proof (count_nonneg "RED" statuses).
  destruct (Z.eqb_spec (count "RED" statuses) 0) as [Hr | Hr];
    [| rewrite !andb_false_r; reflexivity].
  rewrite !andb_true_r. cbn [andb].
  destruct (Z.eqb_spec (count "YELLOW" statuses) 0) as [Hy | Hy].
  - replace (score statuses =? 2 * len statuses) with true
      by (symmetry; apply Z.eqb_eq; lia). reflexivity.
  - replace (score statuses =? 2 * len statuses) with false
      by (symmetry; apply Z.eqb_neq; lia).
    destruct (Z.leb_spec (count "YELLOW" statuses) 2) as [Hle | Hgt].
    + replace (score statuses >=? 2 * (len statuses - 1)) with true
        by (symmetry; apply Z.geb_le; lia). reflexivity.
    + destruct (score statuses >=? 2 * (len statuses - 1)) eqn:Hge; [| reflexivity].
      apply Z.geb_le in Hge. lia.
Qed.

(** X1: on a status mapping, the full-entry label is returned exactly when
    every rule is GREEN (the empty mapping included). *)
Theorem full_entry_iff_all_green (statuses : dict string) :
  status_map statuses ->
  (final_decision statuses = Return ENTER_ALL_GREEN <->
   forall v, In v (values statuses) -> v = "GREEN").
Proof.
  intros Hmap. rewrite (all_green_iff statuses Hmap).
  rewrite (final_decision_by_counts statuses Hmap).
  destruct labels_distinct as [Hgc [Hgw Hcw]].
  destruct (Z.eqb_spec (count "RED" statuses) 0) as [Hr | Hr];
    destruct (Z.eqb_spec (count "YELLOW" statuses) 0) as [Hy | Hy]; cbn [andb].
  - tauto.
  - split; [| tauto]. intros H.
    destruct (count "YELLOW" statuses <=? 2); injection H as H; congruence.
  - split; [| tauto]. intros H. injection H as H. congruence.
  - split; [| tauto]. intros H. injection H as H. congruence.
Qed.

Lemma full_entry_iff_all_green_witness :
  status_map Samples.one_yellow_statuses
  /\ ~ final_decision Samples.one_yellow_statuses = Return ENTER_ALL_GREEN.
Proof.
  assert (Hmap : status_map Samples.one_yellow_statuses) by status_map_tac.
  split; [exact Hmap |].
  intros H.
  apply (proj1 (full_entry_iff_all_green Samples.one_yellow_statuses Hmap)) with (v := "YELLOW") in H.
  - discriminate H.
  - cbn. tauto.
Defined.

(** X2: on a status mapping, the wait label is returned exactly when some
    rule is RED or at least three rules are YELLOW. *)
Theorem wait_iff_red_or_three_yellows (statuses : dict string) :
  status_map statuses ->
  (final_decision statuses = Return WAIT <->
   In "RED" (values statuses) \/ 3 <= count "YELLOW" statuses).
Proof.
  intros Hmap. rewrite (final_decision_by_counts statuses Hmap).
  destruct labels_distinct as [Hgc [Hgw Hcw]].
  pose proof (count_zero_iff "RED" statuses) as Hz.
  assert (Hdec : In "RED" (values statuses) \/ ~ In "RED" (values statuses)).
  { destruct (in_dec string_dec "RED" (values statuses)); tauto. }
  destruct (Z.eqb_spec (count "RED" statuses) 0) as [Hr | Hr]; cbn [andb].
  - assert (Hnot : ~ In "RED" (values statuses)) by tauto.
    destruct (Z.eqb_spec (count "YELLOW" statuses) 0) as [Hy | Hy].
    + split; [intros H; injection H as H; congruence | intros [H | H]; [tauto | lia]].
    + destruct (Z.leb_spec (count "YELLOW" statuses) 2) as [Hle | Hgt].
      * split; [intros H; injection H as H; congruence | intros [H | H]; [tauto | lia]].
      * split; [intros _; right; lia | reflexivity].
  - split; [| reflexivity]. intros _. left. tauto.
Qed.

Lemma wait_iff_red_or_three_yellows_witness :
  status_map three_yellow_statuses
  /\ final_decision three_yellow_statuses = Return WAIT.
Proof.
  assert (Hmap : status_map three_yellow_statuses) by status_map_tac.
  split; [exact Hmap |].
  apply (proj2 (wait_iff_red_or_three_yellows three_yellow_statuses Hmap)).
  right. vm_compute. discriminate.
Defined.

Lemma getitem_score_map (v : string) :
  (is_status v /\ exists p, getitem score_map v = Return p)
  \/ (~ is_status v /\ getitem score_map v = Raise (KeyError v)).
Proof.
  unfold getitem, score_map, is_status. cbn [get].
  destruct (String.eqb_spec "GREEN" v) as [<- | Hg]; [left; eauto |].
  destruct (String.eqb_spec "YELLOW" v) as [<- | Hy]; [left; eauto |].
  destruct (String.eqb_spec "RED" v) as [<- | Hr]; [left; eauto |].
  right. split; [| reflexivity]. intros [H | [H | H]]; congruence.
Qed.

Lemma sum_gen_raise (xs : list string) (acc : Z) (e : exn) :
  sum_gen (getitem score_map) xs acc = Raise e ->
  exists pre bad post,
    xs = (pre ++ bad :: post)%list /\ Forall is_status pre
    /\ ~ is_status bad /\ e = KeyError bad.
Proof.
  revert acc. induction xs as [| x xs IH]; intros acc; cbn [sum_gen].
  - discriminate.
  - destruct (getitem_score_map x) as [[Hx [p ->]] | [Hx ->]]; cbn [bind].
    + intros H. destruct (IH _ H) as [pre [bad [post [-> [Hpre [Hbad ->]]]]]].
      exists (x :: pre), bad, post. repeat split; auto.
    + intros [= <-]. exists [], x, xs. repeat split; auto.
Qed.

Lemma final_decision_returns_label (statuses : dict string) (d : string) :
  final_decision statuses = Return d -> In d decision_labels.
Proof.
  unfold final_decision, decision_labels.
  destruct (sum_gen (getitem score_map) (values statuses) 0) as [sc | e];
    cbn [bind]; [| discriminate].
  destruct ((sc =? 2 * len statuses)
            && (count_if (fun s => String.eqb s "RED") (values statuses) =? 0)).
  - intros [= <-]. cbn. tauto.
  - destruct ((sc >=? 2 * (len statuses - 1))
              && (count_if (fun s => String.eqb s "RED") (values statuses) =? 0));
      intros [= <-]; cbn; tauto.
Qed.

(** X3: [final_decision] returns (one of the three decision labels) on every
    status mapping, and raises on no other mapping: then the exception is
    [KeyError] for the first value, in insertion order, that is no status
    label. *)
Theorem final_decision_key_error (statuses : dict string) :
  (status_map statuses ->
   exists d, final_decision statuses = Return d /\ In d decision_labels)
  /\ (forall e, final_decision statuses = Raise e ->
        exists pre bad post,
          values statuses = (pre ++ bad :: post)%list /\ Forall is_status pre
          /\ ~ is_status bad /\ e = KeyError bad)
  /\ (~ status_map statuses -> exists e, final_decision statuses = Raise e).
Proof.
  split; [| split].
  - intros Hmap. rewrite (final_decision_by_counts statuses Hmap).
    eexists. split; [reflexivity |]. unfold decision_labels.
    destruct ((count "RED" statuses =? 0) && (count "YELLOW" statuses =? 0));
      [cbn; tauto |].
    destruct ((count "RED" statuses =? 0) && (count "YELLOW" statuses <=? 2));
      cbn; tauto.
  - intros e. unfold final_decision.
    destruct (sum_gen (getitem score_map) (values statuses) 0) as [sc | e'] eqn:Hsum;
      cbn [bind].
    + destruct ((sc =? 2 * len statuses)
                && (count_if (fun s => String.eqb s "RED") (values statuses) =? 0));
        [discriminate |].
      destruct ((sc >=? 2 * (len statuses - 1))
                && (count_if (fun s => String.eqb s "RED") (values statuses) =? 0));
        discriminate.
    + intros [= <-]. exact (sum_gen_raise _ _ _ Hsum).
  - intros Hnot. destruct (final_decision statuses) as [d | e] eqn:Hfd; [| eauto].
    exfalso. apply Hnot. unfold status_map. unfold final_decision in Hfd.
    destruct (sum_gen (getitem score_map) (values statuses) 0) as [sc | e'] eqn:Hsum;
      [| discriminate]. clear Hfd.
    revert Hsum. generalize 0 at 1. generalize sc.
    induction (values statuses) as [| x xs IH]; intros sc' acc; cbn [sum_gen].
    + constructor.
    + destruct (getitem_score_map x) as [[Hx [p ->]] | [Hx ->]]; cbn [bind];
        [| discriminate].
      intros H. constructor; [exact Hx | exact (IH _ _ H)].
Qed.

Lemma final_decision_key_error_witness :
  final_decision blue_statuses = Raise (KeyError "BLUE").
Proof.
  destruct (final_decision blue_statuses) as [d | e] eqn:Hfd.
  - vm_compute in Hfd. discriminate Hfd.
  - destruct (proj1 (proj2 (final_decision_key_error blue_statuses)) e Hfd)
      as [pre [bad [post [Hv [Hpre [Hbad ->]]]]]].
    vm_compute in Hfd. symmetry. exact Hfd.
Defined.

Lemma count_if_perm {A} (p : A -> bool) (xs ys : list A) :
  Permutation xs ys -> count_if p xs = count_if p ys.
Proof.
  induction 1 as [| x xs ys _ IH | x y xs | xs ys zs _ IH1 _ IH2].
  - reflexivity.
  - rewrite !count_if_cons, IH. reflexivity.
  - rewrite !count_if_cons. lia.
  - congruence.
Qed.

(** X4: the decision depends on the statuses only, not on their order nor on
    the names of the rules: two status mappings whose values are the same up
    to order get the same decision. *)
Theorem final_decision_order_independent (s1 s2 : dict string) :
  status_map s1 ->
  Permutation (values s1) (values s2) ->
  final_decision s1 = final_decision s2.
Proof.
  intros Hmap Hperm.
  assert (Hmap2 : status_map s2).
  { unfold status_map in *. eapply Permutation_Forall; eassumption. }
  rewrite (final_decision_by_counts s1 Hmap), (final_decision_by_counts s2 Hmap2).
  unfold count.
  rewrite (count_if_perm (String.eqb "RED") _ _ Hperm).
  rewrite (count_if_perm (String.eqb "YELLOW") _ _ Hperm).
  reflexivity.
Qed.

Lemma final_decision_order_independent_witness :
  final_decision Samples.one_yellow_statuses
  = final_decision [("e", "YELLOW"); ("a", "GREEN"); ("b", "GREEN");
                    ("c", "GREEN"); ("d", "GREEN")].
Proof.
  apply final_decision_order_independent.
  - status_map_tac.
  - cbn [values map snd Samples.one_yellow_statuses].
    apply Permutation_sym.
    apply (Permutation_middle ["GREEN"; "GREEN"; "GREEN"] ["GREEN"] "YELLOW").
Defined.

End DecisionExtra.

(** ** More on the validator *)

Module ValidationExtra.

Import Spec Extra FloatProps FloatOrderProps ValidationProps.
Local Open Scope float_scope.

Lemma validate_range_min_float (x : float) (name : string) :
  validate_range x name (Some 0%Z) None =
    if x <? 0 then Raise (ValidationError (name ++ " must be at least 0"))
    else Return x.
Proof.
  unfold validate_range. rewrite (lt_int_small 0 eq_refl x).
  change (float_of_int 0) with 0. destruct (x <? 0); reflexivity.
Qed.

Lemma validate_range_rank_float (x : float) (name : string) :
  validate_range x name (Some 0%Z) (Some 100%Z) =
    if x <? 0 then Raise (ValidationError (name ++ " must be at least 0"))
    else if 100 <? x then Raise (ValidationError (name ++ " must be at most 100"))
    else Return x.
Proof.
  unfold validate_range.
  rewrite (lt_int_small 0 eq_refl x), (gt_int_small 100 eq_refl x).
  change (float_of_int 0) with 0. change (float_of_int 100) with 100.
  destruct (x <? 0); [reflexivity |]. destruct (100 <? x); reflexivity.
Qed.

Lemma lt_int_Z (x n : Z) : lt_int x n = (x <? n)%Z.
Proof. reflexivity. Qed.

Lemma gt_int_Z (x n : Z) : gt_int x n = (x >? n)%Z.
Proof. reflexivity. Qed.

Lemma validate_range_min_int (x : Z) (name : string) :
  validate_range x name (Some 0%Z) None =
    if (x <? 0)%Z then Raise (ValidationError (name ++ " must be at least 0"))
    else Return x.
Proof.
  unfold validate_range. rewrite lt_int_Z. destruct (x <? 0)%Z; reflexivity.
Qed.

(** [validate_inputs] as the first failing check of the table. *)
Lemma validate_inputs_table (inp : Inputs) :
  validate_inputs inp =
    match first_violation inp with
    | Some msg => Raise (ValidationError msg)
    | None => Return inp
    end.
Proof.
  unfold validate_inputs, first_violation, checks.
  rewrite !validate_positive_float, !validate_range_min_float,
    validate_range_rank_float, validate_range_min_int.
  unfold validate_strikes. cbn [find fst snd option_map].
  destruct (price inp <=? 0); [reflexivity |].
  destruct (put_strike inp <=? 0); [reflexivity |].
  destruct (call_strike inp <=? 0); [reflexivity |].
  destruct (call_strike inp <=? put_strike inp); [reflexivity |].
  destruct (front_put_iv inp <? 0); [reflexivity |].
  destruct (front_call_iv inp <? 0); [reflexivity |].
  destruct (back_put_iv inp <? 0); [reflexivity |].
  destruct (back_call_iv inp <? 0); [reflexivity |].
  destruct (iv_rank_pct inp <? 0); [reflexivity |].
  destruct (100 <? iv_rank_pct inp); [reflexivity |].
  destruct (days_to_event inp <? 0)%Z; [reflexivity |].
  destruct (vix_value inp <=? 0); [reflexivity |].
  destruct (use_atr inp); cbn [andb bind]; [| reflexivity].
  destruct (atr_points inp <=? 0); reflexivity.
Qed.

Lemma find_none_forallb {A} (f : A -> bool) (xs : list A) :
  find f xs = None <-> forallb (fun x => negb (f x)) xs = true.
Proof.
  induction xs as [| x xs IH]; cbn [find forallb].
  - tauto.
  - destruct (f x); cbn [negb andb]; [split; discriminate | exact IH].
Qed.

(** X5: with both bounds given, [validate_range] on an int returns its value
    exactly when the value lies within the bounds, both included; below the
    minimum it raises the "at least" message (also when the value is above
    the maximum as well), otherwise above the maximum the "at most"
    message. *)
Theorem validate_range_int (x lo hi : Z) (name : string) :
  (validate_range x name (Some lo) (Some hi) = Return x <-> (lo <= x <= hi)%Z)
  /\ ((x < lo)%Z ->
      validate_range x name (Some lo) (Some hi)
      = Raise (ValidationError (name ++ " must be at least " ++ str_of_int lo)))
  /\ ((lo <= x)%Z -> (hi < x)%Z ->
      validate_range x name (Some lo) (Some hi)
      = Raise (ValidationError (name ++ " must be at most " ++ str_of_int hi))).
Proof.
  unfold validate_range. rewrite lt_int_Z, gt_int_Z.
  destruct (Z.ltb_spec x lo) as [Hlt | Hge]; cbn [bind].
  - split; [split; [discriminate | lia] | split; [reflexivity | lia]].
  - destruct (x >? hi)%Z eqn:Hgt; cbn [bind].
    + apply Z.gtb_lt in Hgt.
      split; [split; [discriminate | lia] | split; [lia | reflexivity]].
    + assert (x <= hi)%Z.
      { destruct (Z.gtb_spec x hi); [discriminate | lia]. }
      split; [split; [lia | reflexivity] | split; lia].
Qed.

Lemma validate_range_int_witness :
  validate_range 10%Z "test" (Some 1%Z) (Some 10%Z) = Return 10%Z
  /\ validate_range 0%Z "test" (Some 1%Z) (Some 10%Z)
     = Raise (ValidationError "test must be at least 1")
  /\ validate_range 11%Z "test" (Some 1%Z) (Some 10%Z)
     = Raise (ValidationError "test must be at most 10").
Proof.
  split; [| split].
  - apply (proj1 (validate_range_int 10 1 10 "test")). lia.
  - apply (proj1 (proj2 (validate_range_int 0 1 10 "test"))). lia.
  - apply (proj2 (proj2 (validate_range_int 11 1 10 "test"))); lia.
Defined.

(** X6: a NaN passes [validate_positive], and [validate_range] whatever the
    bounds are: no comparison with a NaN holds. *)
Theorem validators_accept_nan (x : float) (name : string) :
  is_nan x = true ->
  validate_positive x name = Return x
  /\ forall min_val max_val, validate_range x name min_val max_val = Return x.
Proof.
  intros Hnan. split.
  - unfold validate_positive, le_int. cbn [cmp_int Number_float].
    now rewrite (nan_cmp_int x 0 Hnan).
  - intros min_val max_val. unfold validate_range, lt_int, gt_int.
    cbn [cmp_int Number_float].
    destruct min_val as [lo |], max_val as [hi |];
      rewrite ?(nan_cmp_int x _ Hnan); reflexivity.
Qed.

Lemma validators_accept_nan_witness :
  validate_positive nan "Price" = Return nan
  /\ validate_range nan "IV Rank" (Some 0%Z) (Some 100%Z) = Return nan.
Proof.
  destruct (validators_accept_nan nan "Price" eq_refl) as [Hp _].
  destruct (validators_accept_nan nan "IV Rank" eq_refl) as [_ Hr].
  split; [exact Hp | apply Hr].
Defined.

(** X7: [validate_inputs] returns exactly when none of its thirteen
    comparisons holds, and then it returns the record it was given. *)
Theorem validate_inputs_accepts (inp : Inputs) :
  ((exists r, validate_inputs inp = Return r) <-> accepted inp = true)
  /\ (forall r, validate_inputs inp = Return r -> r = inp).
Proof.
  rewrite validate_inputs_table. unfold accepted, first_violation.
  rewrite <- find_none_forallb.
  destruct (find fst (checks inp)) as [[b msg] |]; cbn [option_map snd].
  - split; [split; [intros [r H] | intros H]; discriminate | intros r H; discriminate].
  - split; [split; eauto | intros r [= <-]; reflexivity].
Qed.

(** X8: [validate_inputs] fails fast: it raises [ValidationError] with the
    message of the first check, in the order of the table, that fails, and
    it raises nothing else. *)
Theorem validate_inputs_fails_fast (inp : Inputs) (e : exn) :
  validate_inputs inp = Raise e ->
  exists before failed after,
    checks inp = (before ++ failed :: after)%list
    /\ Forall (fun c => fst c = false) before
    /\ fst failed = true
    /\ e = ValidationError (snd failed).
Proof.
  rewrite validate_inputs_table. unfold first_violation.
  generalize (checks inp). intros cs.
  induction cs as [| [b msg] cs IH]; cbn [find fst option_map snd].
  - discriminate.
  - destruct b.
    + intros [= <-]. exists [], (true, msg), cs. repeat split; auto.
    + intros H. destruct (IH H) as [before [failed [after [-> [Hb [Hf ->]]]]]].
      exists ((false, msg) :: before), failed, after. repeat split; auto.
Qed.

Lemma validate_inputs_fails_fast_witness :
  validate_inputs (Samples.with_price 0 Samples.scenario_D)
  = Raise (ValidationError "Price must be greater than zero").
Proof.
  destruct (validate_inputs (Samples.with_price 0 Samples.scenario_D)) as [r | e] eqn:Hv.
  - vm_compute in Hv. discriminate Hv.
  - destruct (validate_inputs_fails_fast _ e Hv) as [before [failed [after [_ [_ [_ ->]]]]]].
    vm_compute in Hv. symmetry. exact Hv.
Defined.

End ValidationExtra.

(** ** More on the rule engine and the strategy advisor *)

Module ModelExtra.

Import helpers Spec Extra OptionsModel FloatProps FloatOrderProps ModelProps.
Local Open Scope float_scope.

Lemma evaluate_status_map (self : model) :
  status_map (fst (evaluate_status_lights self)).
Proof.
  destruct (evaluate_status_lights_eq self) as [-> _].
  unfold status_map.
  destruct (use_atr (inputs self)); cbn [app values map snd];
    repeat (constructor; [apply traffic_is_status |]); constructor.
Qed.

Lemma evaluate_not_empty (self : model) :
  no_statuses (snd (evaluate_status_lights self)) = false.
Proof.
  unfold no_statuses.
  destruct (evaluate_status_lights_eq self) as [Hst [-> _]]. rewrite Hst.
  reflexivity.
Qed.

(** The suggestions as the selection of the three tests, on the statuses of
    the object the call leaves. *)
Lemma suggestions_pick (self : model) :
  let st := statuses (snd (get_strategy_suggestions self)) in
  let rank := iv_rank (fst (ensure_metrics self)) in
  let vix := vix_value (inputs self) in
  fst (get_strategy_suggestions self) =
    pick (is_label (get st "IV Rank") "GREEN"
          && (is_label (get st "Term Structure") "GREEN"
              || is_label (get st "Term Structure") "YELLOW")
          && negb (is_label (get st "Price Location") "RED"))
         ((rank <? 0.25) && is_label (get st "Price Location") "GREEN")
         ((0.45 <? rank) && (rank <=? 0.60) && (18 <=? vix)
          && is_label (get st "Price Location") "GREEN").
Proof.
  cbv zeta. unfold get_strategy_suggestions.
  destruct (ensure_metrics_inputs self) as [Hi _].
  destruct (ensure_metrics self) as [m self1]. cbn [fst snd] in *.
  set (self2 := if no_statuses self1 then snd (evaluate_status_lights self1) else self1).
  assert (Hi2 : inputs self2 = inputs self).
  { subst self2. destruct (no_statuses self1); [| exact Hi].
    destruct (evaluate_status_lights_eq self1) as [_ [_ [-> _]]]. exact Hi. }
  rewrite Hi2. unfold pick.
  destruct (is_label (get (statuses self2) "IV Rank") "GREEN"
            && (is_label (get (statuses self2) "Term Structure") "GREEN"
                || is_label (get (statuses self2) "Term Structure") "YELLOW")
            && negb (is_label (get (statuses self2) "Price Location") "RED"));
    destruct ((iv_rank m <? 0.25)
              && is_label (get (statuses self2) "Price Location") "GREEN");
    destruct ((0.45 <? iv_rank m) && (iv_rank m <=? 0.60)
              && (18 <=? vix_value (inputs self))
              && is_label (get (statuses self2) "Price Location") "GREEN");
    reflexivity.
Qed.

(** No rank is below 0.25 and above 0.45. *)
Lemma vertical_condor_exclusive (rank : float) :
  (rank <? 0.25) = true -> (0.45 <? rank) = true -> False.
Proof.
  intros Hlo Hhi. pose proof (ltb_trans _ _ _ Hhi Hlo) as H.
  vm_compute in H. discriminate H.
Qed.

(** X9: the vertical-spread and the iron-condor suggestions never come
    together, so a call suggests at most two strategies. *)
Theorem vertical_excludes_condor (self : model) :
  let sug := fst (get_strategy_suggestions self) in
  ~ (In VERTICAL sug /\ In CONDOR sug) /\ (List.length sug <= 2)%nat.
Proof.
  cbv zeta. rewrite (suggestions_pick self). cbv zeta.
  set (st := statuses (snd (get_strategy_suggestions self))).
  set (rank := iv_rank (fst (ensure_metrics self))).
  destruct (rank <? 0.25) eqn:Hlo; destruct (0.45 <? rank) eqn:Hhi;
    try (exfalso; exact (vertical_condor_exclusive rank Hlo Hhi));
    cbn [andb];
    repeat match goal with
           | |- context [is_label ?x ?y] => destruct (is_label x y)
           | |- context [?a <=? ?b] => destruct (a <=? b)
           end;
    cbn; (split; [intros [H1 H2]; intuition discriminate | lia]).
Qed.

(** X10: when the Price Location rule is RED, the only suggestion is the
    no-trade sentinel. *)
Theorem red_price_location_no_trade (self : model) :
  get (statuses (snd (get_strategy_suggestions self))) "Price Location" = Some "RED" ->
  fst (get_strategy_suggestions self) = [NO_TRADE].
Proof.
  intros Hred. rewrite (suggestions_pick self). cbv zeta. rewrite Hred.
  cbn [is_label]. change (String.eqb "RED" "RED") with true.
  change (String.eqb "RED" "GREEN") with false.
  cbn [negb]. rewrite !andb_false_r. reflexivity.
Qed.

Lemma red_price_location_no_trade_witness :
  get (statuses (snd (get_strategy_suggestions (Samples.fresh price_far))))
    "Price Location" = Some "RED"
  /\ fst (get_strategy_suggestions (Samples.fresh price_far)) = [NO_TRADE].
Proof.
  split; [reflexivity |].
  apply (red_price_location_no_trade (Samples.fresh price_far)). reflexivity.
Defined.

Lemma evaluate_after_ensure (self : model) :
  evaluate_status_lights (snd (ensure_metrics self)) = evaluate_status_lights self.
Proof.
  unfold evaluate_status_lights, ensure_metrics, compute_metrics.
  destruct self as [inp [m |] st]; reflexivity.
Qed.

(** On an object without statuses, the suggestions are computed from the
    statuses a call of [evaluate_status_lights] gives. *)
Lemma suggestions_statuses (self : model) :
  statuses self = [] ->
  statuses (snd (get_strategy_suggestions self)) = fst (evaluate_status_lights self).
Proof.
  intros Hs. unfold get_strategy_suggestions.
  pose proof (evaluate_after_ensure self) as Hev.
  destruct (ensure_metrics_inputs self) as [_ [Hst _]].
  destruct (ensure_metrics self) as [m self1]. cbn [fst snd] in *.
  unfold no_statuses. rewrite Hst, Hs. rewrite Hev.
  destruct (evaluate_status_lights_eq self) as [_ [Hst2 _]].
  cbn [snd]. exact Hst2.
Qed.

(** The statuses of the first three rules, read back. *)
Lemma evaluate_get (self : model) :
  let m := fst (ensure_metrics self) in
  let st := fst (evaluate_status_lights self) in
  get st "Price Location"
  = Some (traffic (dist_from_mid m) (fun x => x <=? 0.01) (fun x => x <=? 0.02))
  /\ get st "Term Structure"
     = Some (traffic (term_gap_pts m) (fun x => 2.0 <=? x) (fun x => 1.0 <=? x))
  /\ get st "IV Rank"
     = Some (traffic (iv_rank m)
               (fun x => (0.30 <=? x) && (x <=? 0.50))
               (fun x => ((0.20 <=? x) && (x <? 0.30)) || ((0.50 <? x) && (x <=? 0.60))))
  /\ get st "ATR Guardrail"
     = if use_atr (inputs self)
       then Some (traffic (atr_ok m) (fun ok => ok) (fun _ => false))
       else None.
Proof.
  cbv zeta. destruct (evaluate_status_lights_eq self) as [-> _].
  destruct (use_atr (inputs self)); repeat split; reflexivity.
Qed.

Lemma traffic_green {A} (value : A) (green_fn yellow_fn : A -> bool) :
  traffic value green_fn yellow_fn = "GREEN" <-> green_fn value = true.
Proof.
  unfold traffic. destruct (green_fn value); [tauto |].
  destruct (yellow_fn value); split; discriminate.
Qed.

(** X11: once [evaluate_status_lights] has run, the object is settled: a
    second evaluation returns the same statuses and leaves the object as it
    is, and so do [get_final_decision] and [get_strategy_suggestions]. *)
Theorem evaluation_settles (self : model) :
  let self1 := snd (evaluate_status_lights self) in
  evaluate_status_lights self1 = (fst (evaluate_status_lights self), self1)
  /\ get_final_decision self1 = (final_decision (fst (evaluate_status_lights self)), self1)
  /\ snd (get_strategy_suggestions self1) = self1.
Proof.
  cbv zeta.
  pose proof (evaluate_not_empty self) as Hne.
  destruct (evaluate_status_lights_eq self) as [_ [Hst [Hin Hm]]].
  assert (Hens : ensure_metrics (snd (evaluate_status_lights self))
                 = (fst (ensure_metrics self), snd (evaluate_status_lights self))).
  { unfold ensure_metrics at 1. rewrite Hm. reflexivity. }
  split; [| split].
  - unfold evaluate_status_lights at 1. rewrite Hens. rewrite Hin.
    unfold evaluate_status_lights.
    destruct (ensure_metrics_inputs self) as [Hi [_ Hms]].
    destruct (ensure_metrics self) as [m self0]. cbn [fst snd] in *.
    rewrite Hi. cbn [inputs metrics]. rewrite Hms. reflexivity.
  - unfold get_final_decision. rewrite Hne, Hst. reflexivity.
  - unfold get_strategy_suggestions. rewrite Hens, Hne. reflexivity.
Qed.

(** X12: on an object without statuses, such as a freshly constructed one,
    [get_final_decision] evaluates the rules first and returns one of the
    three decision labels: it does not raise. *)
Theorem get_final_decision_returns (self : model) :
  statuses self = [] ->
  exists d,
    fst (get_final_decision self) = Return d
    /\ In d decision_labels
    /\ final_decision (fst (evaluate_status_lights self)) = Return d
    /\ statuses (snd (get_final_decision self)) = fst (evaluate_status_lights self).
Proof.
  intros Hs. unfold get_final_decision, no_statuses. rewrite Hs. cbn [fst snd].
  destruct (evaluate_status_lights_eq self) as [_ [Hst _]]. rewrite Hst.
  pose proof (evaluate_status_map self) as Hmap.
  rewrite (DecisionExtra.final_decision_by_counts _ Hmap).
  eexists. split; [reflexivity | split; [| split; reflexivity]].
  unfold decision_labels.
  destruct ((count "RED" (fst (evaluate_status_lights self)) =? 0)%Z
            && (count "YELLOW" (fst (evaluate_status_lights self)) =? 0)%Z);
    [cbn; tauto |].
  destruct ((count "RED" (fst (evaluate_status_lights self)) =? 0)%Z
            && (count "YELLOW" (fst (evaluate_status_lights self)) <=? 2)%Z);
    cbn; tauto.
Qed.

Lemma get_final_decision_returns_witness :
  exists d, fst (get_final_decision (Samples.fresh Samples.scenario_B)) = Return d
            /\ In d decision_labels.
Proof.
  destruct (get_final_decision_returns (Samples.fresh Samples.scenario_B) eq_refl)
    as [d [Hd [Hin _]]].
  exists d. split; assumption.
Defined.

(** X13: the ATR Guardrail rule is in the mapping exactly when the flag is
    set, and it is never YELLOW: GREEN when the guardrail is satisfied, RED
    when it is not. *)
Theorem atr_guardrail_binary (self : model) :
  let st := fst (evaluate_status_lights self) in
  (get st "ATR Guardrail" = None <-> use_atr (inputs self) = false)
  /\ get st "ATR Guardrail" <> Some "YELLOW"
  /\ (use_atr (inputs self) = true ->
      get st "ATR Guardrail"
      = Some (if atr_ok (fst (ensure_metrics self)) then "GREEN" else "RED")).
Proof.
  cbv zeta. destruct (evaluate_get self) as [_ [_ [_ ->]]].
  destruct (use_atr (inputs self)).
  - unfold traffic. destruct (atr_ok (fst (ensure_metrics self)));
      repeat split; try discriminate; reflexivity.
  - repeat split; try discriminate; reflexivity.
Qed.

(** X14: on an object without statuses, a full-entry decision comes with the
    calendar suggestion. *)
Theorem full_entry_suggests_calendar (self : model) :
  statuses self = [] ->
  fst (get_final_decision self) = Return ENTER_ALL_GREEN ->
  In CALENDAR (fst (get_strategy_suggestions self)).
Proof.
  intros Hs Hfull.
  unfold get_final_decision, no_statuses in Hfull. rewrite Hs in Hfull.
  cbn [fst] in Hfull.
  destruct (evaluate_status_lights_eq self) as [_ [Hst _]]. rewrite Hst in Hfull.
  pose proof (evaluate_status_map self) as Hmap.
  rewrite (DecisionExtra.final_decision_by_counts _ Hmap) in Hfull.
  assert (Hall : forall v, In v (values (fst (evaluate_status_lights self))) -> v = "GREEN").
  { apply (DecisionExtra.all_green_iff _ Hmap).
    destruct DecisionProps.labels_distinct as [Hgc [Hgw _]].
    destruct (Z.eqb_spec (count "RED" (fst (evaluate_status_lights self))) 0) as [Hr | Hr];
      destruct (Z.eqb_spec (count "YELLOW" (fst (evaluate_status_lights self))) 0)
        as [Hy | Hy]; cbn [andb] in Hfull; try tauto;
      try (injection Hfull as Hfull; congruence).
    destruct (count "YELLOW" (fst (evaluate_status_lights self)) <=? 2)%Z;
      injection Hfull as Hfull; congruence. }
  rewrite (suggestions_pick self). cbv zeta.
  rewrite (suggestions_statuses self Hs).
  destruct (evaluate_get self) as [Hpl [Hts [Hiv _]]].
  assert (Hin : forall k v, get (fst (evaluate_status_lights self)) k = Some v -> v = "GREEN").
  { intros k v Hg. apply Hall. clear - Hg.
    induction (fst (evaluate_status_lights self)) as [| [k' v'] d IH];
      cbn [get] in Hg; [discriminate |].
    cbn [values map snd In]. destruct (String.eqb k' k).
    - injection Hg as ->. left. reflexivity.
    - right. exact (IH Hg). }
  rewrite Hpl, Hts, Hiv in *.
  rewrite (Hin _ _ Hpl), (Hin _ _ Hts), (Hin _ _ Hiv).
  cbn [is_label]. change (String.eqb "GREEN" "GREEN") with true.
  change (String.eqb "GREEN" "RED") with false. cbn [andb orb negb].
  unfold pick. cbn [orb]. left. reflexivity.
Qed.

Lemma full_entry_suggests_calendar_witness :
  In CALENDAR (fst (get_strategy_suggestions (Samples.fresh Samples.scenario_A))).
Proof.
  apply (full_entry_suggests_calendar (Samples.fresh Samples.scenario_A));
    reflexivity.
Defined.

(** X15: on an object without statuses, only five lists of suggestions are
    possible: each strategy alone, the calendar with the iron condor, or the
    no-trade sentinel.  The vertical spread needs a rank below 0.25 and the
    calendar a GREEN rank, at least 0.30. *)
Theorem suggestions_five_shapes (self : model) :
  statuses self = [] ->
  In (fst (get_strategy_suggestions self))
    [[CALENDAR]; [VERTICAL]; [CONDOR]; [CALENDAR; CONDOR]; [NO_TRADE]].
Proof.
  intros Hs. rewrite (suggestions_pick self). cbv zeta.
  rewrite (suggestions_statuses self Hs).
  destruct (evaluate_get self) as [_ [_ [Hiv _]]]. rewrite Hiv.
  set (rank := iv_rank (fst (ensure_metrics self))) in *.
  set (st := fst (evaluate_status_lights self)).
  destruct (rank <? 0.25) eqn:Hlo.
  - (* below 0.25: the rank is not GREEN and the condor is out *)
    assert (Hng : is_label
                    (Some (traffic rank
                             (fun x => (0.30 <=? x) && (x <=? 0.50))
                             (fun x => ((0.20 <=? x) && (x <? 0.30))
                                       || ((0.50 <? x) && (x <=? 0.60)))))
                    "GREEN" = false).
    { apply is_label_false. intros [= Hg]. apply traffic_green in Hg.
      apply andb_true_iff in Hg. destruct Hg as [Hge _].
      pose proof (leb_ltb_trans _ _ _ Hge Hlo) as H. vm_compute in H. discriminate H. }
    rewrite Hng.
    destruct (0.45 <? rank) eqn:Hhi;
      [exfalso; exact (vertical_condor_exclusive rank Hlo Hhi) |].
    cbn [andb]. unfold pick.
    destruct (is_label (get st "Price Location") "GREEN"); cbn; tauto.
  - cbn [andb]. unfold pick.
    destruct (is_label _ "GREEN" && _ && _);
      destruct ((0.45 <? rank) && (rank <=? 0.60)
                && (18 <=? vix_value (inputs self))
                && is_label (get st "Price Location") "GREEN");
      cbn; tauto.
Qed.

Lemma suggestions_five_shapes_witness :
  In (fst (get_strategy_suggestions (Samples.fresh Samples.scenario_E)))
    [[CALENDAR]; [VERTICAL]; [CONDOR]; [CALENDAR; CONDOR]; [NO_TRADE]].
Proof.
  apply (suggestions_five_shapes (Samples.fresh Samples.scenario_E)). reflexivity.
Defined.

(** X16: with the ATR flag off the ATR value plays no part: whatever it is
    (zero, negative or NaN included), the record is accepted or refused
    alike, and the statuses, the decision and the suggestions are the
    same. *)
Theorem atr_ignored_when_disabled (inp : Inputs) (atr : float) :
  use_atr inp = false ->
  let inp' := set_atr_points atr inp in
  validate_inputs inp'
  = match validate_inputs inp with Return _ => Return inp' | Raise e => Raise e end
  /\ fst (evaluate_status_lights (Samples.fresh inp'))
     = fst (evaluate_status_lights (Samples.fresh inp))
  /\ fst (get_final_decision (Samples.fresh inp'))
     = fst (get_final_decision (Samples.fresh inp))
  /\ fst (get_strategy_suggestions (Samples.fresh inp'))
     = fst (get_strategy_suggestions (Samples.fresh inp)).
Proof.
  intros Hoff. cbv zeta.
  assert (Hev : fst (evaluate_status_lights (Samples.fresh (set_atr_points atr inp)))
                = fst (evaluate_status_lights (Samples.fresh inp))).
  { destruct (evaluate_status_lights_eq (Samples.fresh (set_atr_points atr inp)))
      as [-> _].
    destruct (evaluate_status_lights_eq (Samples.fresh inp)) as [-> _].
    cbn [Samples.fresh inputs set_atr_points use_atr days_to_event vix_value].
    rewrite Hoff. reflexivity. }
  split; [| split; [exact Hev | split]].
  - rewrite !ValidationExtra.validate_inputs_table.
    unfold first_violation, checks.
    cbn [set_atr_points price put_strike call_strike front_put_iv front_call_iv
           back_put_iv back_call_iv iv_rank_pct days_to_event vix_value use_atr].
    rewrite Hoff. cbn [andb].
    destruct (find fst _) as [[b msg] |]; reflexivity.
  - unfold get_final_decision. cbn [Samples.fresh no_statuses statuses].
    destruct (evaluate_status_lights_eq (Samples.fresh (set_atr_points atr inp)))
      as [_ [-> _]].
    destruct (evaluate_status_lights_eq (Samples.fresh inp)) as [_ [-> _]].
    cbn [fst]. rewrite Hev. reflexivity.
  - rewrite !suggestions_pick. cbv zeta.
    rewrite !suggestions_statuses by reflexivity. rewrite Hev. reflexivity.
Qed.

Lemma atr_ignored_when_disabled_witness :
  validate_inputs (set_atr_points (-5) Samples.scenario_A)
  = Return (set_atr_points (-5) Samples.scenario_A)
  /\ fst (get_final_decision (Samples.fresh (set_atr_points (-5) Samples.scenario_A)))
     = fst (get_final_decision (Samples.fresh Samples.scenario_A)).
Proof.
  destruct (atr_ignored_when_disabled Samples.scenario_A (-5) eq_refl)
    as [Hv [_ [Hd _]]].
  split; [exact Hv | exact Hd].
Defined.

(** X17: the strike width is never negative, whatever the order of the two
    strikes, and the threshold of the guardrail is at least 1e-9: an ATR of
    at most 1e-9 satisfies the guardrail for every pair of strikes. *)
Theorem atr_threshold_floor (inp : Inputs) :
  (strike_width (metrics_of inp) <? 0) = false
  /\ ((atr_points inp <=? 1e-9) = true -> atr_ok (metrics_of inp) = true).
Proof.
  split.
  - cbn [metrics_of strike_width]. apply abs_not_negative.
  - intros Hle. cbn [metrics_of atr_ok]. unfold max2.
    destruct (1e-9 <? abs (call_strike inp - put_strike inp) / 2) eqn:Hlt.
    + apply ltb_leb. exact (leb_ltb_trans _ _ _ Hle Hlt).
    + exact Hle.
Qed.

Lemma atr_threshold_floor_witness :
  atr_ok (metrics_of tiny_atr) = true.
Proof.
  apply (proj2 (atr_threshold_floor tiny_atr)). reflexivity.
Defined.

End ModelExtra.

(** ** More on the market-data client *)

Module ClientExtra.

Import datetime IBKRClient Spec Extra FloatProps FloatOrderProps.
Local Open Scope float_scope.


Lemma _iv_absent (answer : option float) :
  exists v, _iv (Return answer) = Return v /\ (v = None <-> answer = None).
Proof.
  unfold _iv. cbn [bind]. destruct answer as [x |].
  - destruct (x <? 1.0); eexists; (split; [reflexivity | split; discriminate]).
  - eexists. split; [reflexivity | tauto].
Qed.

(** X19: without a connection [get_option_ivs] reports the four fields as
    absent and asks for no quote.  With a connection and four answers it
    returns the four fields in their fixed order, each absent exactly when
    its own quote had no implied volatility: a missing field does not affect
    the others. *)
Theorem get_option_ivs_fields (env : environment) (self : client) (q : iv_quotes) :
  (fst (ensure_connected env self) = false ->
   fst (get_option_ivs env self q)
   = Return [("front_put_iv", None); ("front_call_iv", None);
             ("back_put_iv", None); ("back_call_iv", None)])
  /\ (fst (ensure_connected env self) = true ->
      forall a1 a2 a3 a4,
        q_front_put q = Return a1 -> q_front_call q = Return a2 ->
        q_back_put q = Return a3 -> q_back_call q = Return a4 ->
        exists v1 v2 v3 v4,
          fst (get_option_ivs env self q)
          = Return [("front_put_iv", v1); ("front_call_iv", v2);
                    ("back_put_iv", v3); ("back_call_iv", v4)]
          /\ (v1 = None <-> a1 = None) /\ (v2 = None <-> a2 = None)
          /\ (v3 = None <-> a3 = None) /\ (v4 = None <-> a4 = None)).
Proof.
  unfold get_option_ivs.
  destruct (ensure_connected env self) as [ok self1]. cbn [fst].
  split.
  - intros ->. reflexivity.
  - intros -> a1 a2 a3 a4 -> -> -> ->. cbn [negb fst].
    destruct (_iv_absent a1) as [v1 [-> H1]].
    destruct (_iv_absent a2) as [v2 [-> H2]].
    destruct (_iv_absent a3) as [v3 [-> H3]].
    destruct (_iv_absent a4) as [v4 [-> H4]].
    cbn [bind]. exists v1, v2, v3, v4. auto.
Qed.

Lemma get_option_ivs_fields_witness :
  fst (get_option_ivs gateway_down Samples.new_client partial_quotes)
  = Return [("front_put_iv", None); ("front_call_iv", None);
            ("back_put_iv", None); ("back_call_iv", None)]
  /\ exists v2 v3 v4,
       fst (get_option_ivs Samples.gateway_up Samples.new_client partial_quotes)
       = Return [("front_put_iv", None); ("front_call_iv", Some v2);
                 ("back_put_iv", Some v3); ("back_call_iv", Some v4)].
Proof.
  split.
  - exact (proj1 (get_option_ivs_fields gateway_down Samples.new_client partial_quotes)
             eq_refl).
  - destruct (proj2 (get_option_ivs_fields Samples.gateway_up Samples.new_client
                       partial_quotes) eq_refl
                None (Some 0.21) (Some 19) (Some 18.5) eq_refl eq_refl eq_refl eq_refl)
      as [v1 [v2 [v3 [v4 [Heq _]]]]].
    eexists _, _, _. reflexivity.
Defined.

Lemma _iv_raise (answer : result (option float)) :
  match answer with
  | Raise e => _iv answer = Raise e
  | Return _ => exists v, _iv answer = Return v
  end.
Proof.
  unfold _iv. destruct answer as [a | e]; cbn [bind]; eauto.
Qed.

(** X20: an exception in one of the four quotes is not caught: the call
    raises the first of them, in the order front put, front call, back put,
    back call, and returns no field at all. *)
Theorem get_option_ivs_raises (env : environment) (self : client) (q : iv_quotes)
    (e : exn) :
  fst (ensure_connected env self) = true ->
  first_raise [q_front_put q; q_front_call q; q_back_put q; q_back_call q] = Some e ->
  fst (get_option_ivs env self q) = Raise e.
Proof.
  unfold get_option_ivs.
  destruct (ensure_connected env self) as [ok self1]. cbn [fst].
  intros ->. cbn [negb fst first_raise].
  pose proof (_iv_raise (q_front_put q)) as H1.
  pose proof (_iv_raise (q_front_call q)) as H2.
  pose proof (_iv_raise (q_back_put q)) as H3.
  pose proof (_iv_raise (q_back_call q)) as H4.
  destruct (q_front_put q) as [a1 | e1];
    [destruct H1 as [v1 ->] | rewrite H1; intros [= ->]; reflexivity].
  destruct (q_front_call q) as [a2 | e2];
    [destruct H2 as [v2 ->] | rewrite H2; intros [= ->]; reflexivity].
  destruct (q_back_put q) as [a3 | e3];
    [destruct H3 as [v3 ->] | rewrite H3; intros [= ->]; reflexivity].
  destruct (q_back_call q) as [a4 | e4];
    [discriminate | rewrite H4; intros [= ->]; reflexivity].
Qed.

Lemma get_option_ivs_raises_witness :
  fst (get_option_ivs Samples.gateway_up Samples.new_client failing_quotes)
  = Raise (RuntimeError "Unknown contract").
Proof.
  apply get_option_ivs_raises; reflexivity.
Defined.

Lemma nan_truthy (x : float) : is_nan x = true -> truthy x = true.
Proof.
  intros H. unfold truthy. rewrite eqb_spec, (Prim2SF_nan x H). reflexivity.
Qed.

(** X21: on a connected client [get_vix] returns the last tick of the quote
    as soon as it is true in Python's sense, with no test that it is a
    number: a NaN last tick is returned as the value of the index, and
    neither the close nor the secondary source is consulted. *)
Theorem get_vix_tick_unchecked (env : environment) (self : client) (src : vix_sources)
    (t : Ticker) (x : float) :
  fst (ensure_connected env self) = true ->
  vix_ticker src = Return t ->
  last t = Some x ->
  (truthy x = true -> fst (get_vix env self src) = Some x)
  /\ (is_nan x = true -> fst (get_vix env self src) = Some x).
Proof.
  intros Hok Ht Hl.
  assert (H : truthy x = true -> fst (get_vix env self src) = Some x).
  { intros Htr. unfold get_vix.
    destruct (ensure_connected env self) as [ok self1]. cbn [fst] in Hok. subst ok.
    rewrite Ht. unfold or_else. rewrite Hl. cbn [truthy_opt]. rewrite Htr.
    cbn [truthy_opt]. rewrite Htr. reflexivity. }
  split; [exact H |]. intros Hnan. apply H. now apply nan_truthy.
Qed.

Lemma get_vix_tick_unchecked_witness :
  fst (get_vix Samples.gateway_up Samples.new_client vix_not_ticked) = Some nan.
Proof.
  apply (proj2 (get_vix_tick_unchecked Samples.gateway_up Samples.new_client
                  vix_not_ticked
                  {| last := Some nan; bid := None; ask := None; close := Some 17.5 |}
                  nan eq_refl eq_refl eq_refl)).
  reflexivity.
Defined.

(** X22: when the primary source gives nothing (no connection, an exception,
    or a quote whose last tick and close are both missing or zero),
    [get_vix] returns the most recent close of the secondary source, and
    nothing when that source is not installed, raises or has no data. *)
Theorem get_vix_fallback (env : environment) (self : client) (src : vix_sources) :
  (fst (ensure_connected env self) = false
   \/ (exists e, vix_ticker src = Raise e)
   \/ (exists t, vix_ticker src = Return t
                 /\ truthy_opt (last t) = false /\ truthy_opt (close t) = false)) ->
  fst (get_vix env self src)
  = if vix_yf src
    then match vix_daily src with
         | Return closes => last_item closes
         | Raise _ => None
         end
    else None.
Proof.
  intros Hprim. unfold get_vix.
  destruct (ensure_connected env self) as [ok self1]. cbn [fst] in Hprim.
  cbv zeta.
  assert (Hnone : (if ok
                   then match vix_ticker src with
                        | Return t =>
                            if truthy_opt (or_else (last t) (close t))
                            then or_else (last t) (close t) else None
                        | Raise _ => None
                        end
                   else None) = None).
  { destruct ok; [| reflexivity].
    destruct Hprim as [H | [[e ->] | [t [-> [Hl Hc]]]]];
      [discriminate | reflexivity |].
    unfold or_else. rewrite Hl, Hc. reflexivity. }
  rewrite Hnone. cbn [fst]. destruct (vix_yf src); reflexivity.
Qed.

Lemma get_vix_fallback_witness :
  fst (get_vix Samples.gateway_up Samples.new_client vix_silent) = Some 17.25.
Proof.
  rewrite (get_vix_fallback Samples.gateway_up Samples.new_client vix_silent).
  - reflexivity.
  - right. right.
    exists {| last := None; bid := None; ask := None; close := Some 0 |}.
    repeat split.
Defined.

Local Open Scope Z_scope.

(** X23: the pair returned is a fixed point: asked for the two Fridays from
    the first Friday it returned, [nearest_two_fridays] returns the same
    pair, whatever today is. *)
Theorem nearest_two_fridays_fixed_point (today today' : date) (from_date : option date)
    (first second : date) :
  nearest_two_fridays today from_date = Return (first, second) ->
  nearest_two_fridays today' (Some first) = Return (first, second).
Proof.
  unfold nearest_two_fridays.
  set (d := match from_date with Some d => d | None => today end).
  pose proof (ClientProps.weekday_range d) as Hw.
  set (k := (4 - weekday d) mod 7).
  assert (Hk : k = 0 -> weekday d = 4).
  { subst k. unfold weekday in *. intros Hz. Z.div_mod_to_equations. lia. }
  assert (Hfri' : (toordinal d + k + 6) mod 7 = 4).
  { subst k. unfold weekday in *. Z.div_mod_to_equations. lia. }
  intros H.
  assert (Hf : weekday first = 4 /\ add_days first 7 = Return second).
  { destruct (Z.eqb_spec k 0) as [Hz | Hnz]; cbn [bind] in H.
    - destruct (add_days d 7) as [s2 | e] eqn:Hs; cbn [bind] in H; [| discriminate].
      injection H as <- <-. split; [exact (Hk Hz) | exact Hs].
    - unfold add_days at 1 in H.
      destruct ((0 <? toordinal d + k) && (toordinal d + k <=? MAXORDINAL));
        cbn [bind] in H; [| discriminate].
      destruct (add_days _ 7) as [s2 | e] eqn:Hs; cbn [bind] in H; [| discriminate].
      injection H as <- <-. split; [exact Hfri' | exact Hs]. }
  destruct Hf as [Hfri Hsec]. rewrite Hfri. change ((4 - 4) mod 7 =? 0) with true.
  cbn [bind]. rewrite Hsec. reflexivity.
Qed.

Lemma nearest_two_fridays_fixed_point_witness :
  nearest_two_fridays (ymd 2026 11 3) (Some (ymd 2026 11 6))
  = Return (ymd 2026 11 6, ymd 2026 11 13).
Proof.
  apply (nearest_two_fridays_fixed_point (ymd 2026 11 3) (ymd 2026 11 3) None).
  reflexivity.
Defined.

Local Open Scope float_scope.

(** X24: [get_iv_rank] answers with the volatility-index proxy whenever the
    primary path gives no rank: no connection, an exception on the way to
    the history, fewer than five finite closes, or a history whose maximum
    is not above its minimum. *)
Theorem get_iv_rank_falls_back (env : environment) (self : client) (feed : iv_feed) :
  (fst (ensure_connected env self) = false
   \/ (exists e, option_bars feed = Raise e)
   \/ (exists bars, option_bars feed = Return bars
                    /\ (List.length (finite_closes bars) < 5)%nat)
   \/ (exists bars x xs, option_bars feed = Return bars
                         /\ finite_closes bars = x :: xs
                         /\ (min_list x xs <? max_list x xs) = false)) ->
  fst (get_iv_rank env self feed) = iv_rank_fallback feed.
Proof.
  intros H. unfold get_iv_rank.
  destruct (ensure_connected env self) as [ok self1]. cbn [fst] in H.
  assert (Hnone : iv_rank_primary ok feed = None).
  { unfold iv_rank_primary.
    destruct ok; [| reflexivity].
    destruct H as [H | [[e ->] | [[bars [-> Hlen]] | [bars [x [xs [-> [Hs Hflat]]]]]]]].
    - discriminate.
    - reflexivity.
    - cbn [bind].
      replace (5 <=? Z.of_nat (List.length (finite_closes bars)))%Z with false
        by (symmetry; apply Z.leb_gt; lia).
      reflexivity.
    - cbn [bind]. rewrite Hs, Hflat.
      destruct (5 <=? Z.of_nat (List.length (x :: xs)))%Z; reflexivity. }
  rewrite Hnone. reflexivity.
Qed.

Lemma get_iv_rank_falls_back_witness :
  fst (get_iv_rank Samples.gateway_up Samples.new_client feed_short)
  = Some 55.000000000000007.
Proof.
  rewrite (get_iv_rank_falls_back Samples.gateway_up Samples.new_client feed_short).
  - reflexivity.
  - right. right. left.
    exists [Some 0.2; Some 0.3; Some 0.25; Some 0.4]. split; [reflexivity |].
    cbn. lia.
Defined.

Lemma finite_closes_finite (bars : list (option float)) :
  Forall (fun v => is_finite v = true) (finite_closes bars).
Proof.
  unfold finite_closes. apply Forall_forall. intros v Hin.
  apply in_flat_map in Hin. destruct Hin as [[c |] [_ Hc]]; [| contradiction].
  destruct (is_finite c) eqn:Hf; [| contradiction].
  destruct Hc as [<- | []]. exact Hf.
Qed.

Lemma fold_min2_In (xs : list float) (x : float) : In (fold_left min2 xs x) (x :: xs).
Proof.
  revert x. induction xs as [| y ys IH]; intros x; cbn [fold_left].
  - left. reflexivity.
  - destruct (IH (min2 x y)) as [H | H].
    + rewrite <- H. unfold min2. destruct (y <? x); cbn; auto.
    + right. right. exact H.
Qed.

Lemma fold_max2_In (xs : list float) (x : float) : In (fold_left max2 xs x) (x :: xs).
Proof.
  revert x. induction xs as [| y ys IH]; intros x; cbn [fold_left].
  - left. reflexivity.
  - destruct (IH (max2 x y)) as [H | H].
    + rewrite <- H. unfold max2. destruct (x <? y); cbn; auto.
    + right. right. exact H.
Qed.

Lemma last_cons (ys : list float) (x y : float) :
  List.last (y :: ys) x = List.last ys y.
Proof.
  revert x y. induction ys as [| z zs IH]; intros x y; [reflexivity |].
  change (List.last (y :: z :: zs) x) with (List.last (z :: zs) x).
  rewrite (IH x z), (IH y z). reflexivity.
Qed.

Lemma last_In (xs : list float) (x : float) : In (List.last xs x) (x :: xs).
Proof.
  revert x. induction xs as [| y ys IH]; intros x.
  - left. reflexivity.
  - right. rewrite last_cons. apply IH.
Qed.

(** X25: on the primary path, a history with at least five finite closes and
    max > min whose most recent close equals its minimum has rank exactly
    0.0. *)
Theorem rank_zero_at_minimum (feed : iv_feed) (bars : list (option float))
    (x : float) (xs : list float) :
  option_bars feed = Return bars ->
  finite_closes bars = x :: xs ->
  (5 <= Z.of_nat (List.length (x :: xs)))%Z ->
  (min_list x xs <? max_list x xs) = true ->
  (List.last xs x =? min_list x xs) = true ->
  iv_rank_primary true feed = Some 0.
Proof.
  intros Hbars Hseries Hlen Hlt Hcur.
  rewrite (ClientProps.iv_rank_primary_value feed bars x xs Hbars Hseries Hlen Hlt).
  pose proof (finite_closes_finite bars) as Hfin. rewrite Hseries in Hfin.
  rewrite Forall_forall in Hfin.
  unfold Spec.clipped_rank. f_equal.
  apply clipped_rank_at_min; try assumption; apply Hfin.
  - apply last_In.
  - apply fold_min2_In.
  - apply fold_max2_In.
Qed.

Lemma rank_zero_at_minimum_witness :
  iv_rank_primary true Samples.feed_at_min = Some 0.
Proof.
  apply (rank_zero_at_minimum Samples.feed_at_min
           [Some 0.2; Some 0.3; Some 0.25; Some 0.4; Some 0.1]
           0.2 [0.3; 0.25; 0.4; 0.1]); reflexivity.
Defined.

End ClientExtra.

(** ** The user interface on the results of the engine *)

Module UiExtra.

Import helpers Spec Extra OptionsModel ui.

(** X26: the decision box is styled after the label [final_decision]
    returns: green for the full entry, yellow for the cautious entry, red
    for the wait; the substrings [render_decision] looks for are the ones
    [final_decision] writes. *)
Theorem decision_style_of_final_decision (statuses : dict string) (d : string) :
  final_decision statuses = Return d ->
  decision_style d =
    if String.eqb d ENTER_ALL_GREEN then "background-color: #DCFCE7; color: #166534;"
    else if String.eqb d ENTER_CAUTION then "background-color: #FEF9C3; color: #854D0E;"
    else "background-color: #FEE2E2; color: #991B1B;".
Proof.
  intros H. apply DecisionExtra.final_decision_returns_label in H.
  destruct H as [<- | [<- | [<- | []]]]; vm_compute; reflexivity.
Qed.

Lemma decision_style_of_final_decision_witness :
  decision_style ENTER_CAUTION = "background-color: #FEF9C3; color: #854D0E;".
Proof.
  exact (decision_style_of_final_decision Samples.two_yellow_statuses ENTER_CAUTION
           eq_refl).
Defined.

(** X27: what [render_suggestions] shows for the list
    [get_strategy_suggestions] returns: one expander per suggestion, each
    strategy in its own kind of expander, the no-trade sentinel in the
    generic one, and never the message of the empty list. *)
Theorem render_suggestions_of_model (self : model) :
  let sug := fst (get_strategy_suggestions self) in
  let shown := render_suggestions sug in
  shown = map suggestion_panel sug
  /\ ~ In NoSuggestionInfo shown
  /\ (In (CalendarPanel CALENDAR) shown <-> In CALENDAR sug)
  /\ (In (VerticalPanel VERTICAL) shown <-> In VERTICAL sug)
  /\ (In (CondorPanel CONDOR) shown <-> In CONDOR sug)
  /\ (In (GenericPanel NO_TRADE) shown <-> sug = [NO_TRADE]).
Proof.
  cbv zeta. rewrite (ModelExtra.suggestions_pick self). cbv zeta.
  match goal with
  | |- context [pick ?a ?b ?c] => generalize a, b, c
  end.
  intros a b c. destruct a, b, c; vm_compute;
    repeat split; try tauto; intros H;
    repeat match goal with
           | H : _ \/ _ |- _ => destruct H as [H | H]
           | H : False |- _ => destruct H
           end;
    try discriminate H; auto.
Qed.

End UiExtra.

(** ** The application entry point *)

Module AppExtra.

Import helpers Spec Extra OptionsModel ModelProps app.

Lemma evaluated_decision (self : model) :
  exists d, In d decision_labels
            /\ final_decision (fst (evaluate_status_lights self)) = Return d.
Proof.
  pose proof (ModelExtra.evaluate_status_map self) as Hmap.
  rewrite (DecisionExtra.final_decision_by_counts _ Hmap).
  eexists. split; [| reflexivity].
  unfold decision_labels.
  destruct (_ && _); [cbn; tauto |]. destruct (_ && _); cbn; tauto.
Qed.

Lemma settled_final_decision (self : model) :
  get_final_decision (snd (evaluate_status_lights self))
  = (final_decision (fst (evaluate_status_lights self)),
     snd (evaluate_status_lights self)).
Proof.
  unfold get_final_decision. rewrite (ModelExtra.evaluate_not_empty self).
  destruct (evaluate_status_lights_eq self) as [_ [Hst _]]. rewrite Hst.
  reflexivity.
Qed.

Lemma evaluate_after_compute (inp : Inputs) :
  evaluate_status_lights (snd (compute_metrics (Samples.fresh inp)))
  = (fst (evaluate_status_lights (Samples.fresh inp)),
     snd (evaluate_status_lights (Samples.fresh inp))).
Proof.
  change (snd (compute_metrics (Samples.fresh inp)))
    with (snd (ensure_metrics (Samples.fresh inp))).
  rewrite (ModelExtra.evaluate_after_ensure (Samples.fresh inp)).
  destruct (evaluate_status_lights (Samples.fresh inp)). reflexivity.
Qed.

Lemma settled_suggestions (inp : Inputs) :
  fst (get_strategy_suggestions (snd (evaluate_status_lights (Samples.fresh inp))))
  = fst (get_strategy_suggestions (Samples.fresh inp)).
Proof.
  destruct inp as [sy pr ps cs fp fc bp bc rk de vx at_ ua].
  destruct ua; reflexivity.
Qed.

Lemma fresh_final_decision (inp : Inputs) :
  fst (get_final_decision (Samples.fresh inp))
  = final_decision (fst (evaluate_status_lights (Samples.fresh inp))).
Proof.
  unfold get_final_decision.
  change (no_statuses (Samples.fresh inp)) with true. cbv iota. cbn [fst].
  destruct (evaluate_status_lights_eq (Samples.fresh inp)) as [_ [Hst _]].
  rewrite Hst. reflexivity.
Qed.

(** X28: what [main] leaves on the page.  Inputs that fail validation end in
    the branch of the unexpected errors, with the validation exception: the
    model is constructed outside the inner [try], and nothing inside it
    raises, so the branch that would show the validation message is never
    taken.  Accepted inputs give the metrics, statuses, decision and
    suggestions of one freshly constructed model. *)
Theorem main_outcome (inp : Inputs) :
  (forall msg, main inp <> ValidationMessage msg)
  /\ match validate_inputs inp with
     | Raise e => main inp = UnexpectedError e
     | Return _ =>
         exists d,
           In d decision_labels
           /\ fst (get_final_decision (Samples.fresh inp)) = Return d
           /\ main inp = Results (metrics_of inp)
                           (fst (evaluate_status_lights (Samples.fresh inp))) d
                           (fst (get_strategy_suggestions (Samples.fresh inp)))
     end.
Proof.
  assert (Hcases :
    match validate_inputs inp with
    | Raise e => main inp = UnexpectedError e
    | Return _ =>
        exists d,
          In d decision_labels
          /\ fst (get_final_decision (Samples.fresh inp)) = Return d
          /\ main inp = Results (metrics_of inp)
                          (fst (evaluate_status_lights (Samples.fresh inp))) d
                          (fst (get_strategy_suggestions (Samples.fresh inp)))
    end).
  { unfold main.
    change (init inp) with (validate_inputs inp ;;; Return (Samples.fresh inp)).
    destruct (validate_inputs inp) as [u | e]; cbn [bind]; [| reflexivity].
    destruct (evaluated_decision (Samples.fresh inp)) as [d [Hin Hd]].
    exists d. split; [exact Hin |]. split; [rewrite fresh_final_decision; exact Hd |].
    change (compute_metrics (Samples.fresh inp))
      with (metrics_of inp, snd (compute_metrics (Samples.fresh inp))).
    cbv beta iota.
    rewrite (evaluate_after_compute inp). cbv beta iota.
    rewrite (settled_final_decision (Samples.fresh inp)). cbv beta iota.
    rewrite Hd. cbn [bind].
    rewrite <- (settled_suggestions inp).
    destruct (get_strategy_suggestions (snd (evaluate_status_lights (Samples.fresh inp)))).
    reflexivity. }
  split; [| exact Hcases].
  intros msg Hmsg.
  destruct (validate_inputs inp) as [u | e].
  - destruct Hcases as [d [_ [_ Hres]]]. congruence.
  - congruence.
Qed.

End AppExtra.

(** ** The single-file script against the package *)

Module ScriptExtra.

Import helpers Spec Extra OptionsModel mechanical_options_app.
Local Open Scope float_scope.

Lemma script_statuses (inp : Inputs) :
  o_statuses (script inp) = fst (evaluate_status_lights (Samples.fresh inp)).
Proof.
  destruct inp as [sy pr ps cs fp fc bp bc rk de vx at_ ua].
  destruct ua; reflexivity.
Qed.

Lemma script_suggestions (inp : Inputs) :
  o_suggestions (script inp)
  = map script_wording (fst (get_strategy_suggestions (Samples.fresh inp))).
Proof.
  rewrite (ModelExtra.suggestions_pick (Samples.fresh inp)). cbv zeta.
  rewrite (ModelExtra.suggestions_statuses (Samples.fresh inp) eq_refl).
  rewrite <- (script_statuses inp).
  change (iv_rank (fst (ensure_metrics (Samples.fresh inp))))
    with (iv_rank_pct inp / 100).
  change (inputs (Samples.fresh inp)) with inp.
  unfold script. cbv zeta. cbn [o_suggestions o_statuses].
  match goal with
  | |- context [pick ?a ?b ?c] => destruct a; destruct b; destruct c
  end; reflexivity.
Qed.

Lemma wording_differs (a b c : bool) :
  map script_wording (pick a b c) = pick a b c
  <-> pick a b c <> [OptionsModel.NO_TRADE].
Proof.
  destruct a, b, c; vm_compute; split; intros H;
    try reflexivity; try (intros H'; discriminate H');
    try discriminate H.
  exfalso. apply H. reflexivity.
Qed.

(** X29: the single-file script computes what the package computes on a
    freshly constructed model holding the same inputs: the same statuses in
    the same order and the same decision; the suggestions are the same up to
    the text of the no-trade sentinel, so that the two lists are equal
    exactly when some strategy is suggested. *)
Theorem script_agrees_with_model (inp : Inputs) :
  let self := Samples.fresh inp in
  o_statuses (script inp) = fst (evaluate_status_lights self)
  /\ o_decision (script inp) = fst (get_final_decision self)
  /\ o_suggestions (script inp)
     = map script_wording (fst (get_strategy_suggestions self))
  /\ (o_suggestions (script inp) = fst (get_strategy_suggestions self)
      <-> fst (get_strategy_suggestions self) <> [OptionsModel.NO_TRADE]).
Proof.
  cbv zeta. split; [exact (script_statuses inp) |].
  split.
  { destruct inp as [sy pr ps cs fp fc bp bc rk de vx at_ ua].
    destruct ua; reflexivity. }
  split; [exact (script_suggestions inp) |].
  rewrite (script_suggestions inp).
  rewrite (ModelExtra.suggestions_pick (Samples.fresh inp)). cbv zeta.
  apply wording_differs.
Qed.

End ScriptExtra.
